(** * minikube: the start-up sequence of cmd/minikube/cmd/root.go

    A shallow embedding of [root.go]: the package initialiser [init], the
    configuration loader [initConfig] / [setupViper] / [setFlagsUsingViper]
    and the [PersistentPreRun] hook of [RootCmd].

    ([Execute] only hands over to cobra, which parses the command line,
    runs [initConfig] and then the hook; the parsed command line enters
    below as the state of the flags.)

    The program is glue around libraries (Go's [strings], [strconv], [flag]
    and [os]; [pflag], [viper], [cast], [glog] and libmachine's [log]).  Each
    library gets a module below that models the calls the program makes, as
    the library documents and implements them; the functions of [root.go]
    itself are translated line by line on top of these. *)

From Stdlib Require Import ZArith String Ascii List Lia DecimalString DecimalPos DecimalZ.
From stdpp Require Import base option list strings gmap.

Open Scope string_scope.
Open Scope Z_scope.

(* ===================================================================== *)
(** ** Go's [strings] package, on ASCII strings *)
(* ===================================================================== *)

Module GoStrings.

(** [unicode.ToUpper] / [unicode.ToLower] on one byte.  Keys, flag names
    and environment names of this program are ASCII; other bytes are left
    alone. *)
Definition upper_byte (c : ascii) : ascii :=
  let n := N_of_ascii c in
  if ((97 <=? n) && (n <=? 122))%N then ascii_of_N (n - 32) else c.

Definition lower_byte (c : ascii) : ascii :=
  let n := N_of_ascii c in
  if ((65 <=? n) && (n <=? 90))%N then ascii_of_N (n + 32) else c.

Fixpoint map_bytes (f : ascii -> ascii) (s : string) : string :=
  match s with
  | EmptyString => EmptyString
  | String c s' => String (f c) (map_bytes f s')
  end.

Definition ToUpper : string -> string := map_bytes upper_byte.
Definition ToLower : string -> string := map_bytes lower_byte.

(** [strings.Replacer], built by [strings.NewReplacer(old1, new1, ...)]:
    the pairs in argument order. *)
Definition Replacer := list (string * string).

Definition NewReplacer (oldnew : list (string * string)) : Replacer := oldnew.

(** The first pair, in argument order, whose non-empty [old] starts [s]. *)
Fixpoint lookup_pair (r : Replacer) (s : string) : option (string * string) :=
  match r with
  | [] => None
  | (old, new) :: r' =>
      if negb (String.eqb old "") && String.prefix old s
      then Some (old, new) else lookup_pair r' s
  end.

(** One pass from left to right without overlapping matches; [skip] counts
    the bytes of a matched [old] still to be dropped. *)
Fixpoint replace_from (r : Replacer) (skip : nat) (s : string) : string :=
  match s with
  | EmptyString => EmptyString
  | String c s' =>
      match skip with
      | S k => replace_from r k s'
      | O =>
          match lookup_pair r s with
          | Some (old, new) => new +:+ replace_from r (Nat.pred (String.length old)) s'
          | None => String c (replace_from r O s')
          end
      end
  end.

Definition Replace (r : Replacer) (s : string) : string := replace_from r O s.

End GoStrings.

(* ===================================================================== *)
(** ** Go's [strconv] package: the conversions the flag values use *)
(* ===================================================================== *)

Module Strconv.

Definition min_int64 : Z := - 2 ^ 63.
Definition max_int64 : Z := 2 ^ 63 - 1.

(** [strconv.FormatInt(i, 10)] and [strconv.Itoa]. *)
Definition FormatInt (i : Z) : string := NilZero.string_of_int (Z.to_int i).
Definition Itoa (i : Z) : string := FormatInt i.

(** [strconv.Atoi]: an optional sign, then one or more decimal digits; the
    result has to fit Go's [int] (64 bits).  [None] is a returned error. *)
Definition Atoi (s : string) : option Z :=
  let parsed :=
    match s with
    | String "+" s' => option_map Z.of_uint (NilZero.uint_of_string s')
    | _ => option_map Z.of_int (NilZero.int_of_string s)
    end in
  match parsed with
  | Some z => if (min_int64 <=? z) && (z <=? max_int64) then Some z else None
  | None => None
  end.

(** [strconv.FormatBool] and [strconv.ParseBool]. *)
Definition FormatBool (b : bool) : string := if b then "true" else "false".

Definition ParseBool (s : string) : option bool :=
  if existsb (String.eqb s) ["1"; "t"; "T"; "TRUE"; "true"; "True"] then Some true
  else if existsb (String.eqb s) ["0"; "f"; "F"; "FALSE"; "false"; "False"] then Some false
  else None.

End Strconv.

(* ===================================================================== *)
(** ** Flag values: Go's [flag.Value] interface and its implementations *)
(* ===================================================================== *)

Module FlagValue.

(** The dynamic types behind [flag.Value] that this program's flags have:
    glog's [Level] (an [int32], flag [v]), [flag]'s [boolValue]
    ([alsologtostderr], [logtostderr] and the two flags of [RootCmd]) and
    [stringValue] ([log_dir]).  pflag wraps a Go flag's value and forwards
    [String] and [Set] to it. *)
Inductive Value :=
| LevelValue (l : Z)
| BoolValue (b : bool)
| StringValue (s : string).

#[global] Instance Value_eq_dec : EqDecision Value.
Proof. solve_decision. Defined.

(** Conversion [Level(v)] of an [int] to [int32]: the low 32 bits, signed. *)
Definition to_int32 (z : Z) : Z := (z + 2 ^ 31) mod 2 ^ 32 - 2 ^ 31.

Definition in_int32 (z : Z) : Prop := - 2 ^ 31 <= z < 2 ^ 31.

(** A [Level] holds an [int32]. *)
Definition valid (v : Value) : Prop :=
  match v with
  | LevelValue l => in_int32 l
  | _ => True
  end.

(** [Value.String()]. *)
Definition String_ (v : Value) : string :=
  match v with
  | LevelValue l => Strconv.FormatInt l
  | BoolValue b => Strconv.FormatBool b
  | StringValue s => s
  end.

(** [Value.Set(s)]: the value afterwards and whether an error is returned.
    [Level.Set] leaves the level alone when [Atoi] fails; [boolValue.Set]
    stores the (false) result of a failed [ParseBool]; [stringValue.Set]
    cannot fail. *)
Definition Set_ (v : Value) (s : string) : Value * bool :=
  match v with
  | LevelValue l =>
      match Strconv.Atoi s with
      | Some z => (LevelValue (to_int32 z), false)
      | None => (LevelValue l, true)
      end
  | BoolValue _ =>
      match Strconv.ParseBool s with
      | Some b => (BoolValue b, false)
      | None => (BoolValue false, true)
      end
  | StringValue _ => (StringValue s, false)
  end.

End FlagValue.

(* ===================================================================== *)
(** ** Go's [flag] package and [pflag] *)
(* ===================================================================== *)

Module Pflag.
Import FlagValue.

(** [flag.Flag] of the standard library: no [Changed] marker.  [GoValue]
    is what the flag's value holds when pflag takes the flag over; from
    then on the pflag flag wraps that value, and this development keeps what
    it holds in the pflag record alone. *)
Record GoFlag := {
  GoName : string;
  GoValue : Value;
  GoDefValue : string;
}.

(** [pflag.Flag]. *)
Record Flag := {
  Name : string;
  Value_ : Value;
  DefValue : string;
  Changed : bool;
}.

(** [FlagSet.formal]: the registered flags by name.  No normalisation
    function is installed, so a flag is looked up under its plain name. *)
Abbreviation FlagSet := (gmap string Flag).

(** [FlagSet.Lookup(name)]; [None] is the nil pointer. *)
Definition Lookup (f : FlagSet) (name : string) : option Flag := f !! name.

(** [PFlagFromGoFlag]: the pflag flag wraps the Go flag's value.  Its
    [DefValue] is not the Go flag's but the text of the value at this
    moment ([goflag.Value.String()]). *)
Definition PFlagFromGoFlag (g : GoFlag) : Flag :=
  {| Name := GoName g; Value_ := GoValue g; DefValue := String_ (GoValue g);
     Changed := false |}.

(** [FlagSet.AddGoFlagSet]: [AddGoFlag] for every Go flag; a name that is
    already registered is skipped. *)
Definition AddGoFlagSet (f : FlagSet) (newSet : gmap string GoFlag) : FlagSet :=
  f ∪ (PFlagFromGoFlag <$> newSet).

(** [FlagSet.Bool(name, value, usage)]: a new bool flag whose [DefValue]
    is the value's [String()]; [None] is the panic of [AddFlag] on a
    redefined flag. *)
Definition Bool (f : FlagSet) (name : string) (value : bool) : option FlagSet :=
  match f !! name with
  | Some _ => None
  | None =>
      Some (<[name := {| Name := name; Value_ := BoolValue value;
                         DefValue := String_ (BoolValue value); Changed := false |}]> f)
  end.

(** [FlagSet.Set(name, value)], which parsing the command line calls for
    a flag that is given: set the value and mark the flag as changed.
    [None] is a returned error (no such flag, or a value the flag does not
    accept). *)
Definition FlagSet_Set (f : FlagSet) (name value : string) : option FlagSet :=
  match f !! name with
  | None => None
  | Some a =>
      match FlagValue.Set_ (Value_ a) value with
      | (_, true) => None
      | (v, false) =>
          Some (<[name := {| Name := Name a; Value_ := v; DefValue := DefValue a;
                             Changed := true |}]> f)
      end
  end.

(** Assignments through the pointer that [Lookup] returned. *)
Definition set_Value (a : Flag) (v : Value) : Flag :=
  {| Name := Name a; Value_ := v; DefValue := DefValue a; Changed := Changed a |}.

Definition set_Changed (a : Flag) (c : bool) : Flag :=
  {| Name := Name a; Value_ := Value_ a; DefValue := DefValue a; Changed := c |}.

End Pflag.

(* ===================================================================== *)
(** ** Decoded configuration values and [cast] *)
(* ===================================================================== *)

Module Cast.

(** The [interface{}] values viper stores: strings, bools, [int]s (as
    passed to [SetDefault]) and JSON numbers, which decode to [float64];
    [VFloat i] is the float64 of integral value [i] (fractions are left
    out).  A nil interface is the [None] of [option Val]. *)
Inductive Val :=
| VString (s : string)
| VBool (b : bool)
| VInt (i : Z)
| VFloat (i : Z).

#[global] Instance Val_eq_dec : EqDecision Val.
Proof. solve_decision. Defined.

(** [cast.ToString]: nil gives the empty string. *)
Definition ToString (i : option Val) : string :=
  match i with
  | Some (VString s) => s
  | Some (VBool b) => Strconv.FormatBool b
  | Some (VInt z) => Strconv.Itoa z
  | Some (VFloat z) => Strconv.FormatInt z
  | None => ""
  end.

(** [cast.ToBool]: nil and unparsable strings give false. *)
Definition ToBool (i : option Val) : bool :=
  match i with
  | Some (VBool b) => b
  | Some (VInt z) => negb (z =? 0)
  | Some (VString s) => default false (Strconv.ParseBool s)
  | Some (VFloat _) => false
  | None => false
  end.

End Cast.

(* ===================================================================== *)
(** ** Go's [os] package: paths, directories and files *)
(* ===================================================================== *)

Module Os.

(** A cleaned absolute path: the root, or a name below a parent. *)
Inductive path :=
| Root
| Child (parent : path) (name : string).

#[global] Instance path_eq_dec : EqDecision path.
Proof. solve_decision. Defined.

Fixpoint path_to_list (p : path) : list string :=
  match p with
  | Root => []
  | Child q n => n :: path_to_list q
  end.

Fixpoint list_to_path (l : list string) : path :=
  match l with
  | [] => Root
  | n :: l' => Child (list_to_path l') n
  end.

#[global] Instance path_countable : Countable path.
Proof.
  refine (inj_countable' path_to_list list_to_path _).
  intros p. induction p; simpl; congruence.
Defined.

(** The path as Go holds it, a string with ["/"] separators. *)
Fixpoint path_string (p : path) : string :=
  match p with
  | Root => "/"
  | Child Root n => "/" +:+ n
  | Child q n => path_string q +:+ "/" +:+ n
  end.

(** [filepath.Join(p, names...)]. *)
Definition Join (p : path) (names : list string) : path := fold_left Child names p.

(** What a regular file holds, as far as this program reads it: the result
    of decoding it in the configured format, keys lower-cased as viper
    stores them, or the decoder's error. *)
Inductive FileData :=
| Object (m : gmap string Cast.Val)
| Undecodable (reason : string).

Inductive node :=
| Dir (writable : bool)
| File (data : FileData).

(** The directory tree: a node for every existing path.  The root always
    exists; it is read-only unless the map says otherwise. *)
Abbreviation FS := (gmap path node).

Definition node_at (fs : FS) (p : path) : option node :=
  match fs !! p with
  | Some n => Some n
  | None => match p with Root => Some (Dir false) | _ => None end
  end.

Inductive Errno := EEXIST | ENOENT | ENOTDIR | EACCES | EISDIR.

(** [*os.PathError]. *)
Record PathError := {
  Op : string;
  Path : path;
  Err : Errno;
}.

Definition Errno_string (e : Errno) : string :=
  match e with
  | EEXIST => "file exists"
  | ENOENT => "no such file or directory"
  | ENOTDIR => "not a directory"
  | EACCES => "permission denied"
  | EISDIR => "is a directory"
  end.

(** [PathError.Error()]. *)
Definition Error (e : PathError) : string :=
  Op e +:+ " " +:+ path_string (Path e) +:+ ": " +:+ Errno_string (Err e).

(** [os.Stat]. *)
Definition Stat (fs : FS) (p : path) : node + PathError :=
  match node_at fs p with
  | Some n => inl n
  | None => inr {| Op := "stat"; Path := p; Err := ENOENT |}
  end.

(** [os.Mkdir(path, perm)]: the parent has to be a writable directory and
    the path free.  The new directory is writable when [perm] has the
    owner's write bit (the umask is taken to leave it). *)
Definition Mkdir (fs : FS) (p : path) (perm : Z) : FS * option PathError :=
  let fail e := (fs, Some {| Op := "mkdir"; Path := p; Err := e |}) in
  match node_at fs p, p with
  | Some _, _ => fail EEXIST
  | None, Root => fail EEXIST
  | None, Child parent _ =>
      match node_at fs parent with
      | None => fail ENOENT
      | Some (File _) => fail ENOTDIR
      | Some (Dir false) => fail EACCES
      | Some (Dir true) => (<[p := Dir (Z.testbit perm 7)]> fs, None)
      end
  end.

(** [os.MkdirAll(path, perm)], as in Go's [os/path.go]: return at once
    when the path is there (an error unless it is a directory); otherwise
    create the parent (when there is one below the root) and then the
    directory itself, and accept a failed [Mkdir] when the directory exists
    after all. *)
Fixpoint MkdirAll (fs : FS) (p : path) (perm : Z) : FS * option PathError :=
  match Stat fs p with
  | inl (Dir _) => (fs, None)
  | inl (File _) => (fs, Some {| Op := "mkdir"; Path := p; Err := ENOTDIR |})
  | inr _ =>
      let '(fs1, err) :=
        match p with
        | Child (Child _ _ as parent) _ => MkdirAll fs parent perm
        | _ => (fs, None)
        end in
      match err with
      | Some e => (fs1, Some e)
      | None =>
          match Mkdir fs1 p perm with
          | (fs2, Some e) =>
              match Stat fs2 p with
              | inl (Dir _) => (fs2, None)
              | _ => (fs2, Some e)
              end
          | (fs2, None) => (fs2, None)
          end
      end
  end.

(** [ioutil.ReadFile], up to decoding. *)
Definition ReadFile (fs : FS) (p : path) : FileData + PathError :=
  match node_at fs p with
  | Some (File d) => inl d
  | Some (Dir _) => inr {| Op := "read"; Path := p; Err := EISDIR |}
  | None => inr {| Op := "open"; Path := p; Err := ENOENT |}
  end.

End Os.

(* ===================================================================== *)
(** ** [viper]: the layered configuration store *)
(* ===================================================================== *)

Module Viper.
Import Cast Pflag.

(** The fields of [viper.Viper] the program reaches.  Keys are stored
    lower-cased; none of this program's keys contains the key delimiter
    ["."], so every key is a top-level one.  [pflags] maps a key to the
    name of the flag of [RootCmd.PersistentFlags()] bound to it (viper
    keeps the pointer and reads the flag when a value is looked up). *)
Record t := {
  configFile : option Os.path;
  configType : string;
  envPrefix : string;
  automaticEnvApplied : bool;
  envKeyReplacer : option GoStrings.Replacer;
  config : gmap string Val;
  override : gmap string Val;
  defaults : gmap string Val;
  pflags : gmap string string;
}.

(** [viper.New()]. *)
Definition New : t :=
  {| configFile := None; configType := ""; envPrefix := "";
     automaticEnvApplied := false; envKeyReplacer := None;
     config := ∅; override := ∅; defaults := ∅; pflags := ∅ |}.

Definition SetConfigFile (v : t) (p : Os.path) : t :=
  {| configFile := Some p; configType := configType v; envPrefix := envPrefix v;
     automaticEnvApplied := automaticEnvApplied v; envKeyReplacer := envKeyReplacer v;
     config := config v; override := override v; defaults := defaults v;
     pflags := pflags v |}.

Definition SetConfigType (v : t) (ty : string) : t :=
  {| configFile := configFile v; configType := ty; envPrefix := envPrefix v;
     automaticEnvApplied := automaticEnvApplied v; envKeyReplacer := envKeyReplacer v;
     config := config v; override := override v; defaults := defaults v;
     pflags := pflags v |}.

(** [SetEnvPrefix] stores the prefix upper-cased. *)
Definition SetEnvPrefix (v : t) (p : string) : t :=
  {| configFile := configFile v; configType := configType v;
     envPrefix := GoStrings.ToUpper p;
     automaticEnvApplied := automaticEnvApplied v; envKeyReplacer := envKeyReplacer v;
     config := config v; override := override v; defaults := defaults v;
     pflags := pflags v |}.

Definition SetEnvKeyReplacer (v : t) (r : GoStrings.Replacer) : t :=
  {| configFile := configFile v; configType := configType v; envPrefix := envPrefix v;
     automaticEnvApplied := automaticEnvApplied v; envKeyReplacer := Some r;
     config := config v; override := override v; defaults := defaults v;
     pflags := pflags v |}.

Definition AutomaticEnv (v : t) : t :=
  {| configFile := configFile v; configType := configType v; envPrefix := envPrefix v;
     automaticEnvApplied := true; envKeyReplacer := envKeyReplacer v;
     config := config v; override := override v; defaults := defaults v;
     pflags := pflags v |}.

Definition set_config (v : t) (c : gmap string Val) : t :=
  {| configFile := configFile v; configType := configType v; envPrefix := envPrefix v;
     automaticEnvApplied := automaticEnvApplied v; envKeyReplacer := envKeyReplacer v;
     config := c; override := override v; defaults := defaults v;
     pflags := pflags v |}.

(** [Set(key, value)]: the override layer, under the lower-cased key. *)
Definition Set_ (v : t) (key : string) (value : Val) : t :=
  {| configFile := configFile v; configType := configType v; envPrefix := envPrefix v;
     automaticEnvApplied := automaticEnvApplied v; envKeyReplacer := envKeyReplacer v;
     config := config v;
     override := <[GoStrings.ToLower key := value]> (override v);
     defaults := defaults v; pflags := pflags v |}.

(** [SetDefault(key, value)]: the defaults layer. *)
Definition SetDefault (v : t) (key : string) (value : Val) : t :=
  {| configFile := configFile v; configType := configType v; envPrefix := envPrefix v;
     automaticEnvApplied := automaticEnvApplied v; envKeyReplacer := envKeyReplacer v;
     config := config v; override := override v;
     defaults := <[GoStrings.ToLower key := value]> (defaults v);
     pflags := pflags v |}.

(** [BindPFlags(flags)]: [BindPFlag(flag.Name, flag)] for every flag
    registered in the set at the time of the call. *)
Definition BindPFlags (v : t) (flags : FlagSet) : t :=
  {| configFile := configFile v; configType := configType v; envPrefix := envPrefix v;
     automaticEnvApplied := automaticEnvApplied v; envKeyReplacer := envKeyReplacer v;
     config := config v; override := override v; defaults := defaults v;
     pflags := map_fold (fun _ flag acc => <[GoStrings.ToLower (Name flag) := Name flag]> acc)
                        (pflags v) flags |}.

(** [mergeWithEnvPrefix] and the key that [getEnv] hands to [os.Getenv]. *)
Definition mergeWithEnvPrefix (v : t) (key : string) : string :=
  if String.eqb (envPrefix v) "" then GoStrings.ToUpper key
  else GoStrings.ToUpper (envPrefix v +:+ "_" +:+ key).

Definition envKey (v : t) (key : string) : string :=
  match envKeyReplacer v with
  | Some r => GoStrings.Replace r key
  | None => key
  end.

(** The name of the environment variable consulted for a key. *)
Definition envName (v : t) (lcaseKey : string) : string :=
  envKey v (mergeWithEnvPrefix v lcaseKey).

(** [os.Getenv]: the empty string when the variable is unset. *)
Definition Getenv (environ : gmap string string) (name : string) : string :=
  default "" (environ !! name).

Definition getEnv (v : t) (environ : gmap string string) (key : string) : string :=
  Getenv environ (envKey v key).

(** What viper reads from a bound flag: a bool for a bool flag, the
    value's [String()] otherwise. *)
Definition flagVal (a : Flag) : Val :=
  match Value_ a with
  | FlagValue.BoolValue b => VBool b
  | w => VString (FlagValue.String_ w)
  end.

(** [find]: the first layer that has the key, in viper's order: the
    override of [Set], a bound flag that was changed, the environment (a
    non-empty variable, once [AutomaticEnv] is on), the config file, the
    defaults, and last the value of a bound flag that was not changed.  ([∪]
    on options keeps the left value.)  No key is bound with [BindEnv], no
    alias is registered and no remote store is configured in this program.
    Before viper's rewrite of [find] a changed bound flag came before the
    override; no key this program overrides is bound to a flag. *)
Definition find (v : t) (bound : FlagSet) (environ : gmap string string)
    (lcaseKey : string) : option Val :=
  let flag := pflags v !! lcaseKey ≫= Lookup bound in
  let val := getEnv v environ (mergeWithEnvPrefix v lcaseKey) in
  override v !! lcaseKey
  ∪ (flag ≫= fun a => if Changed a then Some (flagVal a) else None)
  ∪ (if automaticEnvApplied v && negb (String.eqb val "") then Some (VString val) else None)
  ∪ config v !! lcaseKey
  ∪ defaults v !! lcaseKey
  ∪ (flagVal <$> flag).

Definition Get (v : t) (bound : FlagSet) (environ : gmap string string)
    (key : string) : option Val :=
  find v bound environ (GoStrings.ToLower key).

Definition GetString v bound environ key : string := ToString (Get v bound environ key).
Definition GetBool v bound environ key : bool := ToBool (Get v bound environ key).

(** The errors [ReadInConfig] returns. *)
Inductive error :=
| ConfigFileNotFoundError
| UnsupportedConfigError (ty : string)
| ReadError (e : Os.PathError)
| ConfigParseError (reason : string).

Definition Error (e : error) : string :=
  match e with
  | ConfigFileNotFoundError => "Config File Not Found"
  | UnsupportedConfigError ty => "Unsupported Config Type " +:+ ty
  | ReadError e => Os.Error e
  | ConfigParseError reason => "While parsing config: " +:+ reason
  end.

Definition SupportedExts : list string :=
  ["json"; "toml"; "yaml"; "yml"; "properties"; "props"; "prop"; "hcl"].

(** [ReadInConfig] (as in viper 1.0): read the file set with
    [SetConfigFile], decode it into a fresh map and make that map the config
    layer.  A file that cannot be read or cannot be decoded leaves the
    layer as it was. *)
Definition ReadInConfig (v : t) (fs : Os.FS) : t * option error :=
  match configFile v with
  | None => (v, Some ConfigFileNotFoundError)
  | Some filename =>
      if negb (bool_decide (configType v ∈ SupportedExts))
      then (v, Some (UnsupportedConfigError (configType v)))
      else
        match Os.ReadFile fs filename with
        | inr e => (v, Some (ReadError e))
        | inl (Os.Undecodable reason) => (v, Some (ConfigParseError reason))
        | inl (Os.Object m) => (set_config v m, None)
        end
  end.

End Viper.

(* ===================================================================== *)
(** ** libmachine's [log] package *)
(* ===================================================================== *)

Module Log.

Inductive Writer := Stdout | Stderr | Discard.

(** The package logger: where it writes and whether debug output is on. *)
Record t := {
  outWriter : Writer;
  errWriter : Writer;
  isDebug : bool;
}.

(** The logger as libmachine creates it. *)
Definition New : t := {| outWriter := Stdout; errWriter := Stderr; isDebug := false |}.

Definition SetOutWriter (l : t) (w : Writer) : t :=
  {| outWriter := w; errWriter := errWriter l; isDebug := isDebug l |}.

Definition SetErrWriter (l : t) (w : Writer) : t :=
  {| outWriter := outWriter l; errWriter := w; isDebug := isDebug l |}.

Definition SetDebug (l : t) (debug : bool) : t :=
  {| outWriter := outWriter l; errWriter := errWriter l; isDebug := debug |}.

End Log.

(* ===================================================================== *)
(** ** [glog] *)
(* ===================================================================== *)

Module Glog.
Import FlagValue Pflag.

(** The flags glog's own [init] registers with Go's [flag.CommandLine]
    whose values this development keeps in the flag sets.  (The filter of
    [-vmodule] is kept apart, see [State].) *)
Definition flags : gmap string GoFlag :=
  list_to_map (map (fun g => (GoName g, g))
    [ {| GoName := "logtostderr"; GoValue := BoolValue false; GoDefValue := "false" |};
      {| GoName := "alsologtostderr"; GoValue := BoolValue false; GoDefValue := "false" |};
      {| GoName := "v"; GoValue := LevelValue 0; GoDefValue := "0" |};
      {| GoName := "log_dir"; GoValue := StringValue ""; GoDefValue := "" |} ]).

(** [logging.verbosity]: the variable behind flag [v].  The flag holds a
    pointer to it; here the flag record of [pflag.CommandLine] is the one
    place where it is stored. *)
Definition verbosity (f : FlagSet) : Z :=
  match f !! "v" with
  | Some a => match Value_ a with LevelValue l => l | _ => 0 end
  | None => 0
  end.

(** One entry of the filter of [-vmodule]: [modulePat].  [glob] stands
    for [filepath.Match(pattern, file)], which decides for a pattern that is
    not literal; the syntax of such patterns is not part of this
    development, so that what holds for every filter holds whatever the
    patterns match. *)
Record modulePat := {
  pattern : string;
  literal : bool;
  level : Z;
  glob : string -> bool;
}.

(** [modulePat.match]. *)
Definition match_ (m : modulePat) (file : string) : bool :=
  if literal m then String.eqb file (pattern m) else glob m file.

(** [loggingT.setV]: the level of the first pattern of the filter that
    matches the file of the caller, 0 when none does.  (glog remembers the
    answer per call site in [vmap] and empties that map whenever [v] or
    [vmodule] is set; here it is computed at every call.) *)
Fixpoint setV (filter : list modulePat) (file : string) : Z :=
  match filter with
  | [] => 0
  | m :: filter' => if match_ m file then level m else setV filter' file
  end.

(** [glog.V(level)] called from [file] (the caller's source file without
    directory and [.go]): true when the verbosity is at least [level];
    otherwise, with a filter set by [-vmodule], true when the level the
    filter gives the file is at least [level]. *)
Definition V (f : FlagSet) (filter : list modulePat) (file : string) (level : Z) : bool :=
  if level <=? verbosity f then true
  else
    match filter with
    | [] => false
    | _ :: _ => level <=? setV filter file
    end.

End Glog.

(* ===================================================================== *)
(** ** The process: its state, what it prints and how it ends *)
(* ===================================================================== *)

(** What the process lets the outside see. *)
Inductive event :=
| GlogWarning (msg : string)          (* glog.Warningf *)
| GlogFatal (msg : string)            (* the message of glog.Exitf *)
| Println (text : string)             (* fmt.Println *)
| UpdateNotificationCheck             (* notify.MaybePrintUpdateTextFromGithub(os.Stderr) *)
| KubectlDownloadMsgCheck.            (* util.MaybePrintKubectlDownloadMsg() *)

#[global] Instance event_eq_dec : EqDecision event.
Proof. solve_decision. Defined.

(** The functions [cobra.OnInitialize] has been given. *)
Inductive initializer := InitConfig.

(** The package-level variables of [cmd] and of the libraries, and the
    process's surroundings. *)
Record State := {
  goflag_CommandLine : gmap string Pflag.GoFlag;   (* flag.CommandLine *)
  glog_vmodule : list Glog.modulePat;              (* logging.vmodule.filter of glog *)
  pflag_CommandLine : gmap string Pflag.Flag;      (* pflag.CommandLine *)
  PersistentFlags : gmap string Pflag.Flag;        (* RootCmd.PersistentFlags() *)
  viper : Viper.t;                                 (* viper's global instance *)
  initializers : list initializer;                 (* cobra's initializers *)
  libmachine_log : Log.t;
  enableUpdateNotification : bool;
  enableKubectlDownloadMsg : bool;
  clientType : Z;
  environ : gmap string string;                    (* the environment *)
  filesystem : gmap Os.path Os.node;
  output : list event;                             (* oldest first *)
}.

Definition set_glog_vmodule (st : State) (filter : list Glog.modulePat) : State :=
  {| goflag_CommandLine := goflag_CommandLine st; glog_vmodule := filter;
     pflag_CommandLine := pflag_CommandLine st;
     PersistentFlags := PersistentFlags st; viper := viper st;
     initializers := initializers st; libmachine_log := libmachine_log st;
     enableUpdateNotification := enableUpdateNotification st;
     enableKubectlDownloadMsg := enableKubectlDownloadMsg st;
     clientType := clientType st; environ := environ st;
     filesystem := filesystem st; output := output st |}.

Definition set_pflag_CommandLine (st : State) (f : gmap string Pflag.Flag) : State :=
  {| goflag_CommandLine := goflag_CommandLine st; glog_vmodule := glog_vmodule st;
     pflag_CommandLine := f;
     PersistentFlags := PersistentFlags st; viper := viper st;
     initializers := initializers st; libmachine_log := libmachine_log st;
     enableUpdateNotification := enableUpdateNotification st;
     enableKubectlDownloadMsg := enableKubectlDownloadMsg st;
     clientType := clientType st; environ := environ st;
     filesystem := filesystem st; output := output st |}.

Definition set_PersistentFlags (st : State) (f : gmap string Pflag.Flag) : State :=
  {| goflag_CommandLine := goflag_CommandLine st; glog_vmodule := glog_vmodule st;
     pflag_CommandLine := pflag_CommandLine st;
     PersistentFlags := f; viper := viper st;
     initializers := initializers st; libmachine_log := libmachine_log st;
     enableUpdateNotification := enableUpdateNotification st;
     enableKubectlDownloadMsg := enableKubectlDownloadMsg st;
     clientType := clientType st; environ := environ st;
     filesystem := filesystem st; output := output st |}.

Definition set_viper (st : State) (v : Viper.t) : State :=
  {| goflag_CommandLine := goflag_CommandLine st; glog_vmodule := glog_vmodule st;
     pflag_CommandLine := pflag_CommandLine st;
     PersistentFlags := PersistentFlags st; viper := v;
     initializers := initializers st; libmachine_log := libmachine_log st;
     enableUpdateNotification := enableUpdateNotification st;
     enableKubectlDownloadMsg := enableKubectlDownloadMsg st;
     clientType := clientType st; environ := environ st;
     filesystem := filesystem st; output := output st |}.

Definition set_initializers (st : State) (l : list initializer) : State :=
  {| goflag_CommandLine := goflag_CommandLine st; glog_vmodule := glog_vmodule st;
     pflag_CommandLine := pflag_CommandLine st;
     PersistentFlags := PersistentFlags st; viper := viper st;
     initializers := l; libmachine_log := libmachine_log st;
     enableUpdateNotification := enableUpdateNotification st;
     enableKubectlDownloadMsg := enableKubectlDownloadMsg st;
     clientType := clientType st; environ := environ st;
     filesystem := filesystem st; output := output st |}.

Definition set_libmachine_log (st : State) (l : Log.t) : State :=
  {| goflag_CommandLine := goflag_CommandLine st; glog_vmodule := glog_vmodule st;
     pflag_CommandLine := pflag_CommandLine st;
     PersistentFlags := PersistentFlags st; viper := viper st;
     initializers := initializers st; libmachine_log := l;
     enableUpdateNotification := enableUpdateNotification st;
     enableKubectlDownloadMsg := enableKubectlDownloadMsg st;
     clientType := clientType st; environ := environ st;
     filesystem := filesystem st; output := output st |}.

Definition set_clientType (st : State) (c : Z) : State :=
  {| goflag_CommandLine := goflag_CommandLine st; glog_vmodule := glog_vmodule st;
     pflag_CommandLine := pflag_CommandLine st;
     PersistentFlags := PersistentFlags st; viper := viper st;
     initializers := initializers st; libmachine_log := libmachine_log st;
     enableUpdateNotification := enableUpdateNotification st;
     enableKubectlDownloadMsg := enableKubectlDownloadMsg st;
     clientType := c; environ := environ st;
     filesystem := filesystem st; output := output st |}.

Definition set_filesystem (st : State) (fs : gmap Os.path Os.node) : State :=
  {| goflag_CommandLine := goflag_CommandLine st; glog_vmodule := glog_vmodule st;
     pflag_CommandLine := pflag_CommandLine st;
     PersistentFlags := PersistentFlags st; viper := viper st;
     initializers := initializers st; libmachine_log := libmachine_log st;
     enableUpdateNotification := enableUpdateNotification st;
     enableKubectlDownloadMsg := enableKubectlDownloadMsg st;
     clientType := clientType st; environ := environ st;
     filesystem := fs; output := output st |}.

Definition set_output (st : State) (o : list event) : State :=
  {| goflag_CommandLine := goflag_CommandLine st; glog_vmodule := glog_vmodule st;
     pflag_CommandLine := pflag_CommandLine st;
     PersistentFlags := PersistentFlags st; viper := viper st;
     initializers := initializers st; libmachine_log := libmachine_log st;
     enableUpdateNotification := enableUpdateNotification st;
     enableKubectlDownloadMsg := enableKubectlDownloadMsg st;
     clientType := clientType st; environ := environ st;
     filesystem := filesystem st; output := o |}.

(** How a piece of the program ends: it returns, the process exits with a
    status ([os.Exit]), or a run-time panic stops it. *)
Inductive result (A : Type) :=
| Return (a : A) (st : State)
| Exit (code : Z) (st : State)
| Panic (msg : string) (st : State).
Arguments Return {A} a st.
Arguments Exit {A} code st.
Arguments Panic {A} msg st.

(** Statements: state passing, ended early by an exit or a panic. *)
Definition M (A : Type) : Type := State -> result A.

#[global] Instance M_ret : MRet M := fun A a st => Return a st.

#[global] Instance M_bind : MBind M := fun A B f m st =>
  match m st with
  | Return a st' => f a st'
  | Exit code st' => Exit code st'
  | Panic msg st' => Panic msg st'
  end.

Definition get : M State := fun st => Return st st.
Definition modify (f : State -> State) : M unit := fun st => Return tt (f st).
Definition emit (e : event) : M unit := modify (fun st => set_output st (output st ++ [e])).
Definition os_Exit {A} (code : Z) : M A := fun st => Exit code st.
Definition panic {A} (msg : string) : M A := fun st => Panic msg st.

(** [if c { body }]. *)
Definition when (c : bool) (body : M unit) : M unit := if c then body else mret tt.

(** [for _, x := range l { body }]. *)
Fixpoint for_range {A} (l : list A) (body : A -> M unit) : M unit :=
  match l with
  | [] => mret tt
  | x :: l' => body x ;; for_range l' body
  end.

(** Dereferencing what [pflag.Lookup] returned: a nil pointer panics. *)
Definition deref {A} (p : option A) : M A :=
  match p with
  | Some a => mret a
  | None => panic "invalid memory address or nil pointer dereference"
  end.

(** [glog.Exitf]: log the message, then [os.Exit(1)]. *)
Definition glog_Exitf {A} (msg : string) : M A := emit (GlogFatal msg) ;; os_Exit 1.

Definition glog_Warningf (msg : string) : M unit := emit (GlogWarning msg).

(** The file of [root.go] as glog names the caller of [glog.V]. *)
Definition caller_file : string := "root".

Definition glog_V (level : Z) : M bool :=
  st ← get; mret (Glog.V (pflag_CommandLine st) (glog_vmodule st) caller_file level).

Definition viper_GetBool (key : string) : M bool :=
  st ← get; mret (Viper.GetBool (viper st) (PersistentFlags st) (environ st) key).

Definition viper_GetString (key : string) : M string :=
  st ← get; mret (Viper.GetString (viper st) (PersistentFlags st) (environ st) key).

Definition viper_do (f : Viper.t -> Viper.t) : M unit :=
  modify (fun st => set_viper st (f (viper st))).

Definition log_do (f : Log.t -> Log.t) : M unit :=
  modify (fun st => set_libmachine_log st (f (libmachine_log st))).

Definition viper_ReadInConfig : M (option Viper.error) := fun st =>
  let '(v, err) := Viper.ReadInConfig (viper st) (filesystem st) in
  Return err (set_viper st v).

Definition os_MkdirAll (path : Os.path) (perm : Z) : M (option Os.PathError) := fun st =>
  let '(fs, err) := Os.MkdirAll (filesystem st) path perm in
  Return err (set_filesystem st fs).

(** [RootCmd.PersistentFlags().Bool(name, value, usage)]. *)
Definition PersistentFlags_Bool (name : string) (value : bool) : M unit := fun st =>
  match Pflag.Bool (PersistentFlags st) name value with
  | Some f => Return tt (set_PersistentFlags st f)
  | None => Panic (name +:+ " flag redefined: " +:+ name) st
  end.

(** Writing through the pointer [pflag.Lookup(name)] gave. *)
Definition store_flag (name : string) (a : Pflag.Flag) : M unit :=
  modify (fun st => set_pflag_CommandLine st (<[name := a]> (pflag_CommandLine st))).

(** The process when [main] is about to run the package initialisers of
    [cmd]: glog has registered its flags, nothing else has happened. *)
Definition process_start (env : gmap string string) (fs : gmap Os.path Os.node) : State :=
  {| goflag_CommandLine := Glog.flags; glog_vmodule := []; pflag_CommandLine := ∅;
     PersistentFlags := ∅;
     viper := Viper.New; initializers := []; libmachine_log := Log.New;
     enableUpdateNotification := true; enableKubectlDownloadMsg := true;
     clientType := 0; environ := env; filesystem := fs; output := [] |}.


(* ===================================================================== *)
(** ** A concrete installation *)
(* ===================================================================== *)

(** Values for what [root.go] takes from the rest of the repository, and a
    few states of the process, to run the program on. *)
Module Sample.
Import FlagValue Pflag Cast.

Definition Minipath : Os.path :=
  Os.Child (Os.Child (Os.Child Os.Root "home") "user") ".minikube".
Definition MakeMiniPath (names : list string) : Os.path := Os.Join Minipath names.
Definition ConfigFile : Os.path := MakeMiniPath ["config"; "config.json"].
Definition MinikubeEnvPrefix : string := "MINIKUBE".
Definition WantUpdateNotification : string := "WantUpdateNotification".
Definition ReminderWaitPeriodInHours : string := "ReminderWaitPeriodInHours".
Definition WantReportError : string := "WantReportError".
Definition WantReportErrorPrompt : string := "WantReportErrorPrompt".
Definition WantKubectlDownloadMsg : string := "WantKubectlDownloadMsg".
Definition GetClientType (st : State) : Z := 0.

(** A home directory and nothing of minikube in it yet. *)
Definition fresh_home : gmap Os.path Os.node :=
  {[ Os.Child Os.Root "home" := Os.Dir false;
     Os.Child (Os.Child Os.Root "home") "user" := Os.Dir true ]}.

(** A regular file sits where the minikube directory should be. *)
Definition blocked_home : gmap Os.path Os.node :=
  <[Minipath := Os.File (Os.Undecodable "unexpected end of JSON input")]> fresh_home.

(** The minikube directory with a config file of the given content. *)
Definition home_with_config (data : Os.FileData) : gmap Os.path Os.node :=
  <[ConfigFile := Os.File data]>
    (<[MakeMiniPath ["config"] := Os.Dir true]>
       (<[Minipath := Os.Dir true]> fresh_home)).

(** The flags of [pflag.CommandLine] as [init] leaves them. *)
Definition flags : gmap string Flag :=
  {[ "logtostderr" := {| Name := "logtostderr"; Value_ := BoolValue false;
                         DefValue := "false"; Changed := false |};
     "alsologtostderr" := {| Name := "alsologtostderr"; Value_ := BoolValue false;
                             DefValue := "false"; Changed := false |};
     "v" := {| Name := "v"; Value_ := LevelValue 0; DefValue := "0"; Changed := false |};
     "log_dir" := {| Name := "log_dir";
                     Value_ := StringValue "/home/user/.minikube/logs";
                     DefValue := ""; Changed := false |} ]}.

(** The same with the named flag given on the command line. *)
Definition flags_with (name value : string) : gmap string Flag :=
  default flags (Pflag.FlagSet_Set flags name value).

(** The flags of [RootCmd]. *)
Definition persistent_flags : gmap string Flag :=
  {[ "show-libmachine-logs" := {| Name := "show-libmachine-logs";
                                  Value_ := BoolValue false;
                                  DefValue := "false"; Changed := false |};
     "use-vendored-driver" := {| Name := "use-vendored-driver";
                                 Value_ := BoolValue false;
                                 DefValue := "false"; Changed := false |} ]}.

(** The process after [init], with the given flags of [pflag.CommandLine],
    environment and file system. *)
Definition started (f : gmap string Flag) (env : gmap string string)
    (fs : gmap Os.path Os.node) : State :=
  {| goflag_CommandLine := Glog.flags; glog_vmodule := []; pflag_CommandLine := f;
     PersistentFlags := persistent_flags;
     viper := Viper.BindPFlags Viper.New persistent_flags;
     initializers := [InitConfig]; libmachine_log := Log.New;
     enableUpdateNotification := true; enableKubectlDownloadMsg := true;
     clientType := 0; environ := env; filesystem := fs; output := [] |}.

(** The entry [root=n] of [-vmodule]: a literal pattern, which names
    [root.go]. *)
Definition root_at (n : Z) : Glog.modulePat :=
  {| Glog.pattern := "root"; Glog.literal := true; Glog.level := n;
     Glog.glob := fun _ => false |}.

(** libmachine's logger with both writers discarding, and with debug
    output on. *)
Definition discarding : Log.t :=
  {| Log.outWriter := Log.Discard; Log.errWriter := Log.Discard; Log.isDebug := false |}.
Definition debugging : Log.t :=
  {| Log.outWriter := Log.Stdout; Log.errWriter := Log.Stderr; Log.isDebug := true |}.

(** The process as it starts when Go's [v], declared with default 0, has
    been set to 2 before [init] runs. *)
Definition v_preset : State :=
  {| goflag_CommandLine :=
       <["v" := {| GoName := "v"; GoValue := LevelValue 2; GoDefValue := "0" |}]> Glog.flags;
     glog_vmodule := []; pflag_CommandLine := ∅; PersistentFlags := ∅;
     viper := Viper.New; initializers := []; libmachine_log := Log.New;
     enableUpdateNotification := true; enableKubectlDownloadMsg := true;
     clientType := 0; environ := ∅; filesystem := fresh_home; output := [] |}.

(** A process in which glog has not registered its flags. *)
Definition without_glog : State :=
  {| goflag_CommandLine := ∅; glog_vmodule := []; pflag_CommandLine := ∅;
     PersistentFlags := ∅;
     viper := Viper.New; initializers := []; libmachine_log := Log.New;
     enableUpdateNotification := true; enableKubectlDownloadMsg := true;
     clientType := 0; environ := ∅; filesystem := fresh_home; output := [] |}.

(** The process before [init] with a [log_dir] flag that is already set. *)
Definition log_dir_given : State :=
  set_pflag_CommandLine (process_start ∅ fresh_home) (flags_with "log_dir" "/tmp/logs").

(** The process after [init] with [--show-libmachine-logs] on the command
    line. *)
Definition deprecated_flag_given : State :=
  set_PersistentFlags (started flags ∅ fresh_home)
    (default persistent_flags
       (Pflag.FlagSet_Set persistent_flags "show-libmachine-logs" "true")).

End Sample.

(* ===================================================================== *)
(** ** cmd/minikube/cmd/root.go *)
(* ===================================================================== *)

Section root_go.
Import FlagValue Pflag Cast.

(** What [root.go] takes from other packages of the repository:
    [constants.Minipath], [constants.MakeMiniPath], [constants.ConfigFile]
    and [constants.MinikubeEnvPrefix]; the configuration keys of package
    [config]; and [configCmd.GetClientType], a lookup in the resolved
    configuration. *)
Variable Minipath : Os.path.
Variable MakeMiniPath : list string -> Os.path.
Variable ConfigFile : Os.path.
Variable MinikubeEnvPrefix : string.
Variable WantUpdateNotification : string.
Variable ReminderWaitPeriodInHours : string.
Variable WantReportError : string.
Variable WantReportErrorPrompt : string.
Variable WantKubectlDownloadMsg : string.
Variable GetClientType : State -> Z.

Definition dirs : list Os.path :=
  [ Minipath;
    MakeMiniPath ["certs"];
    MakeMiniPath ["machines"];
    MakeMiniPath ["cache"];
    MakeMiniPath ["cache"; "iso"];
    MakeMiniPath ["cache"; "localkube"];
    MakeMiniPath ["config"];
    MakeMiniPath ["addons"];
    MakeMiniPath ["logs"] ].

Definition showLibmachineLogs : string := "show-libmachine-logs".
Definition useVendoredDriver : string := "use-vendored-driver".

Definition viperWhiteList : list string := ["v"; "alsologtostderr"; "log_dir"].

Definition deprecation_notice : string :=
"
--show-libmachine-logs is deprecated.
Please use --v=3 to show libmachine logs, and --v=7 for debug level libmachine logs
".

(** Lines 74-78 of [PersistentPreRun]: create the directories, or exit. *)
Definition createDirs : M unit :=
  for_range dirs (fun path =>
    err ← os_MkdirAll path 511 (* 0777 *);
    match err with
    | Some err => glog_Exitf ("Error creating minikube directory: " +:+ Os.Error err)
    | None => mret tt
    end).

(** [RootCmd.PersistentPreRun]. *)
Definition PersistentPreRun : M unit :=
  createDirs ;;
  deprecated ← viper_GetBool showLibmachineLogs;
  when deprecated (emit (Println deprecation_notice)) ;;
  modify (fun st => set_clientType st (GetClientType st)) ;;
  (* Log level 3 or greater enables libmachine logs *)
  v3 ← glog_V 3;
  when (negb v3)
    (log_do (fun l => Log.SetOutWriter l Log.Discard) ;;
     log_do (fun l => Log.SetErrWriter l Log.Discard)) ;;
  (* Log level 7 or greater enables debug level logs *)
  v7 ← glog_V 7;
  when v7 (log_do (fun l => Log.SetDebug l true)) ;;
  st ← get;
  when (enableUpdateNotification st) (emit UpdateNotificationCheck) ;;
  st ← get;
  when (enableKubectlDownloadMsg st) (emit KubectlDownloadMsgCheck).

(** The body of the loop of [setFlagsUsingViper]. *)
Definition setFlagUsingViper (config : string) : M unit :=
  st ← get;
  a ← deref (Pflag.Lookup (pflag_CommandLine st) config);
  viper_do (fun v => Viper.SetDefault v (Name a) (VString (DefValue a))) ;;
  (* If the flag is set, override viper value *)
  when (Changed a)
    (viper_do (fun v => Viper.Set_ v (Name a) (VString (String_ (Value_ a))))) ;;
  s ← viper_GetString (Name a);
  store_flag config (set_Changed (set_Value a (fst (Set_ (Value_ a) s))) true).

Definition setFlagsUsingViper : M unit :=
  for_range viperWhiteList setFlagUsingViper.

(** The package initialiser.  (The two calls of [RootCmd.AddCommand] hang
    the config and addons commands into the command tree, which has no part
    in what follows and is not kept in the state.) *)
Definition init : M unit :=
  PersistentFlags_Bool showLibmachineLogs false ;;
  PersistentFlags_Bool useVendoredDriver false ;;
  modify (fun st => set_pflag_CommandLine st
            (Pflag.AddGoFlagSet (pflag_CommandLine st) (goflag_CommandLine st))) ;;
  st ← get;
  logDir ← deref (Pflag.Lookup (pflag_CommandLine st) "log_dir");
  when (negb (Changed logDir))
    (store_flag "log_dir"
       (set_Value logDir
          (fst (Set_ (Value_ logDir) (Os.path_string (MakeMiniPath ["logs"])))))) ;;
  st ← get;
  viper_do (fun v => Viper.BindPFlags v (PersistentFlags st)) ;;
  modify (fun st => set_initializers st (initializers st ++ [InitConfig])).

Definition setupViper : M unit :=
  viper_do (fun v => Viper.SetEnvPrefix v MinikubeEnvPrefix) ;;
  viper_do (fun v => Viper.SetEnvKeyReplacer v (GoStrings.NewReplacer [("-", "_")])) ;;
  viper_do Viper.AutomaticEnv ;;
  viper_do (fun v => Viper.SetDefault v WantUpdateNotification (VBool true)) ;;
  viper_do (fun v => Viper.SetDefault v ReminderWaitPeriodInHours (VInt 24)) ;;
  viper_do (fun v => Viper.SetDefault v WantReportError (VBool false)) ;;
  viper_do (fun v => Viper.SetDefault v WantReportErrorPrompt (VBool true)) ;;
  viper_do (fun v => Viper.SetDefault v WantKubectlDownloadMsg (VBool true)) ;;
  setFlagsUsingViper.

(** [initConfig] reads in config file and ENV variables if set. *)
Definition initConfig : M unit :=
  let configPath := ConfigFile in
  viper_do (fun v => Viper.SetConfigFile v configPath) ;;
  viper_do (fun v => Viper.SetConfigType v "json") ;;
  err ← viper_ReadInConfig;
  match err with
  | Some err =>
      glog_Warningf ("Error reading config file at " +:+ Os.path_string configPath
                     +:+ ": " +:+ Viper.Error err)
  | None => mret tt
  end ;;
  setupViper.

(* =================================================================== *)
(** ** Notions used to state and prove the properties *)
(* =================================================================== *)

(** The replacer of [setupViper] maps byte by byte. *)
Definition dash_to_underscore (c : ascii) : ascii :=
  if Ascii.eqb c "-" then "_"%char else c.

(** Two values of the same dynamic type. *)
Definition same_type (v w : Value) : bool :=
  match v, w with
  | LevelValue _, LevelValue _ | BoolValue _, BoolValue _
  | StringValue _, StringValue _ => true
  | _, _ => false
  end.

(** viper after the round for flag [a]. *)
Definition resolved_viper (a : Flag) (v : Viper.t) : Viper.t :=
  let v1 := Viper.SetDefault v (Name a) (VString (DefValue a)) in
  if Changed a then Viper.Set_ v1 (Name a) (VString (String_ (Value_ a))) else v1.

(** The flag after its round. *)
Definition resolved_flag (st : State) (a : Flag) : Flag :=
  let s := Viper.GetString (resolved_viper a (viper st)) (PersistentFlags st)
             (environ st) (Name a) in
  set_Changed (set_Value a (fst (Set_ (Value_ a) s))) true.

(** Every name of the list has a registered flag. *)
Definition registered (l : list string) (st : State) : Prop :=
  forall n, n ∈ l -> is_Some (pflag_CommandLine st !! n).

(** The flag registered as [name] is marked as changed and holds [val]. *)
Definition supplied (name : string) (val : Value) (st : State) : Prop :=
  exists a, pflag_CommandLine st !! name = Some a
            /\ Changed a = true /\ Value_ a = val.

(** Flags are registered under their own names. *)
Definition wellnamed (l : list string) (st : State) : Prop :=
  forall n b, n ∈ l -> pflag_CommandLine st !! n = Some b -> Name b = n.

(** The flag [a] is registered as [name], and with any default [d] for
    that key viper resolves the key to [r d]. *)
Definition resolves_to (name : string) (a : Flag) (r : Val -> option Val)
    (st : State) : Prop :=
  pflag_CommandLine st !! name = Some a
  /\ forall d, Viper.Get (Viper.SetDefault (viper st) name d)
                (PersistentFlags st) (environ st) name = r d.

(** viper once [setupViper] has set the rules for the environment and the
    defaults of the configuration keys. *)
Definition with_env_rules (v : Viper.t) : Viper.t :=
  let v := Viper.SetEnvPrefix v MinikubeEnvPrefix in
  let v := Viper.SetEnvKeyReplacer v (GoStrings.NewReplacer [("-", "_")]) in
  Viper.AutomaticEnv v.

Definition with_setup (v : Viper.t) : Viper.t :=
  let v := with_env_rules v in
  let v := Viper.SetDefault v WantUpdateNotification (VBool true) in
  let v := Viper.SetDefault v ReminderWaitPeriodInHours (VInt 24) in
  let v := Viper.SetDefault v WantReportError (VBool false) in
  let v := Viper.SetDefault v WantReportErrorPrompt (VBool true) in
  Viper.SetDefault v WantKubectlDownloadMsg (VBool true).

(** viper once [initConfig] has tried to read the config file, and the
    error of that attempt. *)
Definition with_config_file (st : State) : Viper.t * option Viper.error :=
  Viper.ReadInConfig
    (Viper.SetConfigType (Viper.SetConfigFile (viper st) ConfigFile) "json")
    (filesystem st).

Definition read_warning (err : Viper.error) : event :=
  GlogWarning ("Error reading config file at " +:+ Os.path_string ConfigFile
               +:+ ": " +:+ Viper.Error err).

(** The state in which [initConfig] reaches [setFlagsUsingViper]. *)
Definition before_resolution (st : State) : State :=
  set_viper
    (set_output st
       (output st ++ match snd (with_config_file st) with
                     | Some err => [read_warning err]
                     | None => []
                     end))
    (with_setup (fst (with_config_file st))).

(** The environment variable viper consults for a key after [setupViper]. *)
Definition env_var (key : string) : string :=
  Viper.envName (with_env_rules Viper.New) (GoStrings.ToLower key).

(** A config-file value read at the type of a flag: a number for a
    [Level] (within [int32]), a bool for a bool flag, a string for a string
    flag. *)
Definition as_flag_value (v : Value) (c : Val) : option Value :=
  match v, c with
  | LevelValue _, VFloat i | LevelValue _, VInt i =>
      if (- 2 ^ 31 <=? i) && (i <? 2 ^ 31) then Some (LevelValue i) else None
  | BoolValue _, VBool b => Some (BoolValue b)
  | StringValue _, VString s => Some (StringValue s)
  | _, _ => None
  end.

(** What the rounds for the names of [l] leave alone. *)
Definition rounds_frame (l : list string) (st st' : State) : Prop :=
  output st' = output st
  /\ environ st' = environ st
  /\ PersistentFlags st' = PersistentFlags st
  /\ Viper.config (viper st') = Viper.config (viper st)
  /\ Viper.pflags (viper st') = Viper.pflags (viper st)
  /\ Viper.envPrefix (viper st') = Viper.envPrefix (viper st)
  /\ Viper.envKeyReplacer (viper st') = Viper.envKeyReplacer (viper st)
  /\ Viper.automaticEnvApplied (viper st') = Viper.automaticEnvApplied (viper st)
  /\ forall k, k ∉ l ->
       Viper.override (viper st') !! k = Viper.override (viper st) !! k
       /\ Viper.defaults (viper st') !! k = Viper.defaults (viper st) !! k.

(** Upper-cased, with every ['-'] replaced by ['_']. *)
Definition env_form (s : string) : string :=
  GoStrings.map_bytes dash_to_underscore (GoStrings.ToUpper s).

(** The name the specification gives: the prefix, ['_'], the key in
    environment form. *)
Definition env_var_spec (prefix key : string) : string :=
  prefix +:+ "_" +:+ env_form key.

(** The defaults [setupViper] compiles in, in the order of the source. *)
Definition compiled_defaults : list (string * Val) :=
  [ (WantUpdateNotification, VBool true);
    (ReminderWaitPeriodInHours, VInt 24);
    (WantReportError, VBool false);
    (WantReportErrorPrompt, VBool true);
    (WantKubectlDownloadMsg, VBool true) ].

(** The configuration keys and the whitelisted flag names are pairwise
    different, also without regard to case. *)
Definition distinct_keys : Prop :=
  NoDup (GoStrings.ToLower <$> ((compiled_defaults.*1) ++ viperWhiteList)%list).

Definition is_dir (fs : gmap Os.path Os.node) (p : Os.path) : Prop :=
  exists w, Os.node_at fs p = Some (Os.Dir w).

(** Every node that is there stays as it is. *)
Definition grows (fs fs' : gmap Os.path Os.node) : Prop :=
  forall p n, Os.node_at fs p = Some n -> Os.node_at fs' p = Some n.

(** The map is a tree: what exists lies in a directory. *)
Definition tree (fs : gmap Os.path Os.node) : Prop :=
  forall p name n, fs !! Os.Child p name = Some n -> is_dir fs p.

(** The same as a test. *)
Definition is_dirb (fs : gmap Os.path Os.node) (p : Os.path) : bool :=
  match Os.node_at fs p with
  | Some (Os.Dir _) => true
  | _ => false
  end.

Definition treeb (fs : gmap Os.path Os.node) : bool :=
  forallb (fun kn => match fst kn with
                     | Os.Root => true
                     | Os.Child p _ => is_dirb fs p
                     end) (map_to_list fs).

(** The proper ancestors of a path, nearest first. *)
Fixpoint ancestors (p : Os.path) : list Os.path :=
  match p with
  | Os.Root => []
  | Os.Child q _ => q :: ancestors q
  end.

(** [MkdirAll] for each path of a list in turn, up to the first error. *)
Fixpoint MkdirAll_list (fs : gmap Os.path Os.node) (l : list Os.path) (perm : Z)
    : gmap Os.path Os.node * option Os.PathError :=
  match l with
  | [] => (fs, None)
  | p :: l' =>
      match Os.MkdirAll fs p perm with
      | (fs1, None) => MkdirAll_list fs1 l' perm
      | (fs1, Some e) => (fs1, Some e)
      end
  end.

Definition fatal_message (err : Os.PathError) : event :=
  GlogFatal ("Error creating minikube directory: " +:+ Os.Error err).

(** The loop of [createDirs] over any list of paths. *)
Definition create (l : list Os.path) : M unit :=
  for_range l (fun path =>
    err ← os_MkdirAll path 511;
    match err with
    | Some err => glog_Exitf ("Error creating minikube directory: " +:+ Os.Error err)
    | None => mret tt
    end).

(** The hook from the deprecation notice on. *)
Definition after_dirs (st1 : State) : State :=
  let st2 :=
    if Viper.GetBool (viper st1) (PersistentFlags st1) (environ st1) showLibmachineLogs
    then set_output st1 (output st1 ++ [Println deprecation_notice]) else st1 in
  let st3 := set_clientType st2 (GetClientType st2) in
  let st4 :=
    if negb (Glog.V (pflag_CommandLine st3) (glog_vmodule st3) caller_file 3)
    then set_libmachine_log st3
           (Log.SetErrWriter (Log.SetOutWriter (libmachine_log st3) Log.Discard)
              Log.Discard)
    else st3 in
  let st5 :=
    if Glog.V (pflag_CommandLine st4) (glog_vmodule st4) caller_file 7
    then set_libmachine_log st4 (Log.SetDebug (libmachine_log st4) true) else st4 in
  let st6 :=
    if enableUpdateNotification st5
    then set_output st5 (output st5 ++ [UpdateNotificationCheck]) else st5 in
  if enableKubectlDownloadMsg st6
  then set_output st6 (output st6 ++ [KubectlDownloadMsgCheck]) else st6.

(** The verbosity in effect for [root.go]: that of flag [v] or, with a
    filter set by [-vmodule], the level the filter gives [root.go] when that
    is the larger one. *)
Definition verbosity_in_effect (st : State) : Z :=
  let v := Glog.verbosity (pflag_CommandLine st) in
  match glog_vmodule st with
  | [] => v
  | _ :: _ => Z.max v (Glog.setV (glog_vmodule st) caller_file)
  end.

(** The flag registered under a name once [init] has run. *)
Definition flag_after_init env fs (name : string) : option Flag :=
  match init (process_start env fs) with
  | Return _ st1 => pflag_CommandLine st1 !! name
  | _ => None
  end.

(** The flag registered as [name] is marked as changed. *)
Definition marked (name : string) (st : State) : Prop :=
  exists a, pflag_CommandLine st !! name = Some a /\ Changed a = true.

(** What a run of the rounds for [l] does not touch. *)
Definition untouched (l : list string) (st st' : State) : Prop :=
  (forall n, n ∉ l -> pflag_CommandLine st' !! n = pflag_CommandLine st !! n)
  /\ glog_vmodule st' = glog_vmodule st
  /\ PersistentFlags st' = PersistentFlags st
  /\ environ st' = environ st
  /\ filesystem st' = filesystem st
  /\ libmachine_log st' = libmachine_log st
  /\ output st' = output st.

(** Every whitelisted flag that is registered holds a valid value. *)
Definition all_valid (l : list string) (st : State) : Prop :=
  forall n a, n ∈ l -> pflag_CommandLine st !! n = Some a -> valid (Value_ a).

(** The override layer holds the text of [val] for [name]. *)
Definition overridden (name : string) (val : Value) (st : State) : Prop :=
  Viper.override (viper st) !! name = Some (VString (String_ val)).

(** [pflag.CommandLine] once [init] has added Go's flags. *)
Definition merged_flags (st : State) : gmap string Flag :=
  Pflag.AddGoFlagSet (pflag_CommandLine st) (goflag_CommandLine st).

(** The flags of [RootCmd] once [init] has defined its two. *)
Definition root_flags (pf : gmap string Flag) : gmap string Flag :=
  <[useVendoredDriver :=
      {| Name := useVendoredDriver; Value_ := BoolValue false;
         DefValue := String_ (BoolValue false); Changed := false |}]>
    (<[showLibmachineLogs :=
         {| Name := showLibmachineLogs; Value_ := BoolValue false;
            DefValue := String_ (BoolValue false); Changed := false |}]> pf).

(** [log_dir] as [init] leaves it. *)
Definition with_logs_path (a : Flag) : Flag :=
  if Changed a then a
  else set_Value a (fst (Set_ (Value_ a) (Os.path_string (MakeMiniPath ["logs"])))).

(** The flag registered as [name] has the default text [d]. *)
Definition default_text (name d : string) (st : State) : Prop :=
  exists b, pflag_CommandLine st !! name = Some b /\ DefValue b = d.

(* =================================================================== *)
(** ** Facts about the library models *)
(* =================================================================== *)

(** *** The models at work *)

Example ToUpper_log_dir : GoStrings.ToUpper "minikube_log-dir" = "MINIKUBE_LOG-DIR".
Proof. reflexivity. Qed.

Example Replace_iso_url :
  GoStrings.Replace (GoStrings.NewReplacer [("-", "_")]) "ISO-URL" = "ISO_URL".
Proof. reflexivity. Qed.

Example Replace_in_argument_order :
  GoStrings.Replace (GoStrings.NewReplacer [("ab", "x"); ("a", "y")]) "aabab" = "yxx".
Proof. reflexivity. Qed.

Example Atoi_signs_and_range :
  Strconv.Atoi "+7" = Some 7 /\ Strconv.Atoi "-07" = Some (-7)
  /\ Strconv.Atoi "" = None /\ Strconv.Atoi "3.5" = None
  /\ Strconv.Atoi "9223372036854775807" = Some Strconv.max_int64
  /\ Strconv.Atoi "9223372036854775808" = None.
Proof. repeat split; reflexivity. Qed.

Example Level_Set_wraps :
  Set_ (LevelValue 0) "4294967299" = (LevelValue 3, false)
  /\ Set_ (LevelValue 5) "verbose" = (LevelValue 5, true)
  /\ Set_ (BoolValue true) "maybe" = (BoolValue false, true).
Proof. repeat split; reflexivity. Qed.

Example MkdirAll_makes_ancestors :
  match Os.MkdirAll Sample.fresh_home (Sample.MakeMiniPath ["cache"; "iso"]) 511 with
  | (fs, None) =>
      is_dirb fs Sample.Minipath && is_dirb fs (Sample.MakeMiniPath ["cache"])
      && is_dirb fs (Sample.MakeMiniPath ["cache"; "iso"])
      && negb (is_dirb fs (Sample.MakeMiniPath ["logs"]))
  | _ => false
  end = true.
Proof. vm_compute. reflexivity. Qed.

Example MkdirAll_read_only_parent :
  snd (Os.MkdirAll Sample.fresh_home (Os.Child (Os.Child Os.Root "home") "other") 511)
  = Some {| Os.Op := "mkdir"; Os.Path := Os.Child (Os.Child Os.Root "home") "other";
            Os.Err := Os.EACCES |}.
Proof. vm_compute. reflexivity. Qed.

(** *** Strings *)

Lemma upper_lower_byte c : GoStrings.upper_byte (GoStrings.lower_byte c) = GoStrings.upper_byte c.
Proof.
  destruct c as [[] [] [] [] [] [] [] []]; reflexivity.
Qed.

Lemma upper_upper_byte c : GoStrings.upper_byte (GoStrings.upper_byte c) = GoStrings.upper_byte c.
Proof.
  destruct c as [[] [] [] [] [] [] [] []]; reflexivity.
Qed.

Lemma map_bytes_app f s t :
  GoStrings.map_bytes f (s +:+ t) = GoStrings.map_bytes f s +:+ GoStrings.map_bytes f t.
Proof. induction s as [|c s IH]; simpl; [reflexivity | now rewrite IH]. Qed.

Lemma map_bytes_compose f g s :
  GoStrings.map_bytes f (GoStrings.map_bytes g s) = GoStrings.map_bytes (fun c => f (g c)) s.
Proof. induction s as [|c s IH]; simpl; [reflexivity | now rewrite IH]. Qed.

Lemma map_bytes_ext f g s :
  (forall c, f c = g c) -> GoStrings.map_bytes f s = GoStrings.map_bytes g s.
Proof. intros E. induction s as [|c s IH]; simpl; [reflexivity | now rewrite E, IH]. Qed.

Lemma ToUpper_ToLower s : GoStrings.ToUpper (GoStrings.ToLower s) = GoStrings.ToUpper s.
Proof.
  unfold GoStrings.ToUpper, GoStrings.ToLower.
  rewrite map_bytes_compose. apply map_bytes_ext, upper_lower_byte.
Qed.

Lemma ToUpper_idemp s : GoStrings.ToUpper (GoStrings.ToUpper s) = GoStrings.ToUpper s.
Proof.
  unfold GoStrings.ToUpper.
  rewrite map_bytes_compose. apply map_bytes_ext, upper_upper_byte.
Qed.

Lemma ToUpper_app s t :
  GoStrings.ToUpper (s +:+ t) = GoStrings.ToUpper s +:+ GoStrings.ToUpper t.
Proof. apply map_bytes_app. Qed.

Lemma Replace_dash s :
  GoStrings.Replace (GoStrings.NewReplacer [("-", "_")]) s
  = GoStrings.map_bytes dash_to_underscore s.
Proof.
  unfold GoStrings.Replace, GoStrings.NewReplacer.
  induction s as [|c s IH]; [reflexivity|].
  cbn [GoStrings.replace_from GoStrings.lookup_pair GoStrings.map_bytes].
  change (negb ("-" =? "")%string) with true.
  cbn [andb String.prefix].
  unfold dash_to_underscore.
  destruct (Ascii.eqb_spec c "-") as [->|Hne].
  - assert (Hp : String.prefix "" s = true) by (now destruct s).
    destruct (ascii_dec "-" "-") as [_|]; [|congruence].
    rewrite Hp. cbn. now rewrite IH.
  - destruct (ascii_dec "-" c) as [E|_]; [congruence|].
    cbn. now rewrite IH.
Qed.

(** *** Numbers and booleans as text *)

Lemma to_int_first_byte z :
  match NilZero.string_of_int (Z.to_int z) with
  | String "+" _ => False
  | _ => True
  end.
Proof.
  destruct (Z.to_int z) as [d|d]; [|exact I].
  destruct d; exact I.
Qed.

Lemma int_of_string_of_Z z :
  NilZero.int_of_string (NilZero.string_of_int (Z.to_int z)) = Some (Z.to_int z).
Proof.
  apply NilZero.isi.
  - destruct z as [|p|p]; simpl; try discriminate.
    intros [= E]. now apply DecimalPos.Unsigned.to_uint_nonnil in E.
  - destruct z as [|p|p]; simpl; try discriminate.
    intros [= E]. now apply DecimalPos.Unsigned.to_uint_nonnil in E.
Qed.

Lemma Atoi_FormatInt z :
  Strconv.min_int64 <= z <= Strconv.max_int64 ->
  Strconv.Atoi (Strconv.FormatInt z) = Some z.
Proof.
  intros Hz. unfold Strconv.Atoi, Strconv.FormatInt.
  pose proof (to_int_first_byte z) as Hb.
  pose proof (int_of_string_of_Z z) as Hi.
  assert (Hp : match NilZero.string_of_int (Z.to_int z) with
               | String "+" s' => option_map Z.of_uint (NilZero.uint_of_string s')
               | _ => option_map Z.of_int
                        (NilZero.int_of_string (NilZero.string_of_int (Z.to_int z)))
               end = Some z).
  { rewrite Hi. simpl. rewrite DecimalZ.of_to.
    destruct (NilZero.string_of_int (Z.to_int z)) as [|c s]; [reflexivity|].
    destruct c as [[] [] [] [] [] [] [] []]; try reflexivity. destruct Hb. }
  destruct (NilZero.string_of_int (Z.to_int z)) as [|c s] eqn:E.
  - rewrite Hp.
    destruct (Z.leb_spec Strconv.min_int64 z), (Z.leb_spec z Strconv.max_int64);
      simpl; (reflexivity || lia).
  - destruct c as [[] [] [] [] [] [] [] []];
      rewrite Hp;
      destruct (Z.leb_spec Strconv.min_int64 z), (Z.leb_spec z Strconv.max_int64);
      simpl; (reflexivity || lia).
Qed.

Lemma ParseBool_FormatBool b : Strconv.ParseBool (Strconv.FormatBool b) = Some b.
Proof. now destruct b. Qed.

Lemma to_int32_id z : in_int32 z -> to_int32 z = z.
Proof.
  unfold in_int32, to_int32. intros H.
  rewrite Z.mod_small; lia.
Qed.

(** Setting a flag from the text of a value of its type gives that value. *)
Lemma Set_String v w :
  valid w -> same_type v w = true -> Set_ v (String_ w) = (w, false).
Proof.
  destruct v, w; simpl; try discriminate; intros Hw _.
  - rewrite Atoi_FormatInt.
    + now rewrite to_int32_id.
    + unfold in_int32 in Hw. unfold Strconv.min_int64, Strconv.max_int64. lia.
  - now rewrite ParseBool_FormatBool.
  - reflexivity.
Qed.

(** *** Statements *)

Lemma bind_Return {A B} (m : M A) (k : A -> M B) st a st' :
  m st = Return a st' -> (m ≫= k) st = k a st'.
Proof. intros E. unfold mbind, M_bind. now rewrite E. Qed.

Lemma bind_Exit {A B} (m : M A) (k : A -> M B) st code st' :
  m st = Exit code st' -> (m ≫= k) st = Exit code st'.
Proof. intros E. unfold mbind, M_bind. now rewrite E. Qed.

Lemma bind_Panic {A B} (m : M A) (k : A -> M B) st msg st' :
  m st = Panic msg st' -> (m ≫= k) st = Panic msg st'.
Proof. intros E. unfold mbind, M_bind. now rewrite E. Qed.

(** A loop whose body keeps an invariant returns, with the invariant. *)
Lemma for_range_invariant {A} (I : State -> Prop) (l : list A) (body : A -> M unit) :
  (forall x st, x ∈ l -> I st -> exists st', body x st = Return tt st' /\ I st') ->
  forall st, I st -> exists st', for_range l body st = Return tt st' /\ I st'.
Proof.
  induction l as [|x l IH]; intros Hbody st HI.
  - exists st. split; [reflexivity | assumption].
  - destruct (Hbody x st) as (st1 & E1 & HI1); [left | assumption |].
    destruct (IH (fun y s Hy => Hbody y s (list_elem_of_further _ _ _ Hy)) st1 HI1)
      as (st2 & E2 & HI2).
    exists st2. split; [|assumption].
    cbn [for_range]. now rewrite (bind_Return _ _ _ _ _ E1).
Qed.

(** *** One round of [setFlagsUsingViper] *)

Lemma setFlagUsingViper_found config st a :
  pflag_CommandLine st !! config = Some a ->
  setFlagUsingViper config st
  = Return tt (set_pflag_CommandLine (set_viper st (resolved_viper a (viper st)))
                 (<[config := resolved_flag st a]> (pflag_CommandLine st))).
Proof.
  intros E. unfold setFlagUsingViper, resolved_flag, resolved_viper.
  unfold mbind, M_bind, get, Pflag.Lookup. rewrite E. cbn.
  destruct (Changed a); reflexivity.
Qed.

Lemma setFlagUsingViper_missing config st :
  pflag_CommandLine st !! config = None ->
  exists msg, setFlagUsingViper config st = Panic msg st.
Proof.
  intros E. unfold setFlagUsingViper.
  unfold mbind, M_bind, get, Pflag.Lookup. rewrite E. cbn. eauto.
Qed.

Lemma registered_round l config st a :
  registered l st ->
  registered l (set_pflag_CommandLine (set_viper st (resolved_viper a (viper st)))
                  (<[config := resolved_flag st a]> (pflag_CommandLine st))).
Proof.
  intros H n Hn. cbn. destruct (decide (config = n)) as [->|Hne].
  - rewrite lookup_insert_eq. eauto.
  - rewrite lookup_insert_ne by assumption. now apply H.
Qed.

Lemma rounds_return l st :
  registered l st ->
  exists st', for_range l setFlagUsingViper st = Return tt st' /\ registered l st'.
Proof.
  intros H. apply (for_range_invariant (registered l)); [|assumption].
  intros x s Hx Hs. destruct (Hs x Hx) as [a Ha].
  eexists. split; [apply setFlagUsingViper_found, Ha|].
  now apply registered_round.
Qed.

Lemma rounds_panic l st n :
  n ∈ l -> pflag_CommandLine st !! n = None ->
  exists msg st', for_range l setFlagUsingViper st = Panic msg st'.
Proof.
  revert st. induction l as [|x l IH]; intros st Hn Hnone.
  - now apply elem_of_nil in Hn.
  - cbn [for_range].
    destruct (pflag_CommandLine st !! x) as [a|] eqn:Ex.
    + assert (n <> x) by congruence.
      apply elem_of_cons in Hn as [->|Hn]; [congruence|].
      rewrite (bind_Return _ _ _ _ _ (setFlagUsingViper_found _ _ _ Ex)).
      apply IH; [assumption|]. cbn.
      rewrite lookup_insert_ne by congruence. assumption.
    + destruct (setFlagUsingViper_missing _ _ Ex) as [msg E].
      exists msg, st. now rewrite (bind_Panic _ _ _ _ _ E).
Qed.

(** *** Looking a key up in viper *)

Lemma whitelist_lower n : n ∈ viperWhiteList -> GoStrings.ToLower n = n.
Proof.
  unfold viperWhiteList. rewrite !elem_of_cons, elem_of_nil.
  intros [->|[->|[->|[]]]]; reflexivity.
Qed.

Lemma GetString_Set v bound env key s :
  Viper.GetString (Viper.Set_ v key (VString s)) bound env key = s.
Proof.
  unfold Viper.GetString, Viper.Get, Viper.find. cbn.
  now rewrite lookup_insert_eq, !union_Some_l.
Qed.

(** A flag that is marked as changed keeps its value in its round. *)
Lemma resolved_flag_changed st a :
  Changed a = true -> valid (Value_ a) ->
  resolved_flag st a = a.
Proof.
  intros Hc Hv. unfold resolved_flag, resolved_viper. rewrite Hc.
  rewrite GetString_Set, Set_String; [|assumption|now destruct (Value_ a)].
  destruct a; cbn in *. now subst.
Qed.

Lemma supplied_round name val config st b :
  valid val ->
  pflag_CommandLine st !! config = Some b ->
  supplied name val st ->
  supplied name val
    (set_pflag_CommandLine (set_viper st (resolved_viper b (viper st)))
       (<[config := resolved_flag st b]> (pflag_CommandLine st))).
Proof.
  intros Hval Hb (a & Ha & Hc & Hv). exists a. cbn.
  destruct (decide (config = name)) as [->|Hne].
  - assert (b = a) as -> by congruence.
    rewrite lookup_insert_eq, resolved_flag_changed; subst; auto.
  - rewrite lookup_insert_ne by assumption. auto.
Qed.

Lemma supplied_rounds l name val st :
  valid val -> registered l st -> supplied name val st ->
  exists st', for_range l setFlagUsingViper st = Return tt st'
              /\ registered l st' /\ supplied name val st'.
Proof.
  intros Hval Hreg Hsup.
  apply (for_range_invariant (fun s => registered l s /\ supplied name val s));
    [|now split].
  intros x s Hx [Hr Hs]. destruct (Hr x Hx) as [b Hb].
  eexists. split; [apply setFlagUsingViper_found, Hb|].
  split; [now apply registered_round | now apply supplied_round].
Qed.

(** *** Resolving a flag that was not given on the command line *)

Lemma wellnamed_round l config st a :
  wellnamed l st ->
  pflag_CommandLine st !! config = Some a ->
  wellnamed l (set_pflag_CommandLine (set_viper st (resolved_viper a (viper st)))
                 (<[config := resolved_flag st a]> (pflag_CommandLine st))).
Proof.
  intros H Ha n b Hn. cbn. destruct (decide (config = n)) as [->|Hne].
  - rewrite lookup_insert_eq. intros [= <-]. cbn. now apply (H n a).
  - rewrite lookup_insert_ne by assumption. now apply H.
Qed.

(** [find] reads the override and default layers at its key only. *)
Lemma find_ext v v' bound env k :
  Viper.override v !! k = Viper.override v' !! k ->
  Viper.defaults v !! k = Viper.defaults v' !! k ->
  Viper.config v = Viper.config v' ->
  Viper.pflags v = Viper.pflags v' ->
  Viper.envPrefix v = Viper.envPrefix v' ->
  Viper.envKeyReplacer v = Viper.envKeyReplacer v' ->
  Viper.automaticEnvApplied v = Viper.automaticEnvApplied v' ->
  Viper.find v bound env k = Viper.find v' bound env k.
Proof.
  intros Ho Hd Hc Hp He Hr Ha.
  unfold Viper.find, Viper.getEnv, Viper.envKey, Viper.mergeWithEnvPrefix.
  now rewrite Ho, Hd, Hc, Hp, He, Hr, Ha.
Qed.

(** The round of another flag does not change what [name] resolves to. *)
Lemma Get_other_round b v bound env name d :
  GoStrings.ToLower (Name b) <> GoStrings.ToLower name ->
  Viper.Get (Viper.SetDefault (resolved_viper b v) name d) bound env name
  = Viper.Get (Viper.SetDefault v name d) bound env name.
Proof.
  intros Hne. unfold Viper.Get. apply find_ext;
    unfold resolved_viper; destruct (Changed b); cbn; try reflexivity;
    rewrite ?lookup_insert_eq, ?lookup_insert_ne by assumption; reflexivity.
Qed.

Lemma Set_valid v s : valid v -> valid (fst (Set_ v s)).
Proof.
  destruct v; cbn; try (intros; exact I).
  - intros H. destruct (Strconv.Atoi s); cbn; [|assumption].
    unfold in_int32, to_int32.
    pose proof (Z.mod_pos_bound (z + 2 ^ 31) (2 ^ 32)). lia.
  - destruct (Strconv.ParseBool s); intros; exact I.
Qed.

Lemma unsupplied_rounds l name a r st :
  name ∈ l ->
  (forall n, n ∈ l -> GoStrings.ToLower n = n) ->
  registered l st -> wellnamed l st ->
  Changed a = false -> valid (Value_ a) ->
  resolves_to name a r st ->
  exists st',
    for_range l setFlagUsingViper st = Return tt st'
    /\ supplied name (fst (Set_ (Value_ a) (ToString (r (VString (DefValue a)))))) st'.
Proof.
  intros Hin Hlow. revert st.
  induction l as [|x l IH]; intros st Hreg Hwn Hc Hv [Ha Hr].
  - now apply elem_of_nil in Hin.
  - cbn [for_range]. destruct (decide (x = name)) as [->|Hne].
    + rewrite (bind_Return _ _ _ _ _ (setFlagUsingViper_found _ _ _ Ha)).
      assert (Hname : Name a = name) by (apply (Hwn name a); [left | assumption]).
      set (val := fst (Set_ (Value_ a) (ToString (r (VString (DefValue a)))))).
      assert (Hres : resolved_flag st a = set_Changed (set_Value a val) true).
      { unfold resolved_flag, resolved_viper, Viper.GetString.
        rewrite Hc, Hname, Hr. reflexivity. }
      destruct (supplied_rounds l name val
                  (set_pflag_CommandLine (set_viper st (resolved_viper a (viper st)))
                     (<[name := resolved_flag st a]> (pflag_CommandLine st))))
        as (st' & E & _ & Hs).
      * now apply Set_valid.
      * intros n Hn. apply (registered_round (name :: l)); [assumption | now right].
      * exists (set_Changed (set_Value a val) true).
        cbn [pflag_CommandLine set_pflag_CommandLine].
        rewrite lookup_insert_eq, Hres. repeat split.
      * eauto.
    + destruct (Hreg x) as [b Hb]; [left|].
      rewrite (bind_Return _ _ _ _ _ (setFlagUsingViper_found _ _ _ Hb)).
      apply elem_of_cons in Hin as [->|Hin]; [congruence|].
      apply IH; try assumption.
      * intros n Hn. apply Hlow. now right.
      * intros n Hn. apply (registered_round (x :: l)); [assumption | now right].
      * intros n c Hn. apply (wellnamed_round (x :: l)); [assumption.. | now right].
      * split; cbn.
        -- rewrite lookup_insert_ne by assumption. assumption.
        -- intros d. rewrite Get_other_round; [apply Hr|].
           rewrite (Hwn x b), !Hlow; [assumption | now right | left | left | assumption].
Qed.

(** *** [initConfig] up to the resolution of the flags *)

Lemma setupViper_unfold st :
  setupViper st = setFlagsUsingViper (set_viper st (with_setup (viper st))).
Proof. reflexivity. Qed.

Lemma initConfig_unfold st :
  initConfig st = setFlagsUsingViper (before_resolution st).
Proof.
  unfold initConfig, before_resolution, with_config_file.
  unfold mbind at 1 2 3 4, M_bind, viper_do, modify, viper_ReadInConfig.
  cbn -[Viper.ReadInConfig setFlagsUsingViper setupViper with_setup].
  destruct (Viper.ReadInConfig _ _) as [v [e|]];
    cbn -[setFlagsUsingViper setupViper with_setup].
  - rewrite setupViper_unfold. reflexivity.
  - rewrite setupViper_unfold, app_nil_r. now destruct st.
Qed.

Lemma with_config_file_eq st :
  with_config_file st
  = let v := Viper.SetConfigType (Viper.SetConfigFile (viper st) ConfigFile) "json" in
    match Os.ReadFile (filesystem st) ConfigFile with
    | inr e => (v, Some (Viper.ReadError e))
    | inl (Os.Undecodable reason) => (v, Some (Viper.ConfigParseError reason))
    | inl (Os.Object m) => (Viper.set_config v m, None)
    end.
Proof. reflexivity. Qed.

(** The layers of viper after [with_setup]. *)
Lemma Get_with_setup v bound env name d :
  GoStrings.ToLower name = name ->
  Viper.override v !! name = None ->
  Viper.pflags v !! name = None ->
  Viper.Getenv env (env_var name) = "" ->
  Viper.Get (Viper.SetDefault (with_setup v) name d) bound env name
  = Viper.config v !! name ∪ Some d.
Proof.
  intros Hlow Ho Hp He.
  unfold Viper.Get, Viper.find. rewrite Hlow.
  cbn [with_setup with_env_rules Viper.SetDefault Viper.SetEnvPrefix Viper.SetEnvKeyReplacer
       Viper.AutomaticEnv Viper.override Viper.pflags Viper.defaults Viper.config
       Viper.automaticEnvApplied].
  rewrite Ho, Hp, Hlow, lookup_insert_eq.
  replace (Viper.getEnv _ env _) with (Viper.Getenv env (env_var name)).
  - rewrite He. cbn. now destruct (Viper.config v !! name).
  - unfold env_var, Viper.envName, Viper.getEnv. now rewrite Hlow.
Qed.

Lemma Set_as_flag_value v c x :
  as_flag_value v c = Some x -> fst (Set_ v (ToString (Some c))) = x.
Proof.
  intros H.
  assert (Hx : valid x /\ same_type v x = true /\ ToString (Some c) = String_ x).
  { destruct v, c; cbn in H; try discriminate;
      try (destruct (Z.leb_spec (- 2 ^ 31) i), (Z.ltb_spec i (2 ^ 31));
           cbn in H; try discriminate);
      injection H as <-; repeat split; cbn; unfold in_int32; try lia. }
  destruct Hx as (Hv & Ht & ->). now rewrite Set_String.
Qed.

Lemma before_resolution_config st m :
  Os.ReadFile (filesystem st) ConfigFile = inl (Os.Object m) ->
  Viper.config (fst (with_config_file st)) = m.
Proof. intros E. rewrite with_config_file_eq, E. reflexivity. Qed.

Lemma before_resolution_no_config st :
  Viper.config (viper st) = ∅ ->
  (forall m, Os.ReadFile (filesystem st) ConfigFile <> inl (Os.Object m)) ->
  Viper.config (fst (with_config_file st)) = ∅.
Proof.
  intros Hc E. rewrite with_config_file_eq.
  destruct (Os.ReadFile (filesystem st) ConfigFile) as [[m|]|]; cbn; try easy.
  now destruct (E m).
Qed.

Lemma with_config_file_frame st :
  Viper.override (fst (with_config_file st)) = Viper.override (viper st)
  /\ Viper.pflags (fst (with_config_file st)) = Viper.pflags (viper st).
Proof.
  rewrite with_config_file_eq.
  now destruct (Os.ReadFile (filesystem st) ConfigFile) as [[m|]|].
Qed.

(** What an unsupplied whitelisted flag is set to by [initConfig], from
    the entry of the config layer for its name (if any). *)
Lemma initConfig_unsupplied st name a :
  name ∈ viperWhiteList ->
  registered viperWhiteList st -> wellnamed viperWhiteList st ->
  pflag_CommandLine st !! name = Some a ->
  Changed a = false -> valid (Value_ a) ->
  Viper.override (viper st) !! name = None ->
  Viper.pflags (viper st) !! name = None ->
  Viper.Getenv (environ st) (env_var name) = "" ->
  exists st',
    initConfig st = Return tt st'
    /\ supplied name
         (fst (Set_ (Value_ a)
                 (ToString (Viper.config (fst (with_config_file st)) !! name
                            ∪ Some (VString (DefValue a)))))) st'.
Proof.
  intros Hin Hreg Hwn Ha Hc Hv Ho Hp He.
  rewrite initConfig_unfold. unfold setFlagsUsingViper.
  destruct (with_config_file_frame st) as [Fo Fp].
  apply (unsupplied_rounds viperWhiteList name a
           (fun d => Viper.config (fst (with_config_file st)) !! name ∪ Some d));
    try assumption.
  - intros n Hn. now apply whitelist_lower.
  - split; [assumption|]. intros d.
    cbn [viper PersistentFlags environ before_resolution set_viper set_output].
    apply Get_with_setup; [now apply whitelist_lower | | | assumption].
    + now rewrite Fo.
    + now rewrite Fp.
Qed.

Lemma rounds_frame_refl l st : rounds_frame l st st.
Proof. unfold rounds_frame. repeat split. Qed.

Lemma rounds_frame_round l st s x b :
  x ∈ l -> GoStrings.ToLower (Name b) = x ->
  rounds_frame l st s ->
  rounds_frame l st
    (set_pflag_CommandLine (set_viper s (resolved_viper b (viper s)))
       (<[x := resolved_flag s b]> (pflag_CommandLine s))).
Proof.
  intros Hx Hb (F1 & F2 & F3 & F4 & F5 & F6 & F7 & F8 & F9).
  unfold rounds_frame, resolved_viper.
  destruct (Changed b); cbn; rewrite Hb; repeat split; try assumption;
    destruct (F9 k) as [Fo Fd]; try assumption;
    rewrite ?lookup_insert_ne by (intros ->; contradiction); assumption.
Qed.

Lemma rounds_keep l st :
  (forall n, n ∈ l -> GoStrings.ToLower n = n) ->
  registered l st -> wellnamed l st ->
  exists st', for_range l setFlagUsingViper st = Return tt st'
              /\ rounds_frame l st st'.
Proof.
  intros Hlow Hreg Hwn.
  destruct (for_range_invariant
              (fun s => registered l s /\ wellnamed l s /\ rounds_frame l st s)
              l setFlagUsingViper) with (st := st) as (st' & E & _ & _ & F).
  - intros x s Hx (Hr & Hw & F). destruct (Hr x Hx) as [b Hb].
    eexists. split; [apply setFlagUsingViper_found, Hb|].
    split; [now apply registered_round|].
    split; [now apply wellnamed_round|].
    apply rounds_frame_round; [assumption | | assumption].
    rewrite (Hw x b Hx Hb). now apply Hlow.
  - split; [assumption|]. split; [assumption|]. apply rounds_frame_refl.
  - eauto.
Qed.

Lemma Get_frame l st st' key :
  rounds_frame l st st' -> GoStrings.ToLower key ∉ l ->
  Viper.Get (viper st') (PersistentFlags st') (environ st') key
  = Viper.Get (viper st) (PersistentFlags st) (environ st) key.
Proof.
  intros (F1 & F2 & F3 & F4 & F5 & F6 & F7 & F8 & F9) Hk.
  destruct (F9 _ Hk) as [Fo Fd].
  unfold Viper.Get. rewrite F2, F3. now apply find_ext.
Qed.

(** *** The environment variable of a key *)

Lemma envName_with_setup v key :
  MinikubeEnvPrefix <> "" ->
  env_form MinikubeEnvPrefix = MinikubeEnvPrefix ->
  Viper.envName (with_setup v) (GoStrings.ToLower key)
  = env_var_spec MinikubeEnvPrefix key.
Proof.
  intros Hne Hform.
  unfold Viper.envName, Viper.envKey, Viper.mergeWithEnvPrefix.
  cbn [with_setup with_env_rules Viper.SetDefault Viper.SetEnvPrefix Viper.SetEnvKeyReplacer
       Viper.AutomaticEnv Viper.envPrefix Viper.envKeyReplacer].
  assert (Hup : (GoStrings.ToUpper MinikubeEnvPrefix =? "")%string = false).
  { destruct MinikubeEnvPrefix; [congruence | reflexivity]. }
  rewrite Hup, Replace_dash, !ToUpper_app, ToUpper_idemp, ToUpper_ToLower.
  rewrite !map_bytes_app. unfold env_var_spec.
  fold (env_form MinikubeEnvPrefix). fold (env_form key). now rewrite Hform.
Qed.

(** *** The defaults of the configuration keys *)

Lemma defaults_with_setup v key d :
  NoDup (GoStrings.ToLower <$> (compiled_defaults.*1)) ->
  (key, d) ∈ compiled_defaults ->
  Viper.defaults (with_setup v) !! GoStrings.ToLower key = Some d.
Proof.
  unfold compiled_defaults. cbn [fmap list_fmap fst].
  intros H Hk. rewrite !NoDup_cons, !not_elem_of_cons in H.
  rewrite !elem_of_cons, elem_of_nil in Hk. cbn.
  destruct Hk as [[= -> ->]|[[= -> ->]|[[= -> ->]|[[= -> ->]|[[= -> ->]|[]]]]]];
    rewrite ?lookup_insert_eq; try reflexivity;
    repeat (rewrite lookup_insert_ne by (intros E; rewrite E in H; tauto);
            rewrite ?lookup_insert_eq; try reflexivity).
Qed.

Lemma Get_with_setup_default v bound env key :
  Viper.override v !! GoStrings.ToLower key = None ->
  Viper.pflags v !! GoStrings.ToLower key = None ->
  Viper.Getenv env (env_var key) = "" ->
  Viper.config v = ∅ ->
  Viper.Get (with_setup v) bound env key
  = Viper.defaults (with_setup v) !! GoStrings.ToLower key.
Proof.
  intros Ho Hp He Hc.
  unfold Viper.Get, Viper.find.
  cbn [with_setup with_env_rules Viper.SetDefault Viper.SetEnvPrefix Viper.SetEnvKeyReplacer
       Viper.AutomaticEnv Viper.override Viper.pflags Viper.config
       Viper.automaticEnvApplied].
  rewrite Ho, Hp, Hc, lookup_empty.
  assert (Hg : Viper.getEnv (with_setup v) env
                 (Viper.mergeWithEnvPrefix (with_setup v) (GoStrings.ToLower key)) = "")
    by exact He.
  rewrite Hg. cbn -[with_setup].
  now destruct (Viper.defaults (with_setup v) !! GoStrings.ToLower key).
Qed.

(** *** Directories *)

Lemma is_dirb_is_dir fs p : is_dirb fs p = true -> is_dir fs p.
Proof.
  unfold is_dirb, is_dir. destruct (Os.node_at fs p) as [[w|]|]; try discriminate.
  intros _. now exists w.
Qed.

Lemma treeb_tree fs : treeb fs = true -> tree fs.
Proof.
  unfold treeb. rewrite forallb_forall. intros H p name n Hp.
  apply is_dirb_is_dir.
  apply (H (Os.Child p name, n)).
  apply list_elem_of_In. now apply elem_of_map_to_list.
Qed.

Lemma grows_refl fs : grows fs fs.
Proof. now intros p n. Qed.

Lemma grows_trans fs1 fs2 fs3 : grows fs1 fs2 -> grows fs2 fs3 -> grows fs1 fs3.
Proof. intros H1 H2 p n H. now apply H2, H1. Qed.

Lemma is_dir_grows fs fs' p : grows fs fs' -> is_dir fs p -> is_dir fs' p.
Proof. intros G [w H]. exists w. now apply G. Qed.

Lemma node_at_insert_ne fs p q n :
  p <> q -> Os.node_at (<[p := n]> fs) q = Os.node_at fs q.
Proof. intros H. unfold Os.node_at. now rewrite lookup_insert_ne. Qed.

Lemma node_at_None fs p : Os.node_at fs p = None -> fs !! p = None.
Proof. unfold Os.node_at. now destruct (fs !! p). Qed.

(** What a call of [Mkdir] does. *)
Lemma Mkdir_inv fs p perm fs' r :
  Os.Mkdir fs p perm = (fs', r) ->
  (fs' = fs /\ r <> None)
  \/ (r = None /\ Os.node_at fs p = None
      /\ fs' = <[p := Os.Dir (Z.testbit perm 7)]> fs
      /\ exists parent name, p = Os.Child parent name /\ is_dir fs parent).
Proof.
  unfold Os.Mkdir. destruct (Os.node_at fs p) as [n|] eqn:En.
  - intros [= <- <-]. left. split; [reflexivity | discriminate].
  - destruct p as [|parent name];
      [intros [= <- <-]; left; split; [reflexivity | discriminate]|].
    destruct (Os.node_at fs parent) as [[[]|]|] eqn:Ep; intros [= <- <-];
      try (left; split; [reflexivity | discriminate]).
    right. repeat split. exists parent, name. split; [reflexivity|]. now exists true.
Qed.

Lemma Mkdir_grows fs p perm fs' r : Os.Mkdir fs p perm = (fs', r) -> grows fs fs'.
Proof.
  intros H. apply Mkdir_inv in H as [[-> _]|(_ & Hn & -> & _)]; [apply grows_refl|].
  intros q n Hq. rewrite node_at_insert_ne; [assumption | congruence].
Qed.

Lemma Mkdir_tree fs p perm fs' r :
  Os.Mkdir fs p perm = (fs', r) -> tree fs -> tree fs'.
Proof.
  intros H Ht. pose proof (Mkdir_grows _ _ _ _ _ H) as G.
  apply Mkdir_inv in H as [[-> _]|(_ & Hn & -> & parent & name & -> & Hp)];
    [assumption|].
  intros q m n. destruct (decide (Os.Child parent name = Os.Child q m)) as [[= <- <-]|Hne].
  - intros _. now apply (is_dir_grows fs).
  - rewrite lookup_insert_ne by assumption. intros Hq.
    apply (is_dir_grows fs); [assumption|]. now apply (Ht q m n).
Qed.

Lemma Mkdir_dir fs p perm fs' : Os.Mkdir fs p perm = (fs', None) -> is_dir fs' p.
Proof.
  intros H. apply Mkdir_inv in H as [[_ ?]|(_ & _ & -> & _)]; [congruence|].
  eexists. unfold Os.node_at. now rewrite lookup_insert_eq.
Qed.

Lemma MkdirAll_there fs p perm : is_dir fs p -> Os.MkdirAll fs p perm = (fs, None).
Proof.
  intros [w H]. destruct p; cbn; unfold Os.Stat; now rewrite H.
Qed.

Lemma MkdirAll_file fs p perm d :
  Os.node_at fs p = Some (Os.File d) ->
  Os.MkdirAll fs p perm
  = (fs, Some {| Os.Op := "mkdir"; Os.Path := p; Os.Err := Os.ENOTDIR |}).
Proof.
  intros H. destruct p; cbn; unfold Os.Stat; now rewrite H.
Qed.

Lemma MkdirAll_spec p :
  forall fs perm fs' r,
    Os.MkdirAll fs p perm = (fs', r) ->
    grows fs fs' /\ (tree fs -> tree fs') /\ (r = None -> is_dir fs' p).
Proof.
  induction p as [|q IH name]; intros fs perm fs' r.
  - cbn. unfold Os.Stat. destruct (Os.node_at fs Os.Root) as [[w|d]|] eqn:E.
    + intros [= <- <-]. split; [apply grows_refl|]. split; [auto|]. intros _. now exists w.
    + intros [= <- <-]. split; [apply grows_refl|]. split; [auto|]. discriminate.
    + unfold Os.node_at in E. destruct (fs !! Os.Root); discriminate.
  - cbn. unfold Os.Stat at 1. destruct (Os.node_at fs (Os.Child q name)) as [[w|d]|] eqn:E.
    + intros [= <- <-]. split; [apply grows_refl|]. split; [auto|]. intros _. now exists w.
    + intros [= <- <-]. split; [apply grows_refl|]. split; [auto|]. discriminate.
    + assert (Hpar : exists fs1 r1,
                 match q with
                 | Os.Child _ _ => Os.MkdirAll fs q perm
                 | Os.Root => (fs, None)
                 end = (fs1, r1)
                 /\ grows fs fs1 /\ (tree fs -> tree fs1)).
      { destruct q as [|q' name'].
        - exists fs, None. split; [reflexivity|]. split; [apply grows_refl | auto].
        - destruct (Os.MkdirAll fs (Os.Child q' name') perm) as [fs1 r1] eqn:E1.
          exists fs1, r1. split; [reflexivity|].
          destruct (IH _ _ _ _ E1) as (G & T & _). now split. }
      destruct Hpar as (fs1 & r1 & -> & G1 & T1).
      destruct r1 as [e|].
      * intros [= <- <-]. split; [assumption|]. split; [assumption | discriminate].
      * destruct (Os.Mkdir fs1 (Os.Child q name) perm) as [fs2 r2] eqn:E2.
        pose proof (Mkdir_grows _ _ _ _ _ E2) as G2.
        pose proof (Mkdir_tree _ _ _ _ _ E2) as T2.
        destruct r2 as [e|].
        -- unfold Os.Stat.
           destruct (Os.node_at fs2 (Os.Child q name)) as [[w|d]|] eqn:E3;
             intros [= <- <-];
             (split; [now apply (grows_trans fs fs1)|]);
             (split; [auto|]); try discriminate.
           intros _. now exists w.
        -- intros [= <- <-]. split; [now apply (grows_trans fs fs1)|].
           split; [auto|]. intros _. now apply (Mkdir_dir fs1 _ perm).
Qed.

Lemma MkdirAll_list_spec l :
  forall fs perm fs' r,
    MkdirAll_list fs l perm = (fs', r) ->
    grows fs fs' /\ (tree fs -> tree fs')
    /\ (r = None -> forall p, p ∈ l -> is_dir fs' p).
Proof.
  induction l as [|p l IH]; intros fs perm fs' r; cbn.
  - intros [= <- <-]. split; [apply grows_refl|]. split; [auto|].
    intros _ p Hp. now apply elem_of_nil in Hp.
  - destruct (Os.MkdirAll fs p perm) as [fs1 [e|]] eqn:E1;
      destruct (MkdirAll_spec _ _ _ _ _ E1) as (G1 & T1 & D1).
    + intros [= <- <-]. split; [assumption|]. split; [assumption | discriminate].
    + intros E2. destruct (IH _ _ _ _ E2) as (G2 & T2 & D2).
      split; [now apply (grows_trans fs fs1)|]. split; [auto|].
      intros -> q Hq. apply elem_of_cons in Hq as [->|Hq]; [|now apply D2].
      apply (is_dir_grows fs1); auto.
Qed.

Lemma MkdirAll_list_there l fs perm :
  (forall p, p ∈ l -> is_dir fs p) -> MkdirAll_list fs l perm = (fs, None).
Proof.
  induction l as [|p l IH]; intros H; cbn; [reflexivity|].
  rewrite MkdirAll_there by (apply H; left).
  apply IH. intros q Hq. apply H. now right.
Qed.

Lemma MkdirAll_list_app fs l1 l2 perm :
  MkdirAll_list fs (l1 ++ l2) perm
  = match MkdirAll_list fs l1 perm with
    | (fs1, None) => MkdirAll_list fs1 l2 perm
    | (fs1, Some e) => (fs1, Some e)
    end.
Proof.
  revert fs. induction l1 as [|p l1 IH]; intros fs; cbn; [reflexivity|].
  destruct (Os.MkdirAll fs p perm) as [fs1 [e|]]; [reflexivity | apply IH].
Qed.

Lemma tree_ancestors fs p q :
  tree fs -> is_dir fs p -> q ∈ ancestors p -> is_dir fs q.
Proof.
  intros Ht. revert q. induction p as [|p' IH name]; intros q Hp Hq; cbn in Hq.
  - now apply elem_of_nil in Hq.
  - assert (Hp' : is_dir fs p').
    { destruct Hp as [w Hw]. unfold Os.node_at in Hw.
      destruct (fs !! Os.Child p' name) as [n|] eqn:E; [|discriminate].
      now apply (Ht p' name n). }
    apply elem_of_cons in Hq as [->|Hq]; [assumption | now apply IH].
Qed.

(** *** The pre-run hook *)

Lemma create_eq l st :
  create l st
  = match MkdirAll_list (filesystem st) l 511 with
    | (fs', None) => Return tt (set_filesystem st fs')
    | (fs', Some err) =>
        Exit 1 (set_output (set_filesystem st fs') (output st ++ [fatal_message err]))
    end.
Proof.
  revert st. induction l as [|p l IH]; intros st.
  - cbn. now destruct st.
  - unfold create in *. cbn [for_range MkdirAll_list].
    unfold mbind at 1, M_bind at 1. unfold mbind at 1, M_bind at 1, os_MkdirAll.
    destruct (Os.MkdirAll (filesystem st) p 511) as [fs1 [e|]]; [reflexivity|].
    cbn [mret M_ret]. rewrite IH. cbn [filesystem set_filesystem].
    now destruct (MkdirAll_list fs1 l 511) as [fs2 [e|]].
Qed.

Lemma PersistentPreRun_eq st :
  PersistentPreRun st
  = match createDirs st with
    | Return _ st1 => Return tt (after_dirs st1)
    | Exit code st1 => Exit code st1
    | Panic msg st1 => Panic msg st1
    end.
Proof.
  unfold PersistentPreRun. unfold mbind at 1, M_bind at 1.
  destruct (createDirs st) as [[] st1| |]; [|reflexivity..].
  cbv [after_dirs mbind M_bind viper_GetBool glog_V get when emit modify
       log_do mret M_ret].
  destruct (Viper.GetBool _ _ _ _); cbn;
    destruct (Glog.V (pflag_CommandLine st1) (glog_vmodule st1) caller_file 3); cbn;
    destruct (Glog.V (pflag_CommandLine st1) (glog_vmodule st1) caller_file 7); cbn;
    destruct (enableUpdateNotification st1); cbn;
    destruct (enableKubectlDownloadMsg st1); reflexivity.
Qed.

(** Reading a field of an updated state. *)
Ltac simpl_state :=
  cbn [negb viper PersistentFlags environ pflag_CommandLine glog_vmodule libmachine_log
       output
       enableUpdateNotification enableKubectlDownloadMsg clientType filesystem
       set_output set_clientType set_libmachine_log set_filesystem set_viper
       set_pflag_CommandLine].

(** The hook destructured along its five conditions. *)
Ltac hook_cases st1 :=
  unfold after_dirs;
  destruct (Viper.GetBool (viper st1) (PersistentFlags st1) (environ st1)
              showLibmachineLogs); simpl_state;
  destruct (Glog.V (pflag_CommandLine st1) (glog_vmodule st1) caller_file 3); simpl_state;
  destruct (Glog.V (pflag_CommandLine st1) (glog_vmodule st1) caller_file 7); simpl_state;
  destruct (enableUpdateNotification st1); simpl_state;
  destruct (enableKubectlDownloadMsg st1); simpl_state.

(** libmachine's logger after the hook. *)
Lemma after_dirs_log st1 :
  libmachine_log (after_dirs st1)
  = let l := libmachine_log st1 in
    let l1 := if Glog.V (pflag_CommandLine st1) (glog_vmodule st1) caller_file 3 then l
              else Log.SetErrWriter (Log.SetOutWriter l Log.Discard) Log.Discard in
    if Glog.V (pflag_CommandLine st1) (glog_vmodule st1) caller_file 7
    then Log.SetDebug l1 true else l1.
Proof. hook_cases st1; reflexivity. Qed.

(** What the hook has printed. *)
Lemma after_dirs_output st1 :
  output (after_dirs st1)
  = (output st1
     ++ (if Viper.GetBool (viper st1) (PersistentFlags st1) (environ st1)
              showLibmachineLogs
         then [Println deprecation_notice] else [])
     ++ (if enableUpdateNotification st1 then [UpdateNotificationCheck] else [])
     ++ (if enableKubectlDownloadMsg st1 then [KubectlDownloadMsgCheck] else []))%list.
Proof.
  hook_cases st1; cbn [app]; rewrite <- ?app_assoc, ?app_nil_r; reflexivity.
Qed.

Lemma createDirs_Return st st1 :
  createDirs st = Return tt st1 ->
  exists fs', MkdirAll_list (filesystem st) dirs 511 = (fs', None)
              /\ st1 = set_filesystem st fs'.
Proof.
  change (createDirs st) with (create dirs st). rewrite create_eq.
  destruct (MkdirAll_list (filesystem st) dirs 511) as [fs' [e|]]; [discriminate|].
  intros [= <-]. eauto.
Qed.

(** *** The package initialiser *)

Lemma init_returns env fs : exists st1, init (process_start env fs) = Return tt st1.
Proof.
  destruct (init (process_start env fs)) as [[] st1 | |] eqn:E;
    [eauto | vm_compute in E; discriminate E ..].
Qed.

Lemma init_flag_v env fs :
  flag_after_init env fs "v"
  = Some {| Name := "v"; Value_ := LevelValue 0; DefValue := "0"; Changed := false |}.
Proof. vm_compute. reflexivity. Qed.

Lemma init_flag_alsologtostderr env fs :
  flag_after_init env fs "alsologtostderr"
  = Some {| Name := "alsologtostderr"; Value_ := BoolValue false;
            DefValue := "false"; Changed := false |}.
Proof. vm_compute. reflexivity. Qed.

Lemma init_flag_log_dir env fs :
  flag_after_init env fs "log_dir"
  = Some {| Name := "log_dir";
            Value_ := StringValue (Os.path_string (MakeMiniPath ["logs"]));
            DefValue := ""; Changed := false |}.
Proof. vm_compute. reflexivity. Qed.

Lemma init_viper env fs :
  match init (process_start env fs) with
  | Return _ st1 =>
      Viper.override (viper st1) = ∅
      /\ Viper.config (viper st1) = ∅
      /\ Viper.pflags (viper st1) !! "v" = None
      /\ Viper.pflags (viper st1) !! "alsologtostderr" = None
      /\ Viper.pflags (viper st1) !! "log_dir" = None
  | _ => False
  end.
Proof. vm_compute. repeat split. Qed.

Lemma path_string_nonempty p : Os.path_string p <> "".
Proof.
  induction p as [|q IH n]; [discriminate|].
  destruct q; [discriminate|].
  change (Os.path_string (Os.Child (Os.Child q name) n))
    with (Os.path_string (Os.Child q name) +:+ "/" +:+ n).
  destruct (Os.path_string (Os.Child q name)); [congruence | discriminate].
Qed.

(** No entry for [name] in the config layer after the attempt to read. *)
Lemma no_config_entry st name :
  Viper.config (viper st) = ∅ ->
  (forall m, Os.ReadFile (filesystem st) ConfigFile = inl (Os.Object m) ->
             m !! name = None) ->
  Viper.config (fst (with_config_file st)) !! name = None.
Proof.
  intros Hc Hm. rewrite with_config_file_eq.
  destruct (Os.ReadFile (filesystem st) ConfigFile) as [[m|]|]; cbn.
  - now apply Hm.
  - now rewrite Hc.
  - now rewrite Hc.
Qed.

(** The flag falls back to the config-file entry for its name. *)
Lemma fallback_config st name a m c x :
  name ∈ viperWhiteList ->
  registered viperWhiteList st -> wellnamed viperWhiteList st ->
  pflag_CommandLine st !! name = Some a ->
  Changed a = false -> valid (Value_ a) ->
  Viper.override (viper st) !! name = None ->
  Viper.pflags (viper st) !! name = None ->
  Viper.Getenv (environ st) (env_var name) = "" ->
  Os.ReadFile (filesystem st) ConfigFile = inl (Os.Object m) ->
  m !! name = Some c ->
  as_flag_value (Value_ a) c = Some x ->
  exists st' a',
    initConfig st = Return tt st'
    /\ pflag_CommandLine st' !! name = Some a'
    /\ Value_ a' = x /\ Changed a' = true.
Proof.
  intros Hin Hreg Hwn Ha Hc Hv Ho Hp He Hf Hm Hx.
  destruct (initConfig_unsupplied st name a) as (st' & E & a' & Ha' & Hc' & Hv');
    try assumption.
  exists st', a'. repeat split; try assumption.
  rewrite Hv', (before_resolution_config _ _ Hf), Hm. cbn [union].
  now apply Set_as_flag_value.
Qed.

(** The flag falls back to its compiled-in default. *)
Lemma fallback_default st name a d :
  name ∈ viperWhiteList ->
  registered viperWhiteList st -> wellnamed viperWhiteList st ->
  pflag_CommandLine st !! name = Some a ->
  Changed a = false -> valid (Value_ a) ->
  Viper.override (viper st) !! name = None ->
  Viper.pflags (viper st) !! name = None ->
  Viper.Getenv (environ st) (env_var name) = "" ->
  Viper.config (viper st) = ∅ ->
  (forall m, Os.ReadFile (filesystem st) ConfigFile = inl (Os.Object m) ->
             m !! name = None) ->
  valid d -> same_type (Value_ a) d = true -> DefValue a = String_ d ->
  exists st' a',
    initConfig st = Return tt st'
    /\ pflag_CommandLine st' !! name = Some a'
    /\ Value_ a' = d /\ Changed a' = true.
Proof.
  intros Hin Hreg Hwn Ha Hc Hv Ho Hp He Hcfg Hm Hd Ht Hdef.
  destruct (initConfig_unsupplied st name a) as (st' & E & a' & Ha' & Hc' & Hv');
    try assumption.
  exists st', a'. repeat split; try assumption.
  rewrite Hv', (no_config_entry _ _ Hcfg Hm). cbn [union].
  change (ToString (None ∪ Some (VString (DefValue a)))) with (DefValue a).
  now rewrite Hdef, Set_String.
Qed.

(* =================================================================== *)
(** ** Properties of the start-up sequence *)
(* =================================================================== *)

(** C1 (precedence).  A whitelisted flag that is marked as changed when
    [setFlagsUsingViper] starts, that is, one given on the command line,
    has the same value when it ends, whatever the config file, the
    environment and the rest of viper's layers hold. *)
Theorem explicit_flag_keeps_value st name a :
  name ∈ viperWhiteList ->
  registered viperWhiteList st ->
  pflag_CommandLine st !! name = Some a ->
  Changed a = true ->
  valid (Value_ a) ->
  exists st' a',
    setFlagsUsingViper st = Return tt st'
    /\ pflag_CommandLine st' !! name = Some a'
    /\ Value_ a' = Value_ a
    /\ Changed a' = true.
Proof.
  intros _ Hreg Ha Hc Hv.
  destruct (supplied_rounds viperWhiteList name (Value_ a) st Hv Hreg)
    as (st' & E & _ & a' & Ha' & Hc' & Hv'); [now exists a|].
  now exists st', a'.
Qed.

(** C2 (whitelist integrity).  After [init] every whitelisted name has a
    registered flag of that exact name; [setFlagsUsingViper] panics as
    soon as one whitelisted name has no registered flag, and returns when
    all of them have one: a missing flag is never skipped. *)
Theorem whitelist_integrity :
  (forall env fs, exists st1,
      init (process_start env fs) = Return tt st1
      /\ forall name, name ∈ viperWhiteList ->
           exists a, pflag_CommandLine st1 !! name = Some a /\ Name a = name)
  /\ (forall st name,
        name ∈ viperWhiteList ->
        pflag_CommandLine st !! name = None ->
        exists msg st', setFlagsUsingViper st = Panic msg st')
  /\ (forall st,
        registered viperWhiteList st ->
        exists st', setFlagsUsingViper st = Return tt st').
Proof.
  split; [|split].
  - intros env fs.
    destruct (init_returns env fs) as [st1 E]. exists st1. split; [assumption|].
    unfold viperWhiteList.
    intros name. rewrite !elem_of_cons, elem_of_nil.
    intros [->|[->|[->|[]]]].
    + pose proof (init_flag_v env fs) as H. unfold flag_after_init in H.
      rewrite E in H. eauto.
    + pose proof (init_flag_alsologtostderr env fs) as H. unfold flag_after_init in H.
      rewrite E in H. eauto.
    + pose proof (init_flag_log_dir env fs) as H. unfold flag_after_init in H.
      rewrite E in H. eauto.
  - intros st name Hn Hnone. now apply (rounds_panic viperWhiteList st name).
  - intros st Hreg. destruct (rounds_return _ _ Hreg) as (st' & E & _). eauto.
Qed.

(** C4 (fallback and default).  For a whitelisted flag that was not given
    on the command line, with no environment variable for it: when the
    config file has an entry for the flag's name, of the flag's type,
    [initConfig] sets the flag to that entry; when the config file has no
    entry for it, [initConfig] sets the flag to its compiled-in default. *)
Theorem unsupplied_flag_fallback st name a :
  name ∈ viperWhiteList ->
  registered viperWhiteList st -> wellnamed viperWhiteList st ->
  pflag_CommandLine st !! name = Some a ->
  Changed a = false -> valid (Value_ a) ->
  Viper.override (viper st) !! name = None ->
  Viper.pflags (viper st) !! name = None ->
  Viper.Getenv (environ st) (env_var name) = "" ->
  (forall m c x,
      Os.ReadFile (filesystem st) ConfigFile = inl (Os.Object m) ->
      m !! name = Some c ->
      as_flag_value (Value_ a) c = Some x ->
      exists st' a',
        initConfig st = Return tt st'
        /\ pflag_CommandLine st' !! name = Some a'
        /\ Value_ a' = x /\ Changed a' = true)
  /\ (forall d,
        Viper.config (viper st) = ∅ ->
        (forall m, Os.ReadFile (filesystem st) ConfigFile = inl (Os.Object m) ->
                   m !! name = None) ->
        valid d -> same_type (Value_ a) d = true -> DefValue a = String_ d ->
        exists st' a',
          initConfig st = Return tt st'
          /\ pflag_CommandLine st' !! name = Some a'
          /\ Value_ a' = d /\ Changed a' = true).
Proof.
  intros Hin Hreg Hwn Ha Hc Hv Ho Hp He. split.
  - intros m c x. now apply fallback_config.
  - intros d. now apply fallback_default.
Qed.

(** C5 (name mangling).  With a prefix that is itself written as an
    environment name (not empty, upper-case, no ['-']), once [setupViper]
    has run the environment variable viper consults for a key is the
    prefix, ['_'], and the key upper-cased with every ['-'] replaced by
    ['_']. *)
Theorem env_var_naming key :
  MinikubeEnvPrefix <> "" ->
  env_form MinikubeEnvPrefix = MinikubeEnvPrefix ->
  forall st,
    registered viperWhiteList st -> wellnamed viperWhiteList st ->
    exists st',
      setupViper st = Return tt st'
      /\ Viper.automaticEnvApplied (viper st') = true
      /\ Viper.envName (viper st') (GoStrings.ToLower key)
         = env_var_spec MinikubeEnvPrefix key.
Proof.
  intros Hne Hform st Hreg Hwn.
  rewrite setupViper_unfold.
  destruct (rounds_keep viperWhiteList (set_viper st (with_setup (viper st))))
    as (st' & E & F); [apply whitelist_lower | assumption..|].
  destruct F as (_ & _ & _ & _ & _ & F6 & F7 & F8 & _).
  exists st'. split; [exact E|]. split; [now rewrite F8|].
  rewrite <- (envName_with_setup (viper st) key Hne Hform).
  unfold Viper.envName, Viper.envKey, Viper.mergeWithEnvPrefix.
  now rewrite F6, F7.
Qed.

(** C6 (graceful degradation).  When the config file cannot be read or
    decoded, [initConfig] still returns: it logs one warning, the config
    layer stays empty, every configuration key without another override
    resolves to the default compiled into [setupViper], and every
    whitelisted flag that was not supplied gets its compiled-in default. *)
Theorem unreadable_config_is_not_fatal st :
  registered viperWhiteList st -> wellnamed viperWhiteList st ->
  Viper.config (viper st) = ∅ ->
  (forall m, Os.ReadFile (filesystem st) ConfigFile <> inl (Os.Object m)) ->
  exists st' err,
    initConfig st = Return tt st'
    /\ output st' = (output st ++ [read_warning err])%list
    /\ Viper.config (viper st') = ∅
    /\ (forall key d,
          distinct_keys ->
          (key, d) ∈ compiled_defaults ->
          Viper.override (viper st) !! GoStrings.ToLower key = None ->
          Viper.pflags (viper st) !! GoStrings.ToLower key = None ->
          Viper.Getenv (environ st) (env_var key) = "" ->
          Viper.Get (viper st') (PersistentFlags st') (environ st') key = Some d)
    /\ (forall name a d,
          name ∈ viperWhiteList ->
          pflag_CommandLine st !! name = Some a ->
          Changed a = false -> valid (Value_ a) ->
          Viper.override (viper st) !! name = None ->
          Viper.pflags (viper st) !! name = None ->
          Viper.Getenv (environ st) (env_var name) = "" ->
          valid d -> same_type (Value_ a) d = true -> DefValue a = String_ d ->
          exists a', pflag_CommandLine st' !! name = Some a' /\ Value_ a' = d).
Proof.
  intros Hreg Hwn Hcfg Hfile.
  destruct (rounds_keep viperWhiteList (before_resolution st))
    as (st' & E & F); [apply whitelist_lower | assumption..|].
  assert (Einit : initConfig st = Return tt st') by (now rewrite initConfig_unfold).
  assert (Herr : exists err, snd (with_config_file st) = Some err).
  { rewrite with_config_file_eq.
    destruct (Os.ReadFile (filesystem st) ConfigFile) as [[m|]|]; cbn; eauto.
    now destruct (Hfile m). }
  destruct Herr as [err Herr].
  destruct (with_config_file_frame st) as [Fo Fp].
  pose proof (before_resolution_no_config st Hcfg Hfile) as Hempty.
  exists st', err. split; [assumption|].
  pose proof F as (F1 & _ & _ & F4 & _).
  split; [|split; [|split]].
  - rewrite F1. unfold before_resolution.
    cbn [output set_viper set_output]. now rewrite Herr.
  - rewrite F4. exact Hempty.
  - intros key d Hdist Hkey Ho Hp He.
    unfold distinct_keys in Hdist. rewrite fmap_app in Hdist.
    apply NoDup_app in Hdist as (Hnd & Hdisj & _).
    rewrite (Get_frame viperWhiteList (before_resolution st) st').
    + cbn [before_resolution viper PersistentFlags environ set_viper set_output].
      rewrite Get_with_setup_default; [now apply defaults_with_setup | | | assumption..].
      * now rewrite Fo.
      * now rewrite Fp.
    + assumption.
    + intros Hin. apply (Hdisj (GoStrings.ToLower key)).
      * apply list_elem_of_fmap. exists key. split; [reflexivity|].
        apply list_elem_of_fmap. now exists (key, d).
      * apply list_elem_of_fmap. exists (GoStrings.ToLower key).
        split; [|assumption]. symmetry. now apply whitelist_lower.
  - intros name a d Hin Ha Hc Hv Ho Hp He Hd Ht Hdef.
    destruct (fallback_default st name a d) as (st'' & a' & E' & Ha' & Hv' & _);
      try assumption.
    + intros m Hm. now destruct (Hfile m).
    + rewrite Einit in E'. injection E' as <-. eauto.
Qed.

(** C10.  [init] sets a [log_dir] flag that has not been supplied to the
    minikube logs path and leaves it unmarked; when [initConfig] then runs
    with the flag still unmarked and with neither an environment variable
    nor a config-file entry for [log_dir], the flag ends with glog's own
    default (the empty string), not with the logs path. *)
Theorem log_dir_reset_to_default env fs :
  exists st1 a1,
    init (process_start env fs) = Return tt st1
    /\ pflag_CommandLine st1 !! "log_dir" = Some a1
    /\ Value_ a1 = StringValue (Os.path_string (MakeMiniPath ["logs"]))
    /\ Changed a1 = false
    /\ forall st2,
         viper st2 = viper st1 ->
         pflag_CommandLine st2 !! "log_dir" = Some a1 ->
         registered viperWhiteList st2 -> wellnamed viperWhiteList st2 ->
         Viper.Getenv (environ st2) (env_var "log_dir") = "" ->
         (forall m, Os.ReadFile (filesystem st2) ConfigFile = inl (Os.Object m) ->
                    m !! "log_dir" = None) ->
         exists st3 a3,
           initConfig st2 = Return tt st3
           /\ pflag_CommandLine st3 !! "log_dir" = Some a3
           /\ Value_ a3 = StringValue ""
           /\ Value_ a3 <> Value_ a1.
Proof.
  destruct (init_returns env fs) as [st1 E].
  pose proof (init_flag_log_dir env fs) as Hflag.
  pose proof (init_viper env fs) as Hviper.
  unfold flag_after_init in Hflag. rewrite E in Hflag, Hviper.
  destruct Hviper as (Ho & Hc & _ & _ & Hp).
  eexists st1, _. split; [exact E|]. split; [exact Hflag|].
  split; [reflexivity|]. split; [reflexivity|].
  intros st2 Hv Ha Hreg Hwn He Hm.
  destruct (fallback_default st2 "log_dir" _ (StringValue "")
              ltac:(right; right; left)
              Hreg Hwn Ha)
    as (st3 & a3 & E3 & Ha3 & Hv3 & _);
    rewrite ?Hv, ?Ho, ?Hc; try (reflexivity || assumption || exact I).
  exists st3, a3. repeat split; try assumption.
  rewrite Hv3. cbn. intros [= Heq]. symmetry in Heq.
  now apply path_string_nonempty in Heq.
Qed.

(** C7 (fatal provisioning failure).  When the directories before [p] in
    the list are created and creating [p] fails, the hook ends the process
    with status 1; what it leaves behind is the state it started in with
    the directories made so far and one more line of output, glog's fatal
    message.  Nothing later in the hook has run: no notice, no client type,
    no change to libmachine's logger, no notification check. *)
Theorem directory_failure_is_fatal st pre p post fs1 fs2 err :
  dirs = (pre ++ p :: post)%list ->
  MkdirAll_list (filesystem st) pre 511 = (fs1, None) ->
  Os.MkdirAll fs1 p 511 = (fs2, Some err) ->
  PersistentPreRun st
  = Exit 1 (set_output (set_filesystem st fs2)
              (output st ++ [fatal_message err])).
Proof.
  intros Hd Hpre Hp.
  rewrite PersistentPreRun_eq.
  change (createDirs st) with (create dirs st).
  rewrite create_eq, Hd, MkdirAll_list_app, Hpre.
  cbn [MkdirAll_list]. now rewrite Hp.
Qed.

(** [glog.V] compares its level with the verbosity in effect. *)
Lemma V_in_effect st lvl :
  Glog.V (pflag_CommandLine st) (glog_vmodule st) caller_file lvl
  = (lvl <=? verbosity_in_effect st).
Proof.
  unfold Glog.V, verbosity_in_effect.
  destruct (glog_vmodule st) as [|m filter]; cbv zeta.
  - now destruct (lvl <=? Glog.verbosity (pflag_CommandLine st)).
  - set (v := Glog.verbosity (pflag_CommandLine st)).
    set (w := Glog.setV (m :: filter) caller_file).
    destruct (Z.leb_spec lvl v), (Z.leb_spec lvl w), (Z.leb_spec lvl (Z.max v w));
      (reflexivity || lia).
Qed.

(** C8 (log gating), amended.  When the directories are in place the hook
    returns, and libmachine's logger follows the verbosity in effect for
    [root.go], which is the verbosity of flag [v] unless a pattern of
    [-vmodule] gives [root.go] a higher level: below 3 both writers are the
    discarding one, from 3 on they are left as they were; from 7 on debug
    output is on, below 7 it is left as it was.  Without [-vmodule] the
    verbosity in effect is that of flag [v]; it is never below it. *)
Theorem libmachine_logging_gated st st1 :
  createDirs st = Return tt st1 ->
  exists st',
    PersistentPreRun st = Return tt st'
    /\ let v := verbosity_in_effect st in
       let log := libmachine_log st in
       let log' := libmachine_log st' in
       (v < 3 -> Log.outWriter log' = Log.Discard /\ Log.errWriter log' = Log.Discard)
       /\ (3 <= v -> Log.outWriter log' = Log.outWriter log
                     /\ Log.errWriter log' = Log.errWriter log)
       /\ (7 <= v -> Log.isDebug log' = true)
       /\ (v < 7 -> Log.isDebug log' = Log.isDebug log)
       /\ Glog.verbosity (pflag_CommandLine st) <= v
       /\ (glog_vmodule st = [] -> v = Glog.verbosity (pflag_CommandLine st)).
Proof.
  intros E. rewrite PersistentPreRun_eq, E.
  apply createDirs_Return in E as (fs' & _ & ->).
  eexists. split; [reflexivity|].
  rewrite after_dirs_log.
  cbn [pflag_CommandLine glog_vmodule libmachine_log set_filesystem].
  rewrite !V_in_effect.
  assert (Hle : Glog.verbosity (pflag_CommandLine st) <= verbosity_in_effect st).
  { unfold verbosity_in_effect. destruct (glog_vmodule st); cbv zeta; lia. }
  assert (Hnil : glog_vmodule st = [] ->
                 verbosity_in_effect st = Glog.verbosity (pflag_CommandLine st)).
  { unfold verbosity_in_effect. now intros ->. }
  set (v := verbosity_in_effect st) in *.
  destruct (Z.leb_spec 3 v), (Z.leb_spec 7 v);
    cbn; repeat split; intros; (reflexivity || lia || auto).
Qed.

(** C9 (idempotent provisioning).  After a run of the creation loop that
    returns, every listed path is a directory, and so is each of its
    ancestors when the file system was a tree to begin with; a further run
    returns too and changes nothing.  Likewise a run that starts with all
    listed paths in place returns and changes nothing. *)
Theorem provisioning_idempotent st :
  (forall st1,
      createDirs st = Return tt st1 ->
      (forall p, p ∈ dirs -> is_dir (filesystem st1) p)
      /\ (tree (filesystem st) ->
          forall p q, p ∈ dirs -> q ∈ ancestors p -> is_dir (filesystem st1) q)
      /\ createDirs st1 = Return tt st1)
  /\ ((forall p, p ∈ dirs -> is_dir (filesystem st) p) ->
      createDirs st = Return tt st).
Proof.
  assert (Hnoop : forall s, (forall p, p ∈ dirs -> is_dir (filesystem s) p) ->
                            createDirs s = Return tt s).
  { intros s H. change (createDirs s) with (create dirs s).
    rewrite create_eq, MkdirAll_list_there by assumption. now destruct s. }
  split; [|apply Hnoop].
  intros st1 E. apply createDirs_Return in E as (fs' & E & ->).
  destruct (MkdirAll_list_spec _ _ _ _ _ E) as (_ & T & D).
  split; [now apply D|]. split.
  - intros Ht p q Hp Hq. cbn. apply (tree_ancestors fs' p); auto.
  - apply Hnoop. now apply D.
Qed.

(** C3, as the code has it.  When the directories are in place the hook
    returns, and what it adds to the output is the deprecation notice (if
    any), then the update-notification check exactly when the package
    variable [enableUpdateNotification] is true, then the kubectl download
    message check exactly when [enableKubectlDownloadMsg] is true.  The
    resolved configuration has no part in it. *)
Theorem checks_follow_package_switches st st1 :
  createDirs st = Return tt st1 ->
  exists st' notice,
    PersistentPreRun st = Return tt st'
    /\ (notice = [] \/ notice = [Println deprecation_notice])
    /\ output st'
       = (output st ++ notice
          ++ (if enableUpdateNotification st then [UpdateNotificationCheck] else [])
          ++ (if enableKubectlDownloadMsg st then [KubectlDownloadMsgCheck] else []))%list.
Proof.
  intros E. rewrite PersistentPreRun_eq, E.
  apply createDirs_Return in E as (fs' & _ & ->).
  eexists.
  exists (if Viper.GetBool (viper st) (PersistentFlags st) (environ st) showLibmachineLogs
          then [Println deprecation_notice] else []).
  split; [reflexivity|].
  split; [destruct (Viper.GetBool _ _ _ _); auto|].
  rewrite after_dirs_output. reflexivity.
Qed.

(* =================================================================== *)
(** ** Further properties of the start-up sequence *)
(* =================================================================== *)

(** *** Loops *)

(** What every returning round keeps, a returning loop keeps. *)
Lemma for_range_preserves {A} (I : State -> Prop) (l : list A) (body : A -> M unit) :
  (forall x s s', x ∈ l -> body x s = Return tt s' -> I s -> I s') ->
  forall st st', for_range l body st = Return tt st' -> I st -> I st'.
Proof.
  induction l as [|x l IH]; intros Hbody st st'.
  - cbn. intros [= <-]. auto.
  - cbn [for_range]. unfold mbind, M_bind.
    destruct (body x st) as [[] s1| |] eqn:E1; try discriminate.
    intros E HI. apply (IH (fun y s s' Hy => Hbody y s s' (list_elem_of_further _ _ _ Hy)) s1);
      [assumption|]. apply (Hbody x st s1); [left | assumption..].
Qed.

(** A loop whose rounds never exit does not exit. *)
Lemma for_range_no_exit {A} (l : list A) (body : A -> M unit) :
  (forall x s code s', body x s <> Exit code s') ->
  forall st code st', for_range l body st <> Exit code st'.
Proof.
  intros Hbody. induction l as [|x l IH]; intros st code st'.
  - discriminate.
  - cbn [for_range]. unfold mbind, M_bind.
    destruct (body x st) as [[] s1| |] eqn:E1; [apply IH | | discriminate].
    intros [= -> ->]. now apply (Hbody x st code st').
Qed.

(** The rounds before that of [name] keep [Pre], the round of [name] turns
    [Pre] into [K], every round keeps [K]. *)
Lemma for_range_establish (l : list string) (name : string) (Pre K : State -> Prop)
    (body : string -> M unit) :
  name ∈ l ->
  (forall x s, x ∈ l -> x <> name -> Pre s -> exists s', body x s = Return tt s' /\ Pre s') ->
  (forall s, Pre s -> exists s', body name s = Return tt s' /\ K s') ->
  (forall x s, x ∈ l -> K s -> exists s', body x s = Return tt s' /\ K s') ->
  forall st, Pre st -> exists st', for_range l body st = Return tt st' /\ K st'.
Proof.
  intros Hin Hpre Hname HK. induction l as [|x l IH]; intros st HP.
  - now apply elem_of_nil in Hin.
  - cbn [for_range]. destruct (decide (x = name)) as [->|Hne].
    + destruct (Hname st HP) as (s1 & E1 & K1).
      rewrite (bind_Return _ _ _ _ _ E1).
      apply (for_range_invariant K); [|assumption].
      intros y s Hy. apply HK. now right.
    + destruct (Hpre x st) as (s1 & E1 & P1); [left | assumption..|].
      rewrite (bind_Return _ _ _ _ _ E1).
      apply elem_of_cons in Hin as [->|Hin]; [congruence|].
      apply IH; try assumption.
      * intros y s Hy. apply Hpre. now right.
      * intros y s Hy. apply HK. now right.
Qed.

(** A round that returns has found its flag. *)
Lemma setFlagUsingViper_Return config st st' :
  setFlagUsingViper config st = Return tt st' ->
  exists a, pflag_CommandLine st !! config = Some a
            /\ st' = set_pflag_CommandLine (set_viper st (resolved_viper a (viper st)))
                       (<[config := resolved_flag st a]> (pflag_CommandLine st)).
Proof.
  destruct (pflag_CommandLine st !! config) as [a|] eqn:E.
  - rewrite (setFlagUsingViper_found _ _ _ E). intros [= <-]. eauto.
  - destruct (setFlagUsingViper_missing _ _ E) as [msg ->]. discriminate.
Qed.

Lemma setFlagUsingViper_no_exit config st code st' :
  setFlagUsingViper config st <> Exit code st'.
Proof.
  destruct (pflag_CommandLine st !! config) as [a|] eqn:E.
  - rewrite (setFlagUsingViper_found _ _ _ E). discriminate.
  - destruct (setFlagUsingViper_missing _ _ E) as [msg ->]. discriminate.
Qed.

(** *** The flags after the resolution *)

Lemma marked_round name config st b :
  pflag_CommandLine st !! config = Some b ->
  (config = name \/ marked name st) ->
  marked name
    (set_pflag_CommandLine (set_viper st (resolved_viper b (viper st)))
       (<[config := resolved_flag st b]> (pflag_CommandLine st))).
Proof.
  intros Hb H. unfold marked. cbn.
  destruct (decide (config = name)) as [->|Hne].
  - rewrite lookup_insert_eq. eauto.
  - rewrite lookup_insert_ne by assumption. now destruct H.
Qed.

Lemma rounds_mark_all st :
  registered viperWhiteList st ->
  exists st',
    setFlagsUsingViper st = Return tt st'
    /\ forall name, name ∈ viperWhiteList ->
         exists a, pflag_CommandLine st' !! name = Some a /\ Changed a = true.
Proof.
  intros Hreg.
  destruct (rounds_return _ _ Hreg) as (st' & E & _).
  exists st'. split; [exact E|]. intros name Hin.
  destruct (for_range_establish viperWhiteList name
              (registered viperWhiteList)
              (fun s => registered viperWhiteList s /\ marked name s)
              setFlagUsingViper Hin) with (st := st) as (st2 & E2 & _ & Hm).
  - intros x s Hx _ Hs. destruct (Hs x Hx) as [b Hb].
    eexists. split; [apply setFlagUsingViper_found, Hb|]. now apply registered_round.
  - intros s Hs. destruct (Hs name Hin) as [b Hb].
    eexists. split; [apply setFlagUsingViper_found, Hb|].
    split; [now apply registered_round|]. apply marked_round; auto.
  - intros x s Hx [Hs Hm]. destruct (Hs x Hx) as [b Hb].
    eexists. split; [apply setFlagUsingViper_found, Hb|].
    split; [now apply registered_round|]. apply marked_round; auto.
  - assumption.
  - unfold setFlagsUsingViper in E. rewrite E in E2. injection E2 as <-. exact Hm.
Qed.


(** X1.  When [setFlagsUsingViper] returns, every whitelisted flag is marked
    as changed, whether it was given on the command line or not. *)
Theorem resolution_marks_every_flag st :
  registered viperWhiteList st ->
  exists st',
    setFlagsUsingViper st = Return tt st'
    /\ forall name, name ∈ viperWhiteList ->
         exists a, pflag_CommandLine st' !! name = Some a /\ Changed a = true.
Proof. apply rounds_mark_all. Qed.

Lemma rounds_untouched l st st' :
  for_range l setFlagUsingViper st = Return tt st' -> untouched l st st'.
Proof.
  intros E. apply (for_range_preserves (untouched l st) l setFlagUsingViper) with (st := st);
    [|assumption|].
  - intros x s s' Hx Es (U1 & U2 & U3 & U4 & U5 & U6 & U7).
    apply setFlagUsingViper_Return in Es as (a & Ha & ->).
    unfold untouched. cbn. repeat split; try assumption.
    intros n Hn. rewrite lookup_insert_ne by (intros ->; contradiction). now apply U1.
  - unfold untouched. repeat split.
Qed.


Lemma all_valid_round l config st a :
  all_valid l st ->
  pflag_CommandLine st !! config = Some a ->
  config ∈ l ->
  all_valid l (set_pflag_CommandLine (set_viper st (resolved_viper a (viper st)))
                 (<[config := resolved_flag st a]> (pflag_CommandLine st))).
Proof.
  intros H Ha Hc n b Hn. cbn. destruct (decide (config = n)) as [->|Hne].
  - rewrite lookup_insert_eq. intros [= <-]. cbn. apply Set_valid. now apply (H n a).
  - rewrite lookup_insert_ne by assumption. now apply H.
Qed.

(** X3.  Resolving twice changes no flag: a second [setFlagsUsingViper]
    leaves [pflag.CommandLine] as the first one left it. *)
Theorem resolution_twice st :
  registered viperWhiteList st -> all_valid viperWhiteList st ->
  exists st' st'',
    setFlagsUsingViper st = Return tt st'
    /\ setFlagsUsingViper st' = Return tt st''
    /\ pflag_CommandLine st'' = pflag_CommandLine st'.
Proof.
  intros Hreg Hval.
  destruct (for_range_invariant
              (fun s => registered viperWhiteList s /\ all_valid viperWhiteList s)
              viperWhiteList setFlagUsingViper) with (st := st)
    as (st' & E & Hreg' & Hval'); [|now split|].
  { intros x s Hx [Hr Hv]. destruct (Hr x Hx) as [b Hb].
    eexists. split; [apply setFlagUsingViper_found, Hb|].
    split; [now apply registered_round | now apply all_valid_round]. }
  destruct (rounds_mark_all st Hreg) as (s1 & E1 & Hm).
  unfold setFlagsUsingViper in E1. rewrite E in E1. injection E1 as <-.
  destruct (for_range_invariant
              (fun s => pflag_CommandLine s = pflag_CommandLine st')
              viperWhiteList setFlagUsingViper) with (st := st')
    as (st'' & E' & Hsame); [|reflexivity|].
  { intros x s Hx Hs. destruct (Hm x Hx) as (b & Hb & Hc).
    rewrite <- Hs in Hb.
    eexists. split; [apply setFlagUsingViper_found, Hb|]. cbn.
    rewrite resolved_flag_changed; [|assumption|].
    - rewrite insert_id; assumption.
    - apply (Hval' x b Hx). now rewrite <- Hs. }
  exists st', st''. auto.
Qed.

(** *** The layers once more *)

(** What [Get] finds for a key after [with_setup] when neither the override
    nor a bound flag has it. *)
Lemma Get_with_setup_key v bound env key :
  Viper.override v !! GoStrings.ToLower key = None ->
  Viper.pflags v !! GoStrings.ToLower key = None ->
  Viper.Get (with_setup v) bound env key
  = (if negb (String.eqb (Viper.Getenv env (env_var key)) "")
     then Some (VString (Viper.Getenv env (env_var key))) else None)
    ∪ Viper.config v !! GoStrings.ToLower key
    ∪ Viper.defaults (with_setup v) !! GoStrings.ToLower key.
Proof.
  intros Ho Hp.
  unfold Viper.Get, Viper.find.
  cbn [with_setup with_env_rules Viper.SetDefault Viper.SetEnvPrefix Viper.SetEnvKeyReplacer
       Viper.AutomaticEnv Viper.override Viper.pflags Viper.config
       Viper.automaticEnvApplied].
  rewrite Ho, Hp.
  assert (Hg : Viper.getEnv (with_setup v) env
                 (Viper.mergeWithEnvPrefix (with_setup v) (GoStrings.ToLower key))
               = Viper.Getenv env (env_var key)) by reflexivity.
  rewrite Hg.
  generalize (Viper.Getenv env (env_var key)),
    (Viper.config v !! GoStrings.ToLower key),
    (Viper.defaults (with_setup v) !! GoStrings.ToLower key).
  intros e c d. destruct (e =? "")%string, c, d; reflexivity.
Qed.

Lemma Get_with_setup_env v bound env name d s :
  GoStrings.ToLower name = name ->
  Viper.override v !! name = None ->
  Viper.pflags v !! name = None ->
  Viper.Getenv env (env_var name) = s -> s <> "" ->
  Viper.Get (Viper.SetDefault (with_setup v) name d) bound env name = Some (VString s).
Proof.
  intros Hlow Ho Hp He Hs.
  unfold Viper.Get, Viper.find. rewrite Hlow.
  cbn [with_setup with_env_rules Viper.SetDefault Viper.SetEnvPrefix Viper.SetEnvKeyReplacer
       Viper.AutomaticEnv Viper.override Viper.pflags Viper.defaults Viper.config
       Viper.automaticEnvApplied].
  rewrite Ho, Hp.
  replace (Viper.getEnv _ env _) with (Viper.Getenv env (env_var name)).
  - rewrite He. apply String.eqb_neq in Hs. rewrite Hs.
    generalize (Viper.config v !! name). intros c.
    match goal with |- context [?m !! name] => generalize (m !! name) end.
    intros o. cbn. now rewrite !union_Some_l.
  - unfold env_var, Viper.envName, Viper.getEnv. now rewrite Hlow.
Qed.

Lemma GetString_override v bound env key s :
  Viper.override v !! GoStrings.ToLower key = Some (VString s) ->
  Viper.GetString v bound env key = s.
Proof.
  intros H. unfold Viper.GetString, Viper.Get, Viper.find.
  now rewrite H, !union_Some_l.
Qed.

(** The flags as [initConfig] hands them to the rounds. *)
Lemma before_resolution_flags st :
  pflag_CommandLine (before_resolution st) = pflag_CommandLine st.
Proof. reflexivity. Qed.

(** X4.  For a whitelisted flag that was not given on the command line, a
    non-empty environment variable decides: [initConfig] sets the flag from
    the variable's text, whatever the config file holds. *)
Theorem environment_before_config_file_for_flags st name a s :
  name ∈ viperWhiteList ->
  registered viperWhiteList st -> wellnamed viperWhiteList st ->
  pflag_CommandLine st !! name = Some a ->
  Changed a = false -> valid (Value_ a) ->
  Viper.override (viper st) !! name = None ->
  Viper.pflags (viper st) !! name = None ->
  Viper.Getenv (environ st) (env_var name) = s -> s <> "" ->
  exists st' a',
    initConfig st = Return tt st'
    /\ pflag_CommandLine st' !! name = Some a'
    /\ Value_ a' = fst (Set_ (Value_ a) s)
    /\ Changed a' = true.
Proof.
  intros Hin Hreg Hwn Ha Hc Hv Ho Hp He Hs.
  rewrite initConfig_unfold. unfold setFlagsUsingViper.
  destruct (with_config_file_frame st) as [Fo Fp].
  destruct (unsupplied_rounds viperWhiteList name a (fun _ => Some (VString s))
              (before_resolution st)) as (st' & E & a' & Ha' & Hc' & Hv');
    try assumption.
  - intros n Hn. now apply whitelist_lower.
  - split; [assumption|]. intros d.
    cbn [viper PersistentFlags environ before_resolution set_viper set_output].
    apply Get_with_setup_env; [now apply whitelist_lower | | | assumption..].
    + now rewrite Fo.
    + now rewrite Fp.
  - exists st', a'. auto.
Qed.

(** X5.  The error of [a.Value.Set] is dropped: when the config file gives
    the verbosity flag an entry that is no number, [initConfig] returns
    without logging anything, the flag keeps its level and is marked as
    changed all the same. *)
Theorem rejected_config_entry_is_ignored st name a l m c :
  name ∈ viperWhiteList ->
  registered viperWhiteList st -> wellnamed viperWhiteList st ->
  pflag_CommandLine st !! name = Some a ->
  Changed a = false -> Value_ a = LevelValue l -> in_int32 l ->
  Viper.override (viper st) !! name = None ->
  Viper.pflags (viper st) !! name = None ->
  Viper.Getenv (environ st) (env_var name) = "" ->
  Os.ReadFile (filesystem st) ConfigFile = inl (Os.Object m) ->
  m !! name = Some c ->
  Strconv.Atoi (ToString (Some c)) = None ->
  exists st' a',
    initConfig st = Return tt st'
    /\ pflag_CommandLine st' !! name = Some a'
    /\ Value_ a' = LevelValue l
    /\ Changed a' = true
    /\ output st' = output st.
Proof.
  intros Hin Hreg Hwn Ha Hc Hl Hrange Ho Hp He Hf Hm Hrej.
  destruct (initConfig_unsupplied st name a) as (st' & E & a' & Ha' & Hc' & Hv');
    try assumption.
  { rewrite Hl. exact Hrange. }
  exists st', a'. split; [exact E|]. split; [exact Ha'|].
  split; [|split; [exact Hc'|]].
  - rewrite Hv', (before_resolution_config _ _ Hf), Hm, union_Some_l, Hl.
    cbn [Set_]. now rewrite Hrej.
  - rewrite initConfig_unfold in E. apply rounds_untouched in E as (_ & _ & _ & _ & _ & _ & U).
    rewrite U. unfold before_resolution. cbn [output set_viper set_output].
    rewrite with_config_file_eq, Hf. cbn. apply app_nil_r.
Qed.

Lemma overridden_round l name val x st b :
  (forall n, n ∈ l -> GoStrings.ToLower n = n) ->
  name ∈ l -> x ∈ l ->
  wellnamed l st -> supplied name val st ->
  pflag_CommandLine st !! x = Some b ->
  (x = name \/ overridden name val st) ->
  overridden name val
    (set_pflag_CommandLine (set_viper st (resolved_viper b (viper st)))
       (<[x := resolved_flag st b]> (pflag_CommandLine st))).
Proof.
  intros Hlow Hname Hx Hwn (a & Ha & Hc & Hv) Hb H.
  unfold overridden, resolved_viper. cbn [viper set_viper set_pflag_CommandLine].
  pose proof (Hwn x b Hx Hb) as Hnb.
  destruct (decide (x = name)) as [->|Hne].
  - assert (b = a) as -> by congruence.
    rewrite Hc. cbn. rewrite Hnb, (Hlow name Hname), lookup_insert_eq. now rewrite Hv.
  - destruct H as [|H]; [contradiction|].
    destruct (Changed b); cbn; [|exact H].
    rewrite lookup_insert_ne; [exact H|]. rewrite Hnb, (Hlow x Hx). exact Hne.
Qed.

(** X6.  After [setFlagsUsingViper] viper answers for a whitelisted flag
    that was given on the command line with the text of the flag's value. *)
Theorem viper_holds_supplied_value st name a :
  name ∈ viperWhiteList ->
  registered viperWhiteList st -> wellnamed viperWhiteList st ->
  pflag_CommandLine st !! name = Some a ->
  Changed a = true -> valid (Value_ a) ->
  exists st',
    setFlagsUsingViper st = Return tt st'
    /\ Viper.GetString (viper st') (PersistentFlags st') (environ st') name
       = String_ (Value_ a).
Proof.
  intros Hin Hreg Hwn Ha Hc Hv.
  set (val := Value_ a).
  set (Pre := fun s => registered viperWhiteList s /\ wellnamed viperWhiteList s
                       /\ supplied name val s).
  destruct (for_range_establish viperWhiteList name Pre
              (fun s => Pre s /\ overridden name val s) setFlagUsingViper Hin)
    with (st := st) as (st' & E & _ & Hov).
  - intros x s Hx Hne (Hr & Hw & Hs). destruct (Hr x Hx) as [b Hb].
    eexists. split; [apply setFlagUsingViper_found, Hb|].
    split; [now apply registered_round|].
    split; [now apply wellnamed_round | now apply supplied_round].
  - intros s (Hr & Hw & Hs). destruct (Hr name Hin) as [b Hb].
    eexists. split; [apply setFlagUsingViper_found, Hb|].
    split; [split; [now apply registered_round|];
            split; [now apply wellnamed_round | now apply supplied_round]|].
    apply (overridden_round viperWhiteList); auto using whitelist_lower.
  - intros x s Hx [(Hr & Hw & Hs) Ho]. destruct (Hr x Hx) as [b Hb].
    eexists. split; [apply setFlagUsingViper_found, Hb|].
    split; [split; [now apply registered_round|];
            split; [now apply wellnamed_round | now apply supplied_round]|].
    apply (overridden_round viperWhiteList); auto using whitelist_lower.
  - split; [assumption|]. split; [assumption|]. now exists a.
  - exists st'. split; [exact E|].
    apply GetString_override. rewrite (whitelist_lower _ Hin). exact Hov.
Qed.

(** X11.  When the config file can be read, [initConfig] logs nothing, the
    config layer is the content of the file, and an entry of the file for a
    key that is no whitelisted flag is what viper answers for that key, in
    place of the compiled default, unless an override, a bound flag or the
    environment has the key. *)
Theorem readable_config_is_loaded st m :
  registered viperWhiteList st -> wellnamed viperWhiteList st ->
  Os.ReadFile (filesystem st) ConfigFile = inl (Os.Object m) ->
  exists st',
    initConfig st = Return tt st'
    /\ output st' = output st
    /\ Viper.config (viper st') = m
    /\ forall key c,
         GoStrings.ToLower key ∉ viperWhiteList ->
         m !! GoStrings.ToLower key = Some c ->
         Viper.override (viper st) !! GoStrings.ToLower key = None ->
         Viper.pflags (viper st) !! GoStrings.ToLower key = None ->
         Viper.Getenv (environ st) (env_var key) = "" ->
         Viper.Get (viper st') (PersistentFlags st') (environ st') key = Some c.
Proof.
  intros Hreg Hwn Hf.
  destruct (rounds_keep viperWhiteList (before_resolution st))
    as (st' & E & F); [apply whitelist_lower | assumption..|].
  destruct (with_config_file_frame st) as [Fo Fp].
  pose proof F as (F1 & _ & _ & F4 & _).
  exists st'. split; [now rewrite initConfig_unfold|].
  split; [|split].
  - rewrite F1. unfold before_resolution. cbn [output set_viper set_output].
    rewrite with_config_file_eq, Hf. cbn. apply app_nil_r.
  - rewrite F4. exact (before_resolution_config _ _ Hf).
  - intros key c Hk Hm Ho Hp He.
    rewrite (Get_frame viperWhiteList (before_resolution st) st') by assumption.
    cbn [before_resolution viper PersistentFlags environ set_viper set_output].
    rewrite Get_with_setup_key by (rewrite ?Fo, ?Fp; assumption).
    rewrite He, (before_resolution_config _ _ Hf), Hm.
    change (negb ("" =? "")%string) with false. cbn iota.
    now rewrite (left_id None union), union_Some_l.
Qed.

(** X12.  After [initConfig] a non-empty environment variable is what
    viper answers for a key that is no whitelisted flag, before the config
    file and the compiled default, unless an override or a bound flag has
    the key. *)
Theorem environment_decides_configuration_key st key s :
  registered viperWhiteList st -> wellnamed viperWhiteList st ->
  GoStrings.ToLower key ∉ viperWhiteList ->
  Viper.override (viper st) !! GoStrings.ToLower key = None ->
  Viper.pflags (viper st) !! GoStrings.ToLower key = None ->
  Viper.Getenv (environ st) (env_var key) = s -> s <> "" ->
  exists st',
    initConfig st = Return tt st'
    /\ Viper.Get (viper st') (PersistentFlags st') (environ st') key = Some (VString s).
Proof.
  intros Hreg Hwn Hk Ho Hp He Hs.
  destruct (rounds_keep viperWhiteList (before_resolution st))
    as (st' & E & F); [apply whitelist_lower | assumption..|].
  destruct (with_config_file_frame st) as [Fo Fp].
  exists st'. split; [now rewrite initConfig_unfold|].
  rewrite (Get_frame viperWhiteList (before_resolution st) st') by assumption.
  cbn [before_resolution viper PersistentFlags environ set_viper set_output].
  rewrite Get_with_setup_key by (rewrite ?Fo, ?Fp; assumption).
  rewrite He. apply String.eqb_neq in Hs. rewrite Hs. cbn [negb].
  now rewrite !union_Some_l.
Qed.

(** X13.  Whatever the config file is, [initConfig] does not end the
    process with an exit status: it returns when every whitelisted flag is
    registered and panics when one is missing. *)
Theorem initConfig_returns_or_panics st :
  (registered viperWhiteList st -> exists st', initConfig st = Return tt st')
  /\ (forall name, name ∈ viperWhiteList -> pflag_CommandLine st !! name = None ->
        exists msg st', initConfig st = Panic msg st')
  /\ (forall code st', initConfig st <> Exit code st').
Proof.
  rewrite initConfig_unfold. split; [|split].
  - intros Hreg. destruct (rounds_return viperWhiteList (before_resolution st)) as (st' & E & _);
      [exact Hreg | eauto].
  - intros name Hin Hnone. now apply (rounds_panic viperWhiteList _ name).
  - apply for_range_no_exit. intros x s code s'. apply setFlagUsingViper_no_exit.
Qed.

(** *** The package initialiser on any state *)

Lemma merged_flags_lookup st n :
  merged_flags st !! n
  = pflag_CommandLine st !! n ∪ (PFlagFromGoFlag <$> goflag_CommandLine st !! n).
Proof.
  unfold merged_flags, Pflag.AddGoFlagSet.
  rewrite lookup_union, lookup_fmap. reflexivity.
Qed.

Lemma init_flags_defined st :
  PersistentFlags st !! showLibmachineLogs = None ->
  PersistentFlags st !! useVendoredDriver = None ->
  (PersistentFlags_Bool showLibmachineLogs false
   ;; PersistentFlags_Bool useVendoredDriver false) st
  = Return tt (set_PersistentFlags st (root_flags (PersistentFlags st))).
Proof.
  intros H1 H2. unfold mbind, M_bind, PersistentFlags_Bool, Pflag.Bool.
  rewrite H1. cbn [PersistentFlags set_PersistentFlags].
  rewrite lookup_insert_ne by discriminate. rewrite H2. now destruct st.
Qed.

Lemma init_eq st :
  PersistentFlags st !! showLibmachineLogs = None ->
  PersistentFlags st !! useVendoredDriver = None ->
  match merged_flags st !! "log_dir" with
  | Some a =>
      exists st',
        init st = Return tt st'
        /\ pflag_CommandLine st' = <["log_dir" := with_logs_path a]> (merged_flags st)
        /\ glog_vmodule st' = glog_vmodule st
        /\ environ st' = environ st /\ filesystem st' = filesystem st
        /\ output st' = output st
        /\ PersistentFlags st' = root_flags (PersistentFlags st)
        /\ viper st' = Viper.BindPFlags (viper st) (root_flags (PersistentFlags st))
        /\ initializers st' = (initializers st ++ [InitConfig])%list
  | None => exists msg st', init st = Panic msg st'
  end.
Proof.
  intros H1 H2. pose proof (init_flags_defined st H1 H2) as E.
  assert (Hassoc : forall (m1 m2 : M unit) (k : M unit) s,
             (m1 ;; m2 ;; k) s = ((m1 ;; m2) ;; k) s).
  { intros m1 m2 k s. unfold mbind, M_bind. now destruct (m1 s). }
  unfold init. rewrite Hassoc, (bind_Return _ _ _ _ _ E).
  unfold mbind, M_bind, modify, get, deref, Pflag.Lookup, when, store_flag, viper_do.
  cbn [pflag_CommandLine goflag_CommandLine set_PersistentFlags set_pflag_CommandLine].
  fold (merged_flags st).
  destruct (merged_flags st !! "log_dir") as [a|] eqn:El.
  - unfold with_logs_path. cbn beta iota.
    destruct (Changed a) eqn:Ec; cbn; rewrite ?Ec; cbn; eexists;
      (split; [reflexivity|]); cbn; repeat split.
    now rewrite insert_id.
  - cbn. eauto.
Qed.

(** X8.  [init] registers every flag of Go's [flag.CommandLine] with
    [pflag.CommandLine]: a flag that pflag did not have yet is added with
    the Go flag's name and value, with the text of that value as its default
    (whatever default the Go flag was declared with) and unmarked ([log_dir]
    apart), and a flag that pflag had is kept. *)
Theorem init_adds_go_flags st a :
  PersistentFlags st !! showLibmachineLogs = None ->
  PersistentFlags st !! useVendoredDriver = None ->
  merged_flags st !! "log_dir" = Some a ->
  exists st',
    init st = Return tt st'
    /\ (forall n g, goflag_CommandLine st !! n = Some g ->
          is_Some (pflag_CommandLine st' !! n))
    /\ (forall n g, n <> "log_dir" ->
          goflag_CommandLine st !! n = Some g ->
          pflag_CommandLine st !! n = None ->
          pflag_CommandLine st' !! n
          = Some {| Name := GoName g; Value_ := GoValue g;
                    DefValue := String_ (GoValue g); Changed := false |})
    /\ (forall n b, n <> "log_dir" ->
          pflag_CommandLine st !! n = Some b ->
          pflag_CommandLine st' !! n = Some b).
Proof.
  intros H1 H2 Hl. pose proof (init_eq st H1 H2) as H. rewrite Hl in H.
  destruct H as (st' & E & Hf & _). exists st'. split; [exact E|].
  rewrite Hf. split; [|split].
  - intros n g Hg. destruct (decide ("log_dir" = n)) as [<-|Hne].
    + rewrite lookup_insert_eq. eauto.
    + rewrite lookup_insert_ne by assumption.
      rewrite merged_flags_lookup, Hg.
      destruct (pflag_CommandLine st !! n); cbn; eauto.
  - intros n g Hne Hg Hn.
    rewrite lookup_insert_ne by congruence.
    rewrite merged_flags_lookup, Hg, Hn. reflexivity.
  - intros n b Hne Hb.
    rewrite lookup_insert_ne by congruence.
    rewrite merged_flags_lookup, Hb. apply union_Some_l.
Qed.

(** X9.  [init] needs a [log_dir] flag: when neither pflag nor Go's flag
    package has one, it panics. *)
Theorem init_without_log_dir_panics st :
  PersistentFlags st !! showLibmachineLogs = None ->
  PersistentFlags st !! useVendoredDriver = None ->
  pflag_CommandLine st !! "log_dir" = None ->
  goflag_CommandLine st !! "log_dir" = None ->
  exists msg st', init st = Panic msg st'.
Proof.
  intros H1 H2 Hp Hg. pose proof (init_eq st H1 H2) as H.
  rewrite merged_flags_lookup, Hp, Hg in H. exact H.
Qed.

(** X10.  [init] leaves a [log_dir] flag alone that is marked as changed. *)
Theorem init_keeps_changed_log_dir st a :
  PersistentFlags st !! showLibmachineLogs = None ->
  PersistentFlags st !! useVendoredDriver = None ->
  pflag_CommandLine st !! "log_dir" = Some a ->
  Changed a = true ->
  exists st',
    init st = Return tt st'
    /\ pflag_CommandLine st' !! "log_dir" = Some a.
Proof.
  intros H1 H2 Hp Hc. pose proof (init_eq st H1 H2) as H.
  rewrite merged_flags_lookup, Hp, union_Some_l in H.
  destruct H as (st' & E & Hf & _). exists st'. split; [exact E|].
  rewrite Hf, lookup_insert_eq. unfold with_logs_path. now rewrite Hc.
Qed.

(** *** The pre-run hook once more *)

(** What the part of the hook after the directories leaves alone. *)
Lemma after_dirs_frame st1 :
  pflag_CommandLine (after_dirs st1) = pflag_CommandLine st1
  /\ glog_vmodule (after_dirs st1) = glog_vmodule st1
  /\ PersistentFlags (after_dirs st1) = PersistentFlags st1
  /\ viper (after_dirs st1) = viper st1
  /\ environ (after_dirs st1) = environ st1
  /\ filesystem (after_dirs st1) = filesystem st1
  /\ enableUpdateNotification (after_dirs st1) = enableUpdateNotification st1
  /\ enableKubectlDownloadMsg (after_dirs st1) = enableKubectlDownloadMsg st1.
Proof.
  unfold after_dirs.
  destruct (Viper.GetBool (viper st1) (PersistentFlags st1) (environ st1)
              showLibmachineLogs); simpl_state;
  destruct (Glog.V (pflag_CommandLine st1) (glog_vmodule st1) caller_file 3); simpl_state;
  destruct (Glog.V (pflag_CommandLine st1) (glog_vmodule st1) caller_file 7); simpl_state;
  destruct (enableUpdateNotification st1) eqn:Eu; simpl_state; rewrite ?Eu;
  destruct (enableKubectlDownloadMsg st1) eqn:Ek; simpl_state; rewrite ?Eu, ?Ek;
  repeat split.
Qed.

Lemma createDirs_there st :
  (forall p, p ∈ dirs -> is_dir (filesystem st) p) -> createDirs st = Return tt st.
Proof.
  intros H. change (createDirs st) with (create dirs st).
  rewrite create_eq, MkdirAll_list_there by assumption. now destruct st.
Qed.

(** The outcome of the creation loop, read off [MkdirAll_list]. *)
Lemma createDirs_cases st :
  exists fs' r,
    MkdirAll_list (filesystem st) dirs 511 = (fs', r)
    /\ createDirs st
       = match r with
         | None => Return tt (set_filesystem st fs')
         | Some err =>
             Exit 1 (set_output (set_filesystem st fs') (output st ++ [fatal_message err]))
         end.
Proof.
  change (createDirs st) with (create dirs st). rewrite create_eq.
  destruct (MkdirAll_list (filesystem st) dirs 511) as [fs' r]. exists fs', r.
  split; [reflexivity|]. now destruct r.
Qed.

Lemma MkdirAll_list_error l :
  forall fs perm fs' err,
    MkdirAll_list fs l perm = (fs', Some err) ->
    exists pre p post fs1,
      l = (pre ++ p :: post)%list
      /\ MkdirAll_list fs pre perm = (fs1, None)
      /\ Os.MkdirAll fs1 p perm = (fs', Some err).
Proof.
  induction l as [|x l IH]; intros fs perm fs' err; cbn; [discriminate|].
  destruct (Os.MkdirAll fs x perm) as [fs1 [e|]] eqn:E1.
  - intros [= <- <-]. exists [], x, l, fs. auto.
  - intros E2. destruct (IH _ _ _ _ E2) as (pre & p & post & fs2 & -> & Hpre & Hp).
    exists (x :: pre), p, post, fs2. split; [reflexivity|]. split; [|assumption].
    cbn. now rewrite E1.
Qed.

Lemma MkdirAll_list_file l :
  forall fs perm p d,
    p ∈ l -> Os.node_at fs p = Some (Os.File d) ->
    exists fs' err, MkdirAll_list fs l perm = (fs', Some err).
Proof.
  induction l as [|x l IH]; intros fs perm p d Hin Hp; [now apply elem_of_nil in Hin|].
  cbn. destruct (Os.MkdirAll fs x perm) as [fs1 [e|]] eqn:E1; [eauto|].
  apply elem_of_cons in Hin as [->|Hin].
  - rewrite (MkdirAll_file _ _ _ _ Hp) in E1. discriminate.
  - destruct (MkdirAll_spec _ _ _ _ _ E1) as (G & _).
    apply (IH fs1 perm p d); [assumption | now apply G].
Qed.

(** [MkdirAll] writes at its path and above it only. *)
Lemma MkdirAll_below p :
  forall fs perm fs' r k,
    Os.MkdirAll fs p perm = (fs', r) ->
    (length (ancestors p) < length (ancestors k))%nat ->
    fs' !! k = fs !! k.
Proof.
  induction p as [|q IH name]; intros fs perm fs' r k.
  - cbn. unfold Os.Stat. destruct (Os.node_at fs Os.Root) as [[w|d]|] eqn:E.
    + now intros [= <- <-].
    + now intros [= <- <-].
    + unfold Os.node_at in E. destruct (fs !! Os.Root); discriminate.
  - cbn [Os.MkdirAll]. unfold Os.Stat at 1.
    destruct (Os.node_at fs (Os.Child q name)) as [[w|d]|] eqn:E;
      [now intros [= <- <-] | now intros [= <- <-] |].
    intros H Hk. cbn [ancestors length] in Hk.
    assert (Hpar : exists fs1 r1,
               match q with
               | Os.Child _ _ => Os.MkdirAll fs q perm
               | Os.Root => (fs, None)
               end = (fs1, r1)
               /\ fs1 !! k = fs !! k).
    { destruct q as [|q' name'].
      - exists fs, None. now split.
      - destruct (Os.MkdirAll fs (Os.Child q' name') perm) as [fs1 r1] eqn:E1.
        exists fs1, r1. split; [reflexivity|]. apply (IH _ _ _ _ _ E1). lia. }
    destruct Hpar as (fs1 & r1 & Hq & K1). rewrite Hq in H.
    destruct r1 as [e|]; [now injection H as <- <-|].
    destruct (Os.Mkdir fs1 (Os.Child q name) perm) as [fs2 r2] eqn:E2.
    assert (K2 : fs2 !! k = fs1 !! k).
    { apply Mkdir_inv in E2 as [[-> _]|(_ & _ & -> & _)]; [reflexivity|].
      apply lookup_insert_ne. intros <-. cbn [ancestors length] in Hk. lia. }
    destruct r2 as [e|].
    + unfold Os.Stat in H.
      destruct (Os.node_at fs2 (Os.Child q name)) as [[w|d]|]; injection H as <- <-;
        congruence.
    + injection H as <- <-. congruence.
Qed.

(** When [MkdirAll] reports an error its path is no directory. *)
Lemma MkdirAll_error p fs perm fs' e :
  Os.MkdirAll fs p perm = (fs', Some e) -> ~ is_dir fs' p.
Proof.
  destruct p as [|q name].
  - cbn. unfold Os.Stat. destruct (Os.node_at fs Os.Root) as [[w|d]|] eqn:E.
    + discriminate.
    + intros [= <- <-] [w Hw]. congruence.
    + unfold Os.node_at in E. destruct (fs !! Os.Root); discriminate.
  - cbn [Os.MkdirAll]. unfold Os.Stat at 1.
    destruct (Os.node_at fs (Os.Child q name)) as [[w|d]|] eqn:E.
    + discriminate.
    + intros [= <- <-] [w Hw]. congruence.
    + assert (Hpar : exists fs1 r1,
                 match q with
                 | Os.Child _ _ => Os.MkdirAll fs q perm
                 | Os.Root => (fs, None)
                 end = (fs1, r1)
                 /\ fs1 !! Os.Child q name = fs !! Os.Child q name).
      { destruct q as [|q' name'].
        - exists fs, None. now split.
        - destruct (Os.MkdirAll fs (Os.Child q' name') perm) as [fs1 r1] eqn:E1.
          exists fs1, r1. split; [reflexivity|].
          apply (MkdirAll_below _ _ _ _ _ _ E1). cbn [ancestors length]. lia. }
      destruct Hpar as (fs1 & r1 & -> & K1).
      destruct r1 as [e1|].
      * intros [= <- <-] [w Hw]. unfold Os.node_at in Hw, E. rewrite K1 in Hw.
        destruct (fs !! Os.Child q name); congruence.
      * destruct (Os.Mkdir fs1 (Os.Child q name) perm) as [fs2 [e2|]] eqn:E2;
          [|discriminate].
        unfold Os.Stat.
        destruct (Os.node_at fs2 (Os.Child q name)) as [[w|d]|] eqn:E3;
          [discriminate| |]; intros [= <- <-] [w Hw]; congruence.
Qed.

(** X14.  The hook has no guard against a second run: run again on the
    state it left, it returns again and prints again what it printed the
    first time; the file system and libmachine's logger stay as the first run
    left them. *)
Theorem hook_runs_again st st1 :
  createDirs st = Return tt st1 ->
  exists st' st'' printed,
    PersistentPreRun st = Return tt st'
    /\ PersistentPreRun st' = Return tt st''
    /\ output st' = (output st ++ printed)%list
    /\ output st'' = (output st' ++ printed)%list
    /\ filesystem st'' = filesystem st'
    /\ libmachine_log st'' = libmachine_log st'.
Proof.
  intros E. pose proof E as E0.
  apply createDirs_Return in E0 as (fs' & Hl & ->).
  destruct (MkdirAll_list_spec _ _ _ _ _ Hl) as (_ & _ & D).
  set (st1 := set_filesystem st fs') in *.
  destruct (after_dirs_frame st1) as (Ff & Fm & Fp & Fv & Fe & Ffs & Fu & Fk).
  assert (E' : createDirs (after_dirs st1) = Return tt (after_dirs st1)).
  { apply createDirs_there. rewrite Ffs. now apply D. }
  exists (after_dirs st1), (after_dirs (after_dirs st1)).
  eexists. rewrite !PersistentPreRun_eq, E, E'.
  split; [reflexivity|]. split; [reflexivity|].
  split; [rewrite after_dirs_output; reflexivity|].
  split; [|split].
  - rewrite (after_dirs_output (after_dirs st1)), Fv, Fp, Fe, Fu, Fk. reflexivity.
  - now destruct (after_dirs_frame (after_dirs st1)) as (_ & _ & _ & _ & _ & -> & _).
  - rewrite (after_dirs_log (after_dirs st1)), Ff, Fm, (after_dirs_log st1).
    destruct (libmachine_log st1).
    destruct (Glog.V (pflag_CommandLine st1) (glog_vmodule st1) caller_file 3),
      (Glog.V (pflag_CommandLine st1) (glog_vmodule st1) caller_file 7);
      reflexivity.
Qed.

(** X15.  The only way the hook ends the process is a directory that cannot
    be created: the status is 1, the directories listed before the failing
    one are in place and the failing one is no directory, the output has
    grown by glog's fatal message alone, and libmachine's logger and the
    client type are as before. *)
Theorem hook_exit_is_a_directory_failure st code st' :
  PersistentPreRun st = Exit code st' ->
  code = 1
  /\ exists pre p post err,
       dirs = (pre ++ p :: post)%list
       /\ (forall q, q ∈ pre -> is_dir (filesystem st') q)
       /\ ~ is_dir (filesystem st') p
       /\ output st' = (output st ++ [fatal_message err])%list
       /\ libmachine_log st' = libmachine_log st
       /\ clientType st' = clientType st.
Proof.
  rewrite PersistentPreRun_eq.
  destruct (createDirs_cases st) as (fs' & r & Hl & ->).
  destruct r as [err|]; [|discriminate].
  intros [= <- <-]. split; [reflexivity|].
  destruct (MkdirAll_list_error _ _ _ _ _ Hl) as (pre & p & post & fs1 & Hd & Hpre & Hp).
  exists pre, p, post, err. split; [exact Hd|].
  split; [|split; [exact (MkdirAll_error _ _ _ _ _ Hp) | repeat split]].
  intros q Hq. cbn.
  destruct (MkdirAll_list_spec _ _ _ _ _ Hpre) as (_ & _ & D).
  destruct (MkdirAll_spec _ _ _ _ _ Hp) as (G & _).
  apply (is_dir_grows fs1); auto.
Qed.

(** X16.  The hook never panics, and whether it returns or exits it has
    neither removed nor changed a node of the file system; a file system
    that was a tree still is one. *)
Theorem hook_keeps_what_exists st :
  exists st',
    (PersistentPreRun st = Return tt st' \/ PersistentPreRun st = Exit 1 st')
    /\ grows (filesystem st) (filesystem st')
    /\ (tree (filesystem st) -> tree (filesystem st')).
Proof.
  rewrite PersistentPreRun_eq.
  destruct (createDirs_cases st) as (fs' & r & Hl & ->).
  destruct (MkdirAll_list_spec _ _ _ _ _ Hl) as (G & T & _).
  destruct r as [err|].
  - eexists. split; [right; reflexivity|]. cbn. auto.
  - eexists. split; [left; reflexivity|].
    destruct (after_dirs_frame (set_filesystem st fs')) as (_ & _ & _ & _ & _ & -> & _).
    cbn. auto.
Qed.

(** X17.  A regular file at one of the listed paths makes the hook end the
    process with status 1. *)
Theorem file_in_the_way_is_fatal st p d :
  p ∈ dirs ->
  Os.node_at (filesystem st) p = Some (Os.File d) ->
  exists st', PersistentPreRun st = Exit 1 st'.
Proof.
  intros Hin Hp. rewrite PersistentPreRun_eq.
  destruct (createDirs_cases st) as (fs' & r & Hl & ->).
  destruct (MkdirAll_list_file dirs (filesystem st) 511 p d Hin Hp) as (fs2 & err & Hl2).
  rewrite Hl2 in Hl. injection Hl as <- <-. eauto.
Qed.

(** X18.  When [--show-libmachine-logs] was given on the command line, the
    hook prints the deprecation notice exactly when the flag was set to
    true, whatever the environment and the config file say. *)
Theorem deprecated_flag_prints_notice st st1 fname a b :
  createDirs st = Return tt st1 ->
  Viper.override (viper st) !! showLibmachineLogs = None ->
  Viper.pflags (viper st) !! showLibmachineLogs = Some fname ->
  PersistentFlags st !! fname = Some a ->
  Changed a = true -> Value_ a = BoolValue b ->
  exists st',
    PersistentPreRun st = Return tt st'
    /\ output st'
       = (output st
          ++ (if b then [Println deprecation_notice] else [])
          ++ (if enableUpdateNotification st then [UpdateNotificationCheck] else [])
          ++ (if enableKubectlDownloadMsg st then [KubectlDownloadMsgCheck] else []))%list.
Proof.
  intros E Ho Hp Ha Hc Hv. rewrite PersistentPreRun_eq, E.
  apply createDirs_Return in E as (fs' & _ & ->).
  eexists. split; [reflexivity|]. rewrite after_dirs_output.
  cbn [viper PersistentFlags environ output enableUpdateNotification
       enableKubectlDownloadMsg set_filesystem].
  replace (Viper.GetBool (viper st) (PersistentFlags st) (environ st) showLibmachineLogs)
    with b; [reflexivity|].
  unfold Viper.GetBool, Viper.Get, Viper.find.
  change (GoStrings.ToLower showLibmachineLogs) with showLibmachineLogs.
  rewrite Ho, Hp. cbn [mbind option_bind]. unfold Pflag.Lookup. rewrite Ha.
  cbn [mbind option_bind]. rewrite Hc. unfold Viper.flagVal. rewrite Hv.
  now rewrite (left_id None union), !union_Some_l.
Qed.

(** X19.  The hook reads the resolved configuration and leaves it alone:
    when it returns, the flags, viper, the environment and the two package
    switches are what they were. *)
Theorem hook_leaves_configuration st st' :
  PersistentPreRun st = Return tt st' ->
  pflag_CommandLine st' = pflag_CommandLine st
  /\ PersistentFlags st' = PersistentFlags st
  /\ viper st' = viper st
  /\ environ st' = environ st
  /\ enableUpdateNotification st' = enableUpdateNotification st
  /\ enableKubectlDownloadMsg st' = enableKubectlDownloadMsg st.
Proof.
  rewrite PersistentPreRun_eq.
  destruct (createDirs_cases st) as (fs' & r & Hl & ->).
  destruct r as [err|]; [discriminate|]. intros [= <-].
  destruct (after_dirs_frame (set_filesystem st fs')) as (-> & _ & -> & -> & -> & _ & -> & ->).
  repeat split.
Qed.

(** X20.  The hook moves libmachine's logger one way only: a writer that
    discards still discards afterwards, and debug output that is on stays
    on. *)
Theorem hook_gate_is_one_way st st' :
  PersistentPreRun st = Return tt st' ->
  (Log.outWriter (libmachine_log st) = Log.Discard ->
   Log.outWriter (libmachine_log st') = Log.Discard)
  /\ (Log.errWriter (libmachine_log st) = Log.Discard ->
      Log.errWriter (libmachine_log st') = Log.Discard)
  /\ (Log.isDebug (libmachine_log st) = true ->
      Log.isDebug (libmachine_log st') = true).
Proof.
  rewrite PersistentPreRun_eq.
  destruct (createDirs_cases st) as (fs' & r & Hl & ->).
  destruct r as [err|]; [discriminate|]. intros [= <-].
  rewrite after_dirs_log.
  cbn [pflag_CommandLine glog_vmodule libmachine_log set_filesystem].
  destruct (Glog.V (pflag_CommandLine st) (glog_vmodule st) caller_file 3),
    (Glog.V (pflag_CommandLine st) (glog_vmodule st) caller_file 7);
    cbn; auto.
Qed.

(** *** The defaults seeded by the resolution, and colliding keys *)

Lemma default_text_round name d config st b :
  pflag_CommandLine st !! config = Some b ->
  default_text name d st ->
  default_text name d
    (set_pflag_CommandLine (set_viper st (resolved_viper b (viper st)))
       (<[config := resolved_flag st b]> (pflag_CommandLine st))).
Proof.
  intros Hb (c & Hc & Hd). unfold default_text. cbn.
  destruct (decide (config = name)) as [->|Hne].
  - rewrite lookup_insert_eq. eexists. split; [reflexivity|]. cbn. congruence.
  - rewrite lookup_insert_ne by assumption. eauto.
Qed.

Lemma resolved_viper_defaults b v :
  Viper.defaults (resolved_viper b v)
  = <[GoStrings.ToLower (Name b) := VString (DefValue b)]> (Viper.defaults v).
Proof. unfold resolved_viper. now destruct (Changed b). Qed.

Lemma resolved_viper_env_rules b v :
  Viper.envPrefix (resolved_viper b v) = Viper.envPrefix v
  /\ Viper.envKeyReplacer (resolved_viper b v) = Viper.envKeyReplacer v.
Proof. unfold resolved_viper. now destruct (Changed b). Qed.

Lemma rounds_env_rules l st st' :
  for_range l setFlagUsingViper st = Return tt st' ->
  Viper.envPrefix (viper st') = Viper.envPrefix (viper st)
  /\ Viper.envKeyReplacer (viper st') = Viper.envKeyReplacer (viper st).
Proof.
  intros E.
  apply (for_range_preserves
           (fun s => Viper.envPrefix (viper s) = Viper.envPrefix (viper st)
                     /\ Viper.envKeyReplacer (viper s) = Viper.envKeyReplacer (viper st))
           l setFlagUsingViper) with (st := st); [|assumption|now split].
  intros x s s' Hx Es [H1 H2].
  apply setFlagUsingViper_Return in Es as (a & Ha & ->). cbn.
  destruct (resolved_viper_env_rules a (viper s)) as [-> ->]. now split.
Qed.

Lemma append_assoc_string (s t u : string) : (s +:+ t) +:+ u = s +:+ t +:+ u.
Proof.
  induction s as [|c s IH]; [reflexivity|].
  change (String c ((s +:+ t) +:+ u) = String c (s +:+ t +:+ u)). now rewrite IH.
Qed.

(** The variable consulted for a key under the rules of [setupViper], for
    any prefix. *)
Lemma envName_with_setup_any v key :
  Viper.envName (with_setup v) (GoStrings.ToLower key)
  = (if (MinikubeEnvPrefix =? "")%string then ""
     else env_form (MinikubeEnvPrefix +:+ "_")) +:+ env_form key.
Proof.
  unfold Viper.envName, Viper.envKey, Viper.mergeWithEnvPrefix.
  cbn [with_setup with_env_rules Viper.SetDefault Viper.SetEnvPrefix Viper.SetEnvKeyReplacer
       Viper.AutomaticEnv Viper.envPrefix Viper.envKeyReplacer].
  rewrite Replace_dash. destruct MinikubeEnvPrefix as [|c p].
  - cbn [GoStrings.ToUpper GoStrings.map_bytes String.eqb]. now rewrite ToUpper_ToLower.
  - change (GoStrings.ToUpper (String c p) =? "")%string with false.
    change (String c p =? "")%string with false. unfold env_form. cbv iota.
    now rewrite !ToUpper_app, ToUpper_idemp, ToUpper_ToLower, !map_bytes_app,
      append_assoc_string.
Qed.

(** X7.  [setFlagsUsingViper] seeds viper's defaults: afterwards the default
    of every whitelisted flag is the text of the flag's own default, and the
    flag still has that default. *)
Theorem resolution_seeds_defaults st name a :
  name ∈ viperWhiteList ->
  registered viperWhiteList st -> wellnamed viperWhiteList st ->
  pflag_CommandLine st !! name = Some a ->
  exists st' a',
    setFlagsUsingViper st = Return tt st'
    /\ Viper.defaults (viper st') !! name = Some (VString (DefValue a))
    /\ pflag_CommandLine st' !! name = Some a'
    /\ DefValue a' = DefValue a.
Proof.
  intros Hin Hreg Hwn Ha.
  set (Pre := fun s => registered viperWhiteList s /\ wellnamed viperWhiteList s
                       /\ default_text name (DefValue a) s).
  set (K := fun s => Pre s
                     /\ Viper.defaults (viper s) !! name = Some (VString (DefValue a))).
  assert (Hround : forall x s b, pflag_CommandLine s !! x = Some b -> Pre s ->
            Pre (set_pflag_CommandLine (set_viper s (resolved_viper b (viper s)))
                   (<[x := resolved_flag s b]> (pflag_CommandLine s)))).
  { intros x s b Hb (Hr & Hw & Hd). split; [now apply registered_round|].
    split; [now apply wellnamed_round | now apply default_text_round]. }
  destruct (for_range_establish viperWhiteList name Pre K setFlagUsingViper Hin)
    with (st := st) as (st' & E & (_ & _ & a' & Ha' & Hd') & Hdef).
  - intros x s Hx _ HP. pose proof HP as (Hr & _). destruct (Hr x Hx) as [b Hb].
    eexists. split; [apply setFlagUsingViper_found, Hb|]. now apply Hround.
  - intros s HP. pose proof HP as (Hr & Hw & c & Hc & Hd).
    eexists. split; [apply setFlagUsingViper_found, Hc|].
    split; [now apply Hround|]. cbn.
    rewrite resolved_viper_defaults, (Hw name c Hin Hc), (whitelist_lower _ Hin).
    now rewrite lookup_insert_eq, Hd.
  - intros x s Hx [HP Hdef]. pose proof HP as (Hr & Hw & _). destruct (Hr x Hx) as [b Hb].
    eexists. split; [apply setFlagUsingViper_found, Hb|].
    split; [now apply Hround|]. cbn.
    rewrite resolved_viper_defaults, (Hw x b Hx Hb), (whitelist_lower _ Hx).
    destruct (decide (x = name)) as [->|Hne].
    + destruct HP as (_ & _ & c & Hc & Hd). rewrite Hb in Hc. injection Hc as <-.
      now rewrite lookup_insert_eq, Hd.
    + now rewrite lookup_insert_ne.
  - split; [assumption|]. split; [assumption|]. now exists a.
  - exists st', a'. auto.
Qed.

(** X21.  Once [setupViper] has returned, two keys are looked up under the
    same environment variable exactly when they agree up to the case of
    their letters and up to ['-'] against ['_']; the prefix plays no part. *)
Theorem keys_share_environment_variable st st' k1 k2 :
  setupViper st = Return tt st' ->
  Viper.envName (viper st') (GoStrings.ToLower k1)
  = Viper.envName (viper st') (GoStrings.ToLower k2)
  <-> env_form k1 = env_form k2.
Proof.
  rewrite setupViper_unfold. intros E. apply rounds_env_rules in E as [Hp Hr].
  cbn [viper set_viper] in Hp, Hr.
  assert (Hn : forall k, Viper.envName (viper st') (GoStrings.ToLower k)
                         = Viper.envName (with_setup (viper st)) (GoStrings.ToLower k)).
  { intros k. unfold Viper.envName, Viper.envKey, Viper.mergeWithEnvPrefix.
    now rewrite Hp, Hr. }
  rewrite !Hn, !envName_with_setup_any. split.
  - apply (inj (String.append _)).
  - now intros ->.
Qed.

(** *** The flags of [RootCmd] and their binding *)

(** [BindPFlags] binds the lower-cased name of a flag to the flag, when no
    other flag of the set has the same lower-cased name. *)
Lemma BindPFlags_lookup v flags :
  forall n a,
    flags !! n = Some a -> Name a = n ->
    (forall n' b, flags !! n' = Some b ->
       GoStrings.ToLower (Name b) = GoStrings.ToLower n -> Name b = n) ->
    Viper.pflags (Viper.BindPFlags v flags) !! GoStrings.ToLower n = Some n.
Proof.
  unfold Viper.BindPFlags. cbn [Viper.pflags].
  apply (map_fold_weak_ind
           (fun r (m : gmap string Flag) =>
              forall n a, m !! n = Some a -> Name a = n ->
                (forall n' b, m !! n' = Some b ->
                   GoStrings.ToLower (Name b) = GoStrings.ToLower n -> Name b = n) ->
                r !! GoStrings.ToLower n = Some n)).
  - intros n a H. now rewrite lookup_empty in H.
  - intros i x m r Hi IH n a Hn Ha Huniq.
    destruct (decide (GoStrings.ToLower (Name x) = GoStrings.ToLower n)) as [El|Hl].
    + rewrite El, lookup_insert_eq. f_equal. apply (Huniq i x); [|exact El].
      apply lookup_insert_eq.
    + rewrite lookup_insert_ne by exact Hl.
      assert (Hin : i <> n).
      { intros ->. rewrite lookup_insert_eq in Hn. injection Hn as ->. congruence. }
      rewrite lookup_insert_ne in Hn by exact Hin.
      apply (IH n a Hn Ha). intros n' b Hb. apply (Huniq n').
      rewrite lookup_insert_ne; [exact Hb|]. intros ->. congruence.
Qed.

(** X22.  When [RootCmd] has no persistent flags yet, [init] defines its two
    flags as [false] and unmarked, binds both in viper under their names, and
    schedules [initConfig] as the last initialiser. *)
Theorem init_defines_and_binds_root_flags st a name :
  PersistentFlags st = ∅ ->
  merged_flags st !! "log_dir" = Some a ->
  name ∈ [showLibmachineLogs; useVendoredDriver] ->
  exists st',
    init st = Return tt st'
    /\ PersistentFlags st' !! name
       = Some {| Name := name; Value_ := BoolValue false; DefValue := "false";
                 Changed := false |}
    /\ Viper.pflags (viper st') !! name = Some name
    /\ initializers st' = (initializers st ++ [InitConfig])%list.
Proof.
  intros Hpf Hl Hin.
  assert (H1 : PersistentFlags st !! showLibmachineLogs = None) by now rewrite Hpf.
  assert (H2 : PersistentFlags st !! useVendoredDriver = None) by now rewrite Hpf.
  pose proof (init_eq st H1 H2) as H. rewrite Hl in H.
  destruct H as (st' & E & _ & _ & _ & _ & _ & Hp & Hv & Hi).
  exists st'. split; [exact E|]. rewrite Hp, Hv, Hpf.
  assert (Hflag : root_flags ∅ !! name
                  = Some {| Name := name; Value_ := BoolValue false; DefValue := "false";
                            Changed := false |}).
  { unfold root_flags. rewrite !elem_of_cons, elem_of_nil in Hin.
    destruct Hin as [->|[->|[]]].
    - rewrite lookup_insert_ne by discriminate. now rewrite lookup_insert_eq.
    - now rewrite lookup_insert_eq. }
  assert (Hlow : GoStrings.ToLower name = name).
  { rewrite !elem_of_cons, elem_of_nil in Hin. destruct Hin as [->|[->|[]]]; reflexivity. }
  split; [exact Hflag|]. split; [|exact Hi].
  rewrite <- Hlow at 1. apply (BindPFlags_lookup _ _ name _ Hflag); [reflexivity|].
  intros n' b. unfold root_flags.
  destruct (decide (useVendoredDriver = n')) as [<-|N1].
  - rewrite lookup_insert_eq. intros [= <-]. cbn [Name].
    rewrite !elem_of_cons, elem_of_nil in Hin. destruct Hin as [->|[->|[]]];
      [discriminate | reflexivity].
  - rewrite lookup_insert_ne by exact N1.
    destruct (decide (showLibmachineLogs = n')) as [<-|N2].
    + rewrite lookup_insert_eq. intros [= <-]. cbn [Name].
      rewrite !elem_of_cons, elem_of_nil in Hin. destruct Hin as [->|[->|[]]];
        [reflexivity | discriminate].
    + rewrite lookup_insert_ne by exact N2. now rewrite lookup_empty.
Qed.

End root_go.

(* ===================================================================== *)
(** ** The program on the concrete installation *)
(* ===================================================================== *)

Import FlagValue Pflag Cast.

(** Goals about the names of the whitelist, one name at a time. *)
Ltac whitelist_cases n H :=
  unfold viperWhiteList in H; rewrite !elem_of_cons, elem_of_nil in H;
  destruct H as [->|[->|[->|[]]]].

Lemma example_init env fs :
  init Sample.MakeMiniPath (process_start env fs)
  = Return tt (Sample.started Sample.flags env fs).
Proof. vm_compute. reflexivity. Qed.

Lemma example_registered env fs : registered viperWhiteList (Sample.started Sample.flags env fs).
Proof. intros n Hn. whitelist_cases n Hn; vm_compute; eauto. Qed.

Lemma example_wellnamed env fs : wellnamed viperWhiteList (Sample.started Sample.flags env fs).
Proof.
  intros n b Hn. whitelist_cases n Hn; vm_compute; intros [= <-]; reflexivity.
Qed.

Lemma example_registered_v5 env fs :
  registered viperWhiteList (Sample.started (Sample.flags_with "v" "5") env fs).
Proof. intros n Hn. whitelist_cases n Hn; vm_compute; eauto. Qed.

(** The end-to-end scenario of the specification: [MINIKUBE_V=3] in the
    environment, no flag given, no config file.  The verbosity resolves to 3
    and libmachine's logger keeps its writers. *)
Example env_var_sets_verbosity :
  match (initConfig Sample.ConfigFile Sample.MinikubeEnvPrefix
           Sample.WantUpdateNotification Sample.ReminderWaitPeriodInHours
           Sample.WantReportError Sample.WantReportErrorPrompt
           Sample.WantKubectlDownloadMsg
         ;; PersistentPreRun Sample.Minipath Sample.MakeMiniPath Sample.GetClientType)
          (Sample.started Sample.flags {[ "MINIKUBE_V" := "3" ]} Sample.fresh_home)
  with
  | Return _ st => Some (Glog.verbosity (pflag_CommandLine st), libmachine_log st)
  | _ => None
  end = Some (3, Log.New).
Proof. vm_compute. reflexivity. Qed.

(** viper's order at work: with [MINIKUBE_V=3] in the environment and
    [v] set to 8 in the config file, the environment wins. *)
Example environment_before_config_file :
  match initConfig Sample.ConfigFile Sample.MinikubeEnvPrefix
          Sample.WantUpdateNotification Sample.ReminderWaitPeriodInHours
          Sample.WantReportError Sample.WantReportErrorPrompt
          Sample.WantKubectlDownloadMsg
          (Sample.started Sample.flags {[ "MINIKUBE_V" := "3" ]}
             (Sample.home_with_config (Os.Object {[ "v" := VFloat 8 ]})))
  with
  | Return _ st => Some (Glog.verbosity (pflag_CommandLine st))
  | _ => None
  end = Some 3.
Proof. vm_compute. reflexivity. Qed.

(** A config-file entry that the flag does not accept is ignored: the flag
    keeps the value it had. *)
Example ill_typed_config_entry_ignored :
  match initConfig Sample.ConfigFile Sample.MinikubeEnvPrefix
          Sample.WantUpdateNotification Sample.ReminderWaitPeriodInHours
          Sample.WantReportError Sample.WantReportErrorPrompt
          Sample.WantKubectlDownloadMsg
          (Sample.started Sample.flags ∅
             (Sample.home_with_config (Os.Object {[ "v" := VString "verbose" ]})))
  with
  | Return _ st => Some (Glog.verbosity (pflag_CommandLine st))
  | _ => None
  end = Some 0.
Proof. vm_compute. reflexivity. Qed.

(** Witness of C1: [--v=5] on the command line, [MINIKUBE_V=9] in the
    environment. *)
Lemma explicit_flag_keeps_value_witness :
  exists st' a',
    setFlagsUsingViper
      (Sample.started (Sample.flags_with "v" "5") {[ "MINIKUBE_V" := "9" ]}
         Sample.fresh_home) = Return tt st'
    /\ pflag_CommandLine st' !! "v" = Some a'
    /\ Value_ a' = LevelValue 5
    /\ Changed a' = true.
Proof.
  apply (explicit_flag_keeps_value
           (Sample.started (Sample.flags_with "v" "5") {[ "MINIKUBE_V" := "9" ]}
              Sample.fresh_home)
           "v" {| Name := "v"; Value_ := LevelValue 5; DefValue := "0"; Changed := true |}).
  - left.
  - apply example_registered_v5.
  - vm_compute. reflexivity.
  - reflexivity.
  - cbn. unfold in_int32. lia.
Defined.

(** Witness of C2: the flags as [init] registers them, and the same without
    [log_dir]. *)
Lemma whitelist_integrity_witness :
  (exists st1,
      init Sample.MakeMiniPath (process_start ∅ Sample.fresh_home) = Return tt st1
      /\ forall name, name ∈ viperWhiteList ->
           exists a, pflag_CommandLine st1 !! name = Some a /\ Name a = name)
  /\ (exists msg st',
        setFlagsUsingViper
          (Sample.started (delete "log_dir" Sample.flags) ∅ Sample.fresh_home)
        = Panic msg st')
  /\ (exists st',
        setFlagsUsingViper (Sample.started Sample.flags ∅ Sample.fresh_home)
        = Return tt st').
Proof.
  destruct (whitelist_integrity Sample.MakeMiniPath) as (H1 & H2 & H3).
  split; [apply H1|]. split.
  - apply (H2 _ "log_dir"); [right; right; left | vm_compute; reflexivity].
  - apply H3, example_registered.
Defined.

(** Witness of C4: a config file that sets [v] to 4, and no config file at
    all; no flag given, nothing in the environment. *)
Lemma unsupplied_flag_fallback_witness :
  (exists st' a',
      initConfig Sample.ConfigFile Sample.MinikubeEnvPrefix
        Sample.WantUpdateNotification Sample.ReminderWaitPeriodInHours
        Sample.WantReportError Sample.WantReportErrorPrompt
        Sample.WantKubectlDownloadMsg
        (Sample.started Sample.flags ∅
           (Sample.home_with_config (Os.Object {[ "v" := VFloat 4 ]})))
      = Return tt st'
      /\ pflag_CommandLine st' !! "v" = Some a'
      /\ Value_ a' = LevelValue 4 /\ Changed a' = true)
  /\ (exists st' a',
        initConfig Sample.ConfigFile Sample.MinikubeEnvPrefix
          Sample.WantUpdateNotification Sample.ReminderWaitPeriodInHours
          Sample.WantReportError Sample.WantReportErrorPrompt
          Sample.WantKubectlDownloadMsg
          (Sample.started Sample.flags ∅ Sample.fresh_home)
        = Return tt st'
        /\ pflag_CommandLine st' !! "v" = Some a'
        /\ Value_ a' = LevelValue 0 /\ Changed a' = true).
Proof.
  split.
  - apply (proj1 (unsupplied_flag_fallback Sample.ConfigFile Sample.MinikubeEnvPrefix
             Sample.WantUpdateNotification Sample.ReminderWaitPeriodInHours
             Sample.WantReportError Sample.WantReportErrorPrompt
             Sample.WantKubectlDownloadMsg
             (Sample.started Sample.flags ∅
                (Sample.home_with_config (Os.Object {[ "v" := VFloat 4 ]})))
             "v" {| Name := "v"; Value_ := LevelValue 0; DefValue := "0"; Changed := false |}
             ltac:(left) (example_registered _ _) (example_wellnamed _ _)
             ltac:(vm_compute; reflexivity) eq_refl
             ltac:(cbn; unfold in_int32; lia)
             ltac:(vm_compute; reflexivity) ltac:(vm_compute; reflexivity)
             ltac:(vm_compute; reflexivity))
           {[ "v" := VFloat 4 ]} (VFloat 4) (LevelValue 4));
      vm_compute; reflexivity.
  - apply (proj2 (unsupplied_flag_fallback Sample.ConfigFile Sample.MinikubeEnvPrefix
             Sample.WantUpdateNotification Sample.ReminderWaitPeriodInHours
             Sample.WantReportError Sample.WantReportErrorPrompt
             Sample.WantKubectlDownloadMsg
             (Sample.started Sample.flags ∅ Sample.fresh_home)
             "v" {| Name := "v"; Value_ := LevelValue 0; DefValue := "0"; Changed := false |}
             ltac:(left) (example_registered _ _) (example_wellnamed _ _)
             ltac:(vm_compute; reflexivity) eq_refl
             ltac:(cbn; unfold in_int32; lia)
             ltac:(vm_compute; reflexivity) ltac:(vm_compute; reflexivity)
             ltac:(vm_compute; reflexivity))
           (LevelValue 0)).
    + vm_compute. reflexivity.
    + intros m H. vm_compute in H. discriminate H.
    + cbn. unfold in_int32. lia.
    + reflexivity.
    + reflexivity.
Defined.

(** Witness of C5: the key [log-dir] under the prefix [MINIKUBE]. *)
Lemma env_var_naming_witness :
  exists st',
    setupViper Sample.MinikubeEnvPrefix
      Sample.WantUpdateNotification Sample.ReminderWaitPeriodInHours
      Sample.WantReportError Sample.WantReportErrorPrompt
      Sample.WantKubectlDownloadMsg
      (Sample.started Sample.flags ∅ Sample.fresh_home) = Return tt st'
    /\ Viper.automaticEnvApplied (viper st') = true
    /\ Viper.envName (viper st') (GoStrings.ToLower "log-dir") = "MINIKUBE_LOG_DIR".
Proof.
  apply (env_var_naming Sample.MinikubeEnvPrefix
           Sample.WantUpdateNotification Sample.ReminderWaitPeriodInHours
           Sample.WantReportError Sample.WantReportErrorPrompt
           Sample.WantKubectlDownloadMsg "log-dir").
  - discriminate.
  - reflexivity.
  - apply example_registered.
  - apply example_wellnamed.
Defined.

(** Witness of C6: a config file that is not JSON. *)
Lemma unreadable_config_is_not_fatal_witness :
  exists st' err,
    initConfig Sample.ConfigFile Sample.MinikubeEnvPrefix
      Sample.WantUpdateNotification Sample.ReminderWaitPeriodInHours
      Sample.WantReportError Sample.WantReportErrorPrompt
      Sample.WantKubectlDownloadMsg
      (Sample.started Sample.flags ∅
         (Sample.home_with_config (Os.Undecodable "invalid character '}'")))
    = Return tt st'
    /\ output st' = [read_warning Sample.ConfigFile err]
    /\ Viper.config (viper st') = ∅
    /\ Viper.Get (viper st') (PersistentFlags st') (environ st')
         Sample.ReminderWaitPeriodInHours = Some (VInt 24)
    /\ exists a', pflag_CommandLine st' !! "alsologtostderr" = Some a'
                  /\ Value_ a' = BoolValue false.
Proof.
  destruct (unreadable_config_is_not_fatal Sample.ConfigFile Sample.MinikubeEnvPrefix
              Sample.WantUpdateNotification Sample.ReminderWaitPeriodInHours
              Sample.WantReportError Sample.WantReportErrorPrompt
              Sample.WantKubectlDownloadMsg
              (Sample.started Sample.flags ∅
                 (Sample.home_with_config (Os.Undecodable "invalid character '}'"))))
    as (st' & err & E & Ho & Hc & Hk & Hf).
  - apply example_registered.
  - apply example_wellnamed.
  - reflexivity.
  - intros m H. vm_compute in H. discriminate H.
  - exists st', err. split; [exact E|]. split; [exact Ho|]. split; [exact Hc|]. split.
    + apply Hk.
      * unfold distinct_keys.
        refine (bool_decide_unpack (NoDup _) _). vm_compute. exact I.
      * right. left.
      * vm_compute. reflexivity.
      * vm_compute. reflexivity.
      * vm_compute. reflexivity.
    + apply (Hf "alsologtostderr"
               {| Name := "alsologtostderr"; Value_ := BoolValue false;
                  DefValue := "false"; Changed := false |}
               (BoolValue false));
        try (vm_compute; reflexivity); try exact I.
      right. left.
Defined.


(** In a home directory without anything of minikube the directories can be
    created. *)
Lemma example_createDirs f env :
  exists st1,
    createDirs Sample.Minipath Sample.MakeMiniPath
      (Sample.started f env Sample.fresh_home) = Return tt st1.
Proof.
  change (createDirs Sample.Minipath Sample.MakeMiniPath)
    with (create (dirs Sample.Minipath Sample.MakeMiniPath)).
  rewrite create_eq.
  destruct (MkdirAll_list _ _ _) as [fs' r] eqn:E.
  assert (Hr : r = None).
  { change r with (snd (fs', r)). rewrite <- E. vm_compute. reflexivity. }
  subst r. eauto.
Qed.

(** Witness of C7: a regular file where the minikube directory should be. *)
Lemma directory_failure_is_fatal_witness :
  PersistentPreRun Sample.Minipath Sample.MakeMiniPath Sample.GetClientType
    (Sample.started Sample.flags ∅ Sample.blocked_home)
  = Exit 1
      (set_output
         (set_filesystem (Sample.started Sample.flags ∅ Sample.blocked_home)
            Sample.blocked_home)
         [GlogFatal
            "Error creating minikube directory: mkdir /home/user/.minikube: not a directory"]).
Proof.
  apply (directory_failure_is_fatal Sample.Minipath Sample.MakeMiniPath
           Sample.GetClientType
           (Sample.started Sample.flags ∅ Sample.blocked_home)
           [] Sample.Minipath
           (tail (dirs Sample.Minipath Sample.MakeMiniPath))
           Sample.blocked_home Sample.blocked_home
           {| Os.Op := "mkdir"; Os.Path := Sample.Minipath; Os.Err := Os.ENOTDIR |}).
  - reflexivity.
  - reflexivity.
  - apply (MkdirAll_file _ _ _ (Os.Undecodable "unexpected end of JSON input")).
    vm_compute. reflexivity.
Defined.

(** The same for any state of the process in that home directory. *)
Lemma example_createDirs_in st :
  filesystem st = Sample.fresh_home ->
  exists st1, createDirs Sample.Minipath Sample.MakeMiniPath st = Return tt st1.
Proof.
  intros Hfs.
  change (createDirs Sample.Minipath Sample.MakeMiniPath)
    with (create (dirs Sample.Minipath Sample.MakeMiniPath)).
  rewrite create_eq, Hfs.
  destruct (MkdirAll_list _ _ _) as [fs' r] eqn:E.
  assert (Hr : r = None).
  { change r with (snd (fs', r)). rewrite <- E. vm_compute. reflexivity. }
  subst r. eauto.
Qed.

(** Witness of the amended C8: [--v=2] on the command line, without
    [-vmodule] and with [--vmodule=root=5]. *)
Lemma libmachine_logging_gated_witness :
  (exists st',
      PersistentPreRun Sample.Minipath Sample.MakeMiniPath Sample.GetClientType
        (Sample.started (Sample.flags_with "v" "2") ∅ Sample.fresh_home)
      = Return tt st'
      /\ Log.outWriter (libmachine_log st') = Log.Discard
      /\ Log.errWriter (libmachine_log st') = Log.Discard
      /\ Log.isDebug (libmachine_log st') = false)
  /\ (exists st',
        PersistentPreRun Sample.Minipath Sample.MakeMiniPath Sample.GetClientType
          (set_glog_vmodule
             (Sample.started (Sample.flags_with "v" "2") ∅ Sample.fresh_home)
             [Sample.root_at 5])
        = Return tt st'
        /\ Log.outWriter (libmachine_log st') = Log.Stdout
        /\ Log.errWriter (libmachine_log st') = Log.Stderr
        /\ Log.isDebug (libmachine_log st') = false).
Proof.
  split.
  - destruct (example_createDirs (Sample.flags_with "v" "2") ∅) as [st1 E].
    destruct (libmachine_logging_gated Sample.Minipath Sample.MakeMiniPath
                Sample.GetClientType _ _ E) as (st' & E' & H3 & _ & _ & H7 & _).
    exists st'. split; [exact E'|].
    destruct H3 as [Hout Herr]; [vm_compute; reflexivity|].
    split; [exact Hout|]. split; [exact Herr|].
    rewrite H7; [reflexivity | vm_compute; reflexivity].
  - destruct (example_createDirs_in
                (set_glog_vmodule
                   (Sample.started (Sample.flags_with "v" "2") ∅ Sample.fresh_home)
                   [Sample.root_at 5]) eq_refl) as [st1 E].
    destruct (libmachine_logging_gated Sample.Minipath Sample.MakeMiniPath
                Sample.GetClientType _ _ E) as (st' & E' & _ & H3 & _ & H7 & _).
    exists st'. split; [exact E'|].
    destruct H3 as [Hout Herr]; [vm_compute; discriminate|].
    split; [exact Hout|]. split; [exact Herr|].
    rewrite H7; [reflexivity | vm_compute; reflexivity].
Defined.

(** [--vmodule=root=7] on the command line and nothing else: the verbosity
    resolves to 0, and the hook leaves both writers of libmachine's logger
    in place and turns its debug output on. *)
Lemma example_vmodule_root_7 :
  match (initConfig Sample.ConfigFile Sample.MinikubeEnvPrefix
           Sample.WantUpdateNotification Sample.ReminderWaitPeriodInHours
           Sample.WantReportError Sample.WantReportErrorPrompt
           Sample.WantKubectlDownloadMsg
         ;; PersistentPreRun Sample.Minipath Sample.MakeMiniPath Sample.GetClientType)
          (set_glog_vmodule (Sample.started Sample.flags ∅ Sample.fresh_home)
             [Sample.root_at 7])
  with
  | Return _ st' => Some (Glog.verbosity (pflag_CommandLine st'), libmachine_log st')
  | _ => None
  end = Some (0, Sample.debugging).
Proof. vm_compute. reflexivity. Qed.

(** Counterexample to C8 as stated: the resolved verbosity is 0, below 3
    and below 7, yet the streams of libmachine's logger are not discarded
    and its debug output is on. *)
Lemma libmachine_logs_at_verbosity_zero :
  exists st',
    (initConfig Sample.ConfigFile Sample.MinikubeEnvPrefix
       Sample.WantUpdateNotification Sample.ReminderWaitPeriodInHours
       Sample.WantReportError Sample.WantReportErrorPrompt
       Sample.WantKubectlDownloadMsg
     ;; PersistentPreRun Sample.Minipath Sample.MakeMiniPath Sample.GetClientType)
      (set_glog_vmodule (Sample.started Sample.flags ∅ Sample.fresh_home)
         [Sample.root_at 7])
    = Return tt st'
    /\ Glog.verbosity (pflag_CommandLine st') = 0
    /\ Log.outWriter (libmachine_log st') = Log.Stdout
    /\ Log.errWriter (libmachine_log st') = Log.Stderr
    /\ Log.isDebug (libmachine_log st') = true.
Proof.
  pose proof example_vmodule_root_7 as H.
  destruct ((initConfig _ _ _ _ _ _ _ ;; _) _) as [[] st'| |]; [|discriminate H ..].
  injection H as H1 H2. exists st'. rewrite H2. repeat split. exact H1.
Qed.

(** Witness of C9: a home directory without anything of minikube. *)
Lemma provisioning_idempotent_witness :
  exists st1,
    createDirs Sample.Minipath Sample.MakeMiniPath
      (Sample.started Sample.flags ∅ Sample.fresh_home) = Return tt st1
    /\ createDirs Sample.Minipath Sample.MakeMiniPath st1 = Return tt st1
    /\ is_dir (filesystem st1) (Sample.MakeMiniPath ["cache"; "localkube"])
    /\ is_dir (filesystem st1) Sample.Minipath.
Proof.
  destruct (example_createDirs Sample.flags ∅) as [st1 E].
  destruct (provisioning_idempotent Sample.Minipath Sample.MakeMiniPath
              (Sample.started Sample.flags ∅ Sample.fresh_home)) as [H _].
  destruct (H st1 E) as (Hd & Ha & Hi).
  exists st1. split; [exact E|]. split; [exact Hi|]. split.
  - apply Hd. do 5 right. left.
  - apply (Ha (treeb_tree Sample.fresh_home ltac:(vm_compute; reflexivity))
             (Sample.MakeMiniPath ["cache"; "localkube"]) Sample.Minipath).
    + do 5 right. left.
    + right. left.
Defined.

(** Witness of C10: no [--log_dir], no [MINIKUBE_LOG_DIR], no config file. *)
Lemma log_dir_reset_to_default_witness :
  exists st1 a1 st3 a3,
    init Sample.MakeMiniPath (process_start ∅ Sample.fresh_home) = Return tt st1
    /\ pflag_CommandLine st1 !! "log_dir" = Some a1
    /\ Value_ a1 = StringValue "/home/user/.minikube/logs"
    /\ Changed a1 = false
    /\ initConfig Sample.ConfigFile Sample.MinikubeEnvPrefix
         Sample.WantUpdateNotification Sample.ReminderWaitPeriodInHours
         Sample.WantReportError Sample.WantReportErrorPrompt
         Sample.WantKubectlDownloadMsg st1 = Return tt st3
    /\ pflag_CommandLine st3 !! "log_dir" = Some a3
    /\ Value_ a3 = StringValue "".
Proof.
  destruct (log_dir_reset_to_default Sample.MakeMiniPath Sample.ConfigFile
              Sample.MinikubeEnvPrefix
              Sample.WantUpdateNotification Sample.ReminderWaitPeriodInHours
              Sample.WantReportError Sample.WantReportErrorPrompt
              Sample.WantKubectlDownloadMsg ∅ Sample.fresh_home)
    as (st1 & a1 & E & Ha & Hv & Hc & Hrest).
  pose proof E as E1. rewrite example_init in E1. injection E1 as E1.
  destruct (Hrest st1) as (st3 & a3 & E3 & Ha3 & Hv3 & _).
  - reflexivity.
  - exact Ha.
  - rewrite <- E1. apply example_registered.
  - rewrite <- E1. apply example_wellnamed.
  - rewrite <- E1. vm_compute. reflexivity.
  - rewrite <- E1. intros m H. vm_compute in H. discriminate H.
  - exists st1, a1, st3, a3. repeat split; assumption.
Defined.

(** The whole start-up with a config file that turns both notices off. *)
Lemma example_notices_off :
  match (init Sample.MakeMiniPath
         ;; initConfig Sample.ConfigFile Sample.MinikubeEnvPrefix
              Sample.WantUpdateNotification Sample.ReminderWaitPeriodInHours
              Sample.WantReportError Sample.WantReportErrorPrompt
              Sample.WantKubectlDownloadMsg
         ;; PersistentPreRun Sample.Minipath Sample.MakeMiniPath Sample.GetClientType)
          (process_start ∅
             (Sample.home_with_config
                (Os.Object {[ "wantupdatenotification" := VBool false;
                              "wantkubectldownloadmsg" := VBool false ]})))
  with
  | Return _ st' =>
      Some (Viper.GetBool (viper st') (PersistentFlags st') (environ st')
              Sample.WantUpdateNotification,
            Viper.GetBool (viper st') (PersistentFlags st') (environ st')
              Sample.WantKubectlDownloadMsg,
            output st')
  | _ => None
  end = Some (false, false, [UpdateNotificationCheck; KubectlDownloadMsgCheck]).
Proof. vm_compute. reflexivity. Qed.

(** Counterexample to C3 as stated: the configuration resolves both "want"
    keys to false, and the hook runs both checks all the same. *)
Lemma checks_run_when_configured_off :
  exists st',
    (init Sample.MakeMiniPath
     ;; initConfig Sample.ConfigFile Sample.MinikubeEnvPrefix
          Sample.WantUpdateNotification Sample.ReminderWaitPeriodInHours
          Sample.WantReportError Sample.WantReportErrorPrompt
          Sample.WantKubectlDownloadMsg
     ;; PersistentPreRun Sample.Minipath Sample.MakeMiniPath Sample.GetClientType)
      (process_start ∅
         (Sample.home_with_config
            (Os.Object {[ "wantupdatenotification" := VBool false;
                          "wantkubectldownloadmsg" := VBool false ]})))
    = Return tt st'
    /\ Viper.GetBool (viper st') (PersistentFlags st') (environ st')
         Sample.WantUpdateNotification = false
    /\ Viper.GetBool (viper st') (PersistentFlags st') (environ st')
         Sample.WantKubectlDownloadMsg = false
    /\ output st' = [UpdateNotificationCheck; KubectlDownloadMsgCheck].
Proof.
  pose proof example_notices_off as H.
  destruct ((init Sample.MakeMiniPath ;; _) _) as [[] st'| |]; [|discriminate H ..].
  injection H as H1 H2 H3. exists st'. repeat split; assumption.
Qed.

(** Witness of the amended C3: the package variables at their initial value
    (true), in a home directory where the directories can be created. *)
Lemma checks_follow_package_switches_witness :
  exists st' notice,
    PersistentPreRun Sample.Minipath Sample.MakeMiniPath Sample.GetClientType
      (Sample.started Sample.flags ∅ Sample.fresh_home) = Return tt st'
    /\ (notice = [] \/ notice = [Println deprecation_notice])
    /\ output st' = (notice ++ [UpdateNotificationCheck] ++ [KubectlDownloadMsgCheck])%list.
Proof.
  destruct (example_createDirs Sample.flags ∅) as [st1 E].
  apply (checks_follow_package_switches Sample.Minipath Sample.MakeMiniPath
           Sample.GetClientType _ _ E).
Defined.

(* ===================================================================== *)
(** ** The further properties on the concrete installation *)
(* ===================================================================== *)

Lemma example_wellnamed_v5 env fs :
  wellnamed viperWhiteList (Sample.started (Sample.flags_with "v" "5") env fs).
Proof.
  intros n b Hn. whitelist_cases n Hn; vm_compute; intros [= <-]; reflexivity.
Qed.

Lemma example_all_valid env fs : all_valid viperWhiteList (Sample.started Sample.flags env fs).
Proof.
  intros n a Hn H.
  whitelist_cases n Hn; vm_compute in H; injection H as <-; try exact I.
  cbn. unfold in_int32. lia.
Qed.


Lemma example_setupViper :
  exists st',
    setupViper Sample.MinikubeEnvPrefix
      Sample.WantUpdateNotification Sample.ReminderWaitPeriodInHours
      Sample.WantReportError Sample.WantReportErrorPrompt
      Sample.WantKubectlDownloadMsg (Sample.started Sample.flags ∅ Sample.fresh_home)
    = Return tt st'.
Proof.
  rewrite setupViper_unfold.
  destruct (rounds_return viperWhiteList
              (set_viper (Sample.started Sample.flags ∅ Sample.fresh_home)
                 (with_setup Sample.MinikubeEnvPrefix
                    Sample.WantUpdateNotification Sample.ReminderWaitPeriodInHours
                    Sample.WantReportError Sample.WantReportErrorPrompt
                    Sample.WantKubectlDownloadMsg
                    (viper (Sample.started Sample.flags ∅ Sample.fresh_home)))))
    as (st' & E & _); [|eauto].
  intros n Hn. apply (example_registered ∅ Sample.fresh_home n Hn).
Qed.

(** With a fresh home directory the hook returns. *)
Lemma example_hook :
  exists st',
    PersistentPreRun Sample.Minipath Sample.MakeMiniPath Sample.GetClientType
      (Sample.started Sample.flags ∅ Sample.fresh_home) = Return tt st'.
Proof.
  destruct (example_createDirs Sample.flags ∅) as [st1 E].
  rewrite PersistentPreRun_eq, E. eauto.
Qed.

(** With a regular file in place of the minikube directory it exits. *)
Lemma example_blocked :
  exists st',
    PersistentPreRun Sample.Minipath Sample.MakeMiniPath Sample.GetClientType
      (Sample.started Sample.flags ∅ Sample.blocked_home) = Exit 1 st'.
Proof. eexists. vm_compute. reflexivity. Qed.

Lemma example_createDirs_deprecated :
  exists st1,
    createDirs Sample.Minipath Sample.MakeMiniPath Sample.deprecated_flag_given
    = Return tt st1.
Proof.
  change (createDirs Sample.Minipath Sample.MakeMiniPath)
    with (create (dirs Sample.Minipath Sample.MakeMiniPath)).
  rewrite create_eq.
  destruct (MkdirAll_list _ _ _) as [fs' r] eqn:E.
  assert (Hr : r = None).
  { change r with (snd (fs', r)). rewrite <- E. vm_compute. reflexivity. }
  subst r. eauto.
Qed.

(** Witness of X1: the flags as [init] leaves them. *)
Lemma resolution_marks_every_flag_witness :
  exists st',
    setFlagsUsingViper (Sample.started Sample.flags ∅ Sample.fresh_home) = Return tt st'
    /\ forall name, name ∈ viperWhiteList ->
         exists a, pflag_CommandLine st' !! name = Some a /\ Changed a = true.
Proof.
  apply (resolution_marks_every_flag (Sample.started Sample.flags ∅ Sample.fresh_home)).
  apply example_registered.
Defined.


(** Witness of X3: the flags as [init] leaves them. *)
Lemma resolution_twice_witness :
  exists st' st'',
    setFlagsUsingViper (Sample.started Sample.flags ∅ Sample.fresh_home) = Return tt st'
    /\ setFlagsUsingViper st' = Return tt st''
    /\ pflag_CommandLine st'' = pflag_CommandLine st'.
Proof.
  apply (resolution_twice (Sample.started Sample.flags ∅ Sample.fresh_home)).
  - apply example_registered.
  - apply example_all_valid.
Defined.

(** Witness of X4: [MINIKUBE_V=3] in the environment, [v] set to 8 in the
    config file. *)
Lemma environment_before_config_file_for_flags_witness :
  exists st' a',
    initConfig Sample.ConfigFile Sample.MinikubeEnvPrefix
      Sample.WantUpdateNotification Sample.ReminderWaitPeriodInHours
      Sample.WantReportError Sample.WantReportErrorPrompt
      Sample.WantKubectlDownloadMsg
      (Sample.started Sample.flags {[ "MINIKUBE_V" := "3" ]}
         (Sample.home_with_config (Os.Object {[ "v" := VFloat 8 ]})))
    = Return tt st'
    /\ pflag_CommandLine st' !! "v" = Some a'
    /\ Value_ a' = LevelValue 3
    /\ Changed a' = true.
Proof.
  apply (environment_before_config_file_for_flags Sample.ConfigFile Sample.MinikubeEnvPrefix
           Sample.WantUpdateNotification Sample.ReminderWaitPeriodInHours
           Sample.WantReportError Sample.WantReportErrorPrompt
           Sample.WantKubectlDownloadMsg
           (Sample.started Sample.flags {[ "MINIKUBE_V" := "3" ]}
              (Sample.home_with_config (Os.Object {[ "v" := VFloat 8 ]})))
           "v" {| Name := "v"; Value_ := LevelValue 0; DefValue := "0"; Changed := false |}
           "3").
  - left.
  - apply example_registered.
  - apply example_wellnamed.
  - vm_compute. reflexivity.
  - reflexivity.
  - cbn. unfold in_int32. lia.
  - vm_compute. reflexivity.
  - vm_compute. reflexivity.
  - vm_compute. reflexivity.
  - discriminate.
Defined.

(** Witness of X5: the config file sets [v] to the string [verbose]. *)
Lemma rejected_config_entry_is_ignored_witness :
  exists st' a',
    initConfig Sample.ConfigFile Sample.MinikubeEnvPrefix
      Sample.WantUpdateNotification Sample.ReminderWaitPeriodInHours
      Sample.WantReportError Sample.WantReportErrorPrompt
      Sample.WantKubectlDownloadMsg
      (Sample.started Sample.flags ∅
         (Sample.home_with_config (Os.Object {[ "v" := VString "verbose" ]})))
    = Return tt st'
    /\ pflag_CommandLine st' !! "v" = Some a'
    /\ Value_ a' = LevelValue 0
    /\ Changed a' = true
    /\ output st' = [].
Proof.
  apply (rejected_config_entry_is_ignored Sample.ConfigFile Sample.MinikubeEnvPrefix
           Sample.WantUpdateNotification Sample.ReminderWaitPeriodInHours
           Sample.WantReportError Sample.WantReportErrorPrompt
           Sample.WantKubectlDownloadMsg
           (Sample.started Sample.flags ∅
              (Sample.home_with_config (Os.Object {[ "v" := VString "verbose" ]})))
           "v" {| Name := "v"; Value_ := LevelValue 0; DefValue := "0"; Changed := false |}
           0 {[ "v" := VString "verbose" ]} (VString "verbose")).
  - left.
  - apply example_registered.
  - apply example_wellnamed.
  - vm_compute. reflexivity.
  - reflexivity.
  - reflexivity.
  - cbn. unfold in_int32. lia.
  - vm_compute. reflexivity.
  - vm_compute. reflexivity.
  - vm_compute. reflexivity.
  - vm_compute. reflexivity.
  - vm_compute. reflexivity.
  - vm_compute. reflexivity.
Defined.

(** Witness of X6: [--v=5] on the command line, [MINIKUBE_V=9] in the
    environment. *)
Lemma viper_holds_supplied_value_witness :
  exists st',
    setFlagsUsingViper
      (Sample.started (Sample.flags_with "v" "5") {[ "MINIKUBE_V" := "9" ]}
         Sample.fresh_home) = Return tt st'
    /\ Viper.GetString (viper st') (PersistentFlags st') (environ st') "v" = "5".
Proof.
  apply (viper_holds_supplied_value
           (Sample.started (Sample.flags_with "v" "5") {[ "MINIKUBE_V" := "9" ]}
              Sample.fresh_home)
           "v" {| Name := "v"; Value_ := LevelValue 5; DefValue := "0"; Changed := true |}).
  - left.
  - apply example_registered_v5.
  - apply example_wellnamed_v5.
  - vm_compute. reflexivity.
  - reflexivity.
  - cbn. unfold in_int32. lia.
Defined.

(** Witness of X7: the default of [v] when [--v=5] was given. *)
Lemma resolution_seeds_defaults_witness :
  exists st' a',
    setFlagsUsingViper
      (Sample.started (Sample.flags_with "v" "5") ∅ Sample.fresh_home) = Return tt st'
    /\ Viper.defaults (viper st') !! "v" = Some (VString "0")
    /\ pflag_CommandLine st' !! "v" = Some a'
    /\ DefValue a' = "0".
Proof.
  apply (resolution_seeds_defaults
           (Sample.started (Sample.flags_with "v" "5") ∅ Sample.fresh_home)
           "v" {| Name := "v"; Value_ := LevelValue 5; DefValue := "0"; Changed := true |}).
  - left.
  - apply example_registered_v5.
  - apply example_wellnamed_v5.
  - vm_compute. reflexivity.
Defined.

(** Witness of X8: Go's [v] was declared with default 0 and holds 2 when
    [init] runs. *)
Lemma init_adds_go_flags_witness :
  exists st',
    init Sample.MakeMiniPath Sample.v_preset = Return tt st'
    /\ pflag_CommandLine st' !! "v"
       = Some {| Name := "v"; Value_ := LevelValue 2; DefValue := "2"; Changed := false |}.
Proof.
  destruct (init_adds_go_flags Sample.MakeMiniPath Sample.v_preset
              {| Name := "log_dir"; Value_ := StringValue ""; DefValue := "";
                 Changed := false |})
    as (st' & E & _ & H & _).
  - reflexivity.
  - reflexivity.
  - vm_compute. reflexivity.
  - exists st'. split; [exact E|].
    apply (H "v" {| GoName := "v"; GoValue := LevelValue 2; GoDefValue := "0" |}).
    + discriminate.
    + vm_compute. reflexivity.
    + reflexivity.
Defined.

(** Witness of X9: a process without glog's flags. *)
Lemma init_without_log_dir_panics_witness :
  exists msg st', init Sample.MakeMiniPath Sample.without_glog = Panic msg st'.
Proof.
  apply (init_without_log_dir_panics Sample.MakeMiniPath Sample.without_glog);
    reflexivity.
Defined.

(** Witness of X10: [log_dir] set to [/tmp/logs] before [init] runs. *)
Lemma init_keeps_changed_log_dir_witness :
  exists st',
    init Sample.MakeMiniPath Sample.log_dir_given = Return tt st'
    /\ pflag_CommandLine st' !! "log_dir"
       = Some {| Name := "log_dir"; Value_ := StringValue "/tmp/logs"; DefValue := "";
                 Changed := true |}.
Proof.
  apply (init_keeps_changed_log_dir Sample.MakeMiniPath Sample.log_dir_given).
  - reflexivity.
  - reflexivity.
  - vm_compute. reflexivity.
  - reflexivity.
Defined.

(** Witness of X11: a config file that turns the update notification off. *)
Lemma readable_config_is_loaded_witness :
  exists st',
    initConfig Sample.ConfigFile Sample.MinikubeEnvPrefix
      Sample.WantUpdateNotification Sample.ReminderWaitPeriodInHours
      Sample.WantReportError Sample.WantReportErrorPrompt
      Sample.WantKubectlDownloadMsg
      (Sample.started Sample.flags ∅
         (Sample.home_with_config
            (Os.Object {[ "wantupdatenotification" := VBool false ]})))
    = Return tt st'
    /\ output st' = []
    /\ Viper.config (viper st') = {[ "wantupdatenotification" := VBool false ]}
    /\ Viper.Get (viper st') (PersistentFlags st') (environ st')
         Sample.WantUpdateNotification = Some (VBool false).
Proof.
  destruct (readable_config_is_loaded Sample.ConfigFile Sample.MinikubeEnvPrefix
              Sample.WantUpdateNotification Sample.ReminderWaitPeriodInHours
              Sample.WantReportError Sample.WantReportErrorPrompt
              Sample.WantKubectlDownloadMsg
              (Sample.started Sample.flags ∅
                 (Sample.home_with_config
                    (Os.Object {[ "wantupdatenotification" := VBool false ]})))
              {[ "wantupdatenotification" := VBool false ]})
    as (st' & E & Ho & Hc & Hk).
  - apply example_registered.
  - apply example_wellnamed.
  - vm_compute. reflexivity.
  - exists st'. split; [exact E|]. split; [exact Ho|]. split; [exact Hc|].
    apply Hk.
    + intros H. unfold viperWhiteList in H. rewrite !elem_of_cons, elem_of_nil in H.
      destruct H as [H|[H|[H|[]]]]; vm_compute in H; discriminate H.
    + vm_compute. reflexivity.
    + vm_compute. reflexivity.
    + vm_compute. reflexivity.
    + vm_compute. reflexivity.
Defined.

(** Witness of X12: [MINIKUBE_WANTREPORTERROR=true] in the environment. *)
Lemma environment_decides_configuration_key_witness :
  exists st',
    initConfig Sample.ConfigFile Sample.MinikubeEnvPrefix
      Sample.WantUpdateNotification Sample.ReminderWaitPeriodInHours
      Sample.WantReportError Sample.WantReportErrorPrompt
      Sample.WantKubectlDownloadMsg
      (Sample.started Sample.flags {[ "MINIKUBE_WANTREPORTERROR" := "true" ]}
         Sample.fresh_home)
    = Return tt st'
    /\ Viper.Get (viper st') (PersistentFlags st') (environ st') Sample.WantReportError
       = Some (VString "true").
Proof.
  apply (environment_decides_configuration_key Sample.ConfigFile Sample.MinikubeEnvPrefix
           Sample.WantUpdateNotification Sample.ReminderWaitPeriodInHours
           Sample.WantReportError Sample.WantReportErrorPrompt
           Sample.WantKubectlDownloadMsg
           (Sample.started Sample.flags {[ "MINIKUBE_WANTREPORTERROR" := "true" ]}
              Sample.fresh_home)
           Sample.WantReportError "true").
  - apply example_registered.
  - apply example_wellnamed.
  - intros H. unfold viperWhiteList in H. rewrite !elem_of_cons, elem_of_nil in H.
    destruct H as [H|[H|[H|[]]]]; vm_compute in H; discriminate H.
  - vm_compute. reflexivity.
  - vm_compute. reflexivity.
  - vm_compute. reflexivity.
  - discriminate.
Defined.

(** Witness of X14: a home directory without anything of minikube. *)
Lemma hook_runs_again_witness :
  exists st' st'' printed,
    PersistentPreRun Sample.Minipath Sample.MakeMiniPath Sample.GetClientType
      (Sample.started Sample.flags ∅ Sample.fresh_home) = Return tt st'
    /\ PersistentPreRun Sample.Minipath Sample.MakeMiniPath Sample.GetClientType st'
       = Return tt st''
    /\ output st' = printed
    /\ output st'' = (output st' ++ printed)%list
    /\ filesystem st'' = filesystem st'
    /\ libmachine_log st'' = libmachine_log st'.
Proof.
  destruct (example_createDirs Sample.flags ∅) as [st1 E].
  apply (hook_runs_again Sample.Minipath Sample.MakeMiniPath Sample.GetClientType _ _ E).
Defined.

(** Witness of X15: a regular file where the minikube directory should be. *)
Lemma hook_exit_is_a_directory_failure_witness :
  exists st',
    PersistentPreRun Sample.Minipath Sample.MakeMiniPath Sample.GetClientType
      (Sample.started Sample.flags ∅ Sample.blocked_home) = Exit 1 st'
    /\ exists pre p post err,
         dirs Sample.Minipath Sample.MakeMiniPath = (pre ++ p :: post)%list
         /\ (forall q, q ∈ pre -> is_dir (filesystem st') q)
         /\ ~ is_dir (filesystem st') p
         /\ output st' = [fatal_message err]
         /\ libmachine_log st' = Log.New
         /\ clientType st' = 0.
Proof.
  destruct example_blocked as [st' E]. exists st'. split; [exact E|].
  exact (proj2 (hook_exit_is_a_directory_failure Sample.Minipath Sample.MakeMiniPath
                  Sample.GetClientType _ _ _ E)).
Defined.

(** Witness of X17: a regular file where the minikube directory should be. *)
Lemma file_in_the_way_is_fatal_witness :
  exists st',
    PersistentPreRun Sample.Minipath Sample.MakeMiniPath Sample.GetClientType
      (Sample.started Sample.flags ∅ Sample.blocked_home) = Exit 1 st'.
Proof.
  apply (file_in_the_way_is_fatal Sample.Minipath Sample.MakeMiniPath Sample.GetClientType
           (Sample.started Sample.flags ∅ Sample.blocked_home)
           Sample.Minipath (Os.Undecodable "unexpected end of JSON input")).
  - left.
  - vm_compute. reflexivity.
Defined.

(** Witness of X18: [--show-libmachine-logs] on the command line. *)
Lemma deprecated_flag_prints_notice_witness :
  exists st',
    PersistentPreRun Sample.Minipath Sample.MakeMiniPath Sample.GetClientType
      Sample.deprecated_flag_given = Return tt st'
    /\ output st'
       = [Println deprecation_notice; UpdateNotificationCheck; KubectlDownloadMsgCheck].
Proof.
  destruct example_createDirs_deprecated as [st1 E].
  apply (deprecated_flag_prints_notice Sample.Minipath Sample.MakeMiniPath
           Sample.GetClientType Sample.deprecated_flag_given st1 showLibmachineLogs
           {| Name := showLibmachineLogs; Value_ := BoolValue true; DefValue := "false";
              Changed := true |}
           true E).
  - vm_compute. reflexivity.
  - vm_compute. reflexivity.
  - vm_compute. reflexivity.
  - reflexivity.
  - reflexivity.
Defined.

(** Witness of X19: a home directory without anything of minikube. *)
Lemma hook_leaves_configuration_witness :
  exists st',
    PersistentPreRun Sample.Minipath Sample.MakeMiniPath Sample.GetClientType
      (Sample.started Sample.flags ∅ Sample.fresh_home) = Return tt st'
    /\ pflag_CommandLine st' = Sample.flags
    /\ PersistentFlags st' = Sample.persistent_flags
    /\ viper st' = Viper.BindPFlags Viper.New Sample.persistent_flags
    /\ environ st' = ∅
    /\ enableUpdateNotification st' = true
    /\ enableKubectlDownloadMsg st' = true.
Proof.
  destruct example_hook as [st' E]. exists st'. split; [exact E|].
  exact (hook_leaves_configuration Sample.Minipath Sample.MakeMiniPath
           Sample.GetClientType _ _ E).
Defined.

(** Witness of X20: a logger that discards, with [--v=9]; a logger with
    debug output on, with no flag given. *)
Lemma hook_gate_is_one_way_witness :
  (exists st',
      PersistentPreRun Sample.Minipath Sample.MakeMiniPath Sample.GetClientType
        (set_libmachine_log
           (Sample.started (Sample.flags_with "v" "9") ∅ Sample.fresh_home)
           Sample.discarding)
      = Return tt st'
      /\ Log.outWriter (libmachine_log st') = Log.Discard
      /\ Log.errWriter (libmachine_log st') = Log.Discard)
  /\ (exists st',
        PersistentPreRun Sample.Minipath Sample.MakeMiniPath Sample.GetClientType
          (set_libmachine_log (Sample.started Sample.flags ∅ Sample.fresh_home)
             Sample.debugging)
        = Return tt st'
        /\ Log.isDebug (libmachine_log st') = true).
Proof.
  split.
  - set (st := set_libmachine_log
                 (Sample.started (Sample.flags_with "v" "9") ∅ Sample.fresh_home)
                 Sample.discarding).
    destruct (example_createDirs_in st eq_refl) as [st1 E].
    assert (E' : exists st', PersistentPreRun Sample.Minipath Sample.MakeMiniPath
                               Sample.GetClientType st = Return tt st').
    { rewrite PersistentPreRun_eq, E. eauto. }
    destruct E' as [st' E']. exists st'. split; [exact E'|].
    destruct (hook_gate_is_one_way Sample.Minipath Sample.MakeMiniPath
                Sample.GetClientType st st' E') as (Hout & Herr & _).
    split; [apply Hout | apply Herr]; reflexivity.
  - set (st := set_libmachine_log (Sample.started Sample.flags ∅ Sample.fresh_home)
                 Sample.debugging).
    destruct (example_createDirs_in st eq_refl) as [st1 E].
    assert (E' : exists st', PersistentPreRun Sample.Minipath Sample.MakeMiniPath
                               Sample.GetClientType st = Return tt st').
    { rewrite PersistentPreRun_eq, E. eauto. }
    destruct E' as [st' E']. exists st'. split; [exact E'|].
    destruct (hook_gate_is_one_way Sample.Minipath Sample.MakeMiniPath
                Sample.GetClientType st st' E') as (_ & _ & Hdebug).
    apply Hdebug. reflexivity.
Defined.

(** Witness of X21: the keys [log-dir] and [LOG_DIR] share a variable. *)
Lemma keys_share_environment_variable_witness :
  exists st',
    setupViper Sample.MinikubeEnvPrefix
      Sample.WantUpdateNotification Sample.ReminderWaitPeriodInHours
      Sample.WantReportError Sample.WantReportErrorPrompt
      Sample.WantKubectlDownloadMsg (Sample.started Sample.flags ∅ Sample.fresh_home)
    = Return tt st'
    /\ Viper.envName (viper st') (GoStrings.ToLower "log-dir")
       = Viper.envName (viper st') (GoStrings.ToLower "LOG_DIR").
Proof.
  destruct example_setupViper as [st' E]. exists st'. split; [exact E|].
  apply (proj2 (keys_share_environment_variable Sample.MinikubeEnvPrefix
                  Sample.WantUpdateNotification Sample.ReminderWaitPeriodInHours
                  Sample.WantReportError Sample.WantReportErrorPrompt
                  Sample.WantKubectlDownloadMsg _ _ "log-dir" "LOG_DIR" E)).
  reflexivity.
Defined.

(** Witness of X22: the process as it starts. *)
Lemma init_defines_and_binds_root_flags_witness :
  exists st',
    init Sample.MakeMiniPath (process_start ∅ Sample.fresh_home) = Return tt st'
    /\ PersistentFlags st' !! showLibmachineLogs
       = Some {| Name := showLibmachineLogs; Value_ := BoolValue false;
                 DefValue := "false"; Changed := false |}
    /\ Viper.pflags (viper st') !! showLibmachineLogs = Some showLibmachineLogs
    /\ initializers st' = [InitConfig].
Proof.
  apply (init_defines_and_binds_root_flags Sample.MakeMiniPath
           (process_start ∅ Sample.fresh_home)
           {| Name := "log_dir"; Value_ := StringValue ""; DefValue := "";
              Changed := false |}
           showLibmachineLogs).
  - reflexivity.
  - vm_compute. reflexivity.
  - left.
Defined.
